(** * FPGA Bookshelf tools: readers, report and visualizers

    A shallow embedding of [bookshelf_analyzer.py],
    [fixed_elements_visualizer.py] and [scl_visualizer.py].

    Conventions of the embedding.
    - A Python [str] is a [string] whose characters are code points
      below 256; a reader is a function of the lines of its file, as
      [f.readlines()] or iteration over the file object yields them.
      The functions named [..._from] start from the file instead: its
      opening and decoding, which the same [try] guards, may raise.
    - A Python [int] is a [Z]; a text of more than 4300 digits is not
      converted to or from an [int].
    - A Python [dict] (and a [Counter]) is an association list with
      unique keys kept in insertion order: the report iterates over
      dictionaries and [most_common] breaks ties by that order.
    - A reading loop inside [try: ... except Exception] is a fold of a
      step function that either continues with a new state or raises,
      handing back the state reached when the exception left the loop. *)

From Stdlib Require Import QArith Qpower Qabs Lqa.
From Stdlib Require Import List String Ascii ZArith Lia Bool Arith PeanoNat.
Import ListNotations.

Open Scope string_scope.
Open Scope list_scope.
Open Scope nat_scope.

Infix "+++" := String.append (right associativity, at level 60).

(** ** Python strings *)

Module PyStr.

(** [str.isspace] on one character, for code points below 256. *)
Definition is_space (c : ascii) : bool :=
  let n := nat_of_ascii c in
  ((9 <=? n) && (n <=? 13)) || ((28 <=? n) && (n <=? 32))
  || (n =? 133) || (n =? 160).

Fixpoint lstrip (s : string) : string :=
  match s with
  | EmptyString => EmptyString
  | String c r => if is_space c then lstrip r else s
  end.

(** [rstrip]: a character is kept when it is not white space or when
    something is kept after it. *)
Fixpoint rstrip (s : string) : string :=
  match s with
  | EmptyString => EmptyString
  | String c r =>
      match rstrip r with
      | EmptyString => if is_space c then EmptyString else String c EmptyString
      | r' => String c r'
      end
  end.

(** [s.strip()] *)
Definition strip (s : string) : string := rstrip (lstrip s).

(** [s.startswith(p)] *)
Definition startswith (s p : string) : bool := String.prefix p s.

(** [s.split()]: the maximal runs of characters that are not white space. *)
Fixpoint split (s : string) : list string :=
  match s with
  | EmptyString => []
  | String c r =>
      if is_space c then split r
      else match r with
           | EmptyString => [String c EmptyString]
           | String d _ =>
               if is_space d then String c EmptyString :: split r
               else match split r with
                    | t :: ts => String c t :: ts
                    | [] => [String c EmptyString]
                    end
           end
  end.

(** Truth value of a string: non-empty. *)
Definition truthy (s : string) : bool :=
  match s with EmptyString => false | _ => true end.

(** [parts[i]] for [i >= 0]; [None] stands for [IndexError]. *)
Definition index (parts : list string) (i : nat) : option string :=
  nth_error parts i.

(** [parts[-1]] *)
Definition last_item (parts : list string) : option string :=
  match parts with [] => None | p :: ps => Some (last ps p) end.

End PyStr.

(** ** Python integers read from and written to text *)

Module PyInt.

Definition is_digit (c : ascii) : bool :=
  let n := nat_of_ascii c in (48 <=? n) && (n <=? 57).

Definition digit_val (c : ascii) : Z := Z.of_nat (nat_of_ascii c - 48).

(** Decimal digits, single underscores allowed between two digits. *)
Fixpoint digits (acc : Z) (after_digit : bool) (s : string) : option Z :=
  match s with
  | EmptyString => if after_digit then Some acc else None
  | String c r =>
      if is_digit c then digits (10 * acc + digit_val c)%Z true r
      else if Ascii.eqb c "_"%char
           then (if after_digit then digits acc false r else None)
           else None
  end.

(** The number of digit characters of a text. *)
Fixpoint digit_count (s : string) : Z :=
  match s with
  | EmptyString => 0%Z
  | String c r => ((if is_digit c then 1 else 0) + digit_count r)%Z
  end.

(** [sys.get_int_max_str_digits()]: a text of more digits is refused. *)
Definition max_str_digits : Z := 4300%Z.

(** [int(s)] in base 10; [None] stands for [ValueError]. *)
Definition int (s : string) : option Z :=
  let t := PyStr.strip s in
  if (max_str_digits <? digit_count t)%Z then None
  else
    match t with
    | String "+"%char r => digits 0 false r
    | String "-"%char r => option_map Z.opp (digits 0 false r)
    | _ => digits 0 false t
    end.

Definition digit_char (d : Z) : ascii := ascii_of_nat (48 + Z.to_nat d).

(** Decimal digits of a natural number, most significant first. *)
Fixpoint nat_digits (fuel : nat) (n : Z) (acc : string) : string :=
  match fuel with
  | O => acc
  | S f =>
      let acc' := String (digit_char (n mod 10)%Z) acc in
      if (n <? 10)%Z then acc' else nat_digits f (n / 10)%Z acc'
  end.

(** The decimal text of [n]. *)
Definition str (n : Z) : string :=
  let a := Z.abs n in
  let d := nat_digits (S (Z.to_nat (Z.log2 a))) a EmptyString in
  if (n <? 0)%Z then String "-"%char d else d.

(** [str(n)] and [f"{n}"] on an [int] that may be large: a number of
    more than [max_str_digits] digits is refused; [None] stands for
    that [ValueError]. *)
Definition format (n : Z) : option string :=
  if (10 ^ max_str_digits <=? Z.abs n)%Z then None else Some (str n).

End PyInt.

(** ** Exceptions *)

Inductive exn : Type :=
| ValueError (token : string)   (* a token that a conversion refused, or
                                   the message of a size that numpy refused *)
| IndexError                    (* an index past the end of a list *)
| KeyError (key : string)       (* a key that a dictionary does not hold *)
| OverflowError                 (* a quotient too large for a float *)
| ZeroDivisionError
| MemoryError                   (* an array that could not be allocated *)
| OSError (message : string)    (* a file that could not be opened or read *)
| UnicodeDecodeError (message : string).   (* bytes that are no text *)

(** ** Python floats

    A [float] is an IEEE 754 binary64 number: a finite one is kept as
    sign, integer significand and binary exponent, standing for
    [(-1)^neg * m * 2^e]. Conversions from exact quotients round to
    nearest, ties to even, as the division of two [int]s, the product
    of two floats, [float(str)] and the [.2f] format all do. *)

Module PyFloat.
Open Scope Z_scope.

Inductive t : Type :=
| Finite (neg : bool) (m e : Z)
| Inf (neg : bool)
| NaN.

(** The integer nearest to [num / den], ties to even ([0 <= num], [0 < den]). *)
Definition round_half_even (num den : Z) : Z :=
  let q := num / den in
  match 2 * (num mod den) ?= den with
  | Lt => q
  | Gt => q + 1
  | Eq => if Z.even q then q else q + 1
  end.

(** The integer nearest to [num / (den * 2^e)]. *)
Definition scaled (num den e : Z) : Z :=
  if 0 <=? e then round_half_even num (den * 2 ^ e)
  else round_half_even (num * 2 ^ (- e)) den.

(** [num / den < 2^k] *)
Definition below_pow2 (num den k : Z) : bool :=
  if 0 <=? k then num <? den * 2 ^ k else num * 2 ^ (- k) <? den.

Definition emin : Z := -1074.
Definition emax : Z := 971.

(** The exponent of the binary64 number nearest to [num / den]: the
    significand gets 53 bits, fewer for a subnormal number. *)
Definition exponent (num den : Z) : Z :=
  let k := Z.log2 num - Z.log2 den in
  Z.max (if below_pow2 num den k then k - 53 else k - 52) emin.

(** The binary64 number nearest to [num / den], for [0 <= num] and
    [0 < den]; [None] when it is beyond the largest finite float. *)
Definition nearest (num den : Z) : option (Z * Z) :=
  if num =? 0 then Some (0, 0)
  else
    let e := exponent num den in
    let m := scaled num den e in
    let '(m, e) := if m =? 2 ^ 53 then (2 ^ 52, e + 1) else (m, e) in
    if emax <? e then None else Some (m, e).

(** [a / b] on two [int]s. *)
Definition truediv (a b : Z) : exn + t :=
  if b =? 0 then inl ZeroDivisionError
  else
    match nearest (Z.abs a) (Z.abs b) with
    | Some (m, e) => inr (Finite (xorb (a <? 0) (b <? 0)) m e)
    | None => inl OverflowError
    end.

(** [float(n)] for an [int] that fits. *)
Definition of_int (n : Z) : exn + t := truediv n 1.

(** [x * y] on two floats: an overflow gives an infinity. *)
Definition is_zero (x : t) : bool :=
  match x with Finite _ m _ => m =? 0 | _ => false end.

Definition sign_of (x : t) : bool :=
  match x with Finite s _ _ => s | Inf s => s | NaN => false end.

Definition mul (x y : t) : t :=
  match x, y with
  | NaN, _ | _, NaN => NaN
  | Finite s1 m1 e1, Finite s2 m2 e2 =>
      let e := e1 + e2 in
      let r := if 0 <=? e then nearest (m1 * m2 * 2 ^ e) 1
               else nearest (m1 * m2) (2 ^ (- e)) in
      match r with
      | Some (m, e') => Finite (xorb s1 s2) m e'
      | None => Inf (xorb s1 s2)
      end
  | _, _ =>
      if is_zero x || is_zero y then NaN
      else Inf (xorb (sign_of x) (sign_of y))
  end.

Definition two_digits (n : Z) : string :=
  String (PyInt.digit_char (n / 10))
    (String (PyInt.digit_char (n mod 10)) EmptyString).

Definition sign_text (neg : bool) : string := if neg then "-" else "".

(** [f"{x:.2f}"] *)
Definition format_2f (x : t) : string :=
  match x with
  | NaN => "nan"
  | Inf neg => sign_text neg +++ "inf"
  | Finite neg m e =>
      let n := scaled (m * 100) 1 (- e) in
      sign_text neg +++ PyInt.str (n / 100) +++ "." +++ two_digits (n mod 100)
  end.

(** *** [float(s)] *)

(** Underscores may only stand between two digits; they are removed
    before the number is read. [None] stands for a refusal. *)
Fixpoint drop_underscores (prev : ascii) (s : string) : option string :=
  match s with
  | EmptyString => if Ascii.eqb prev "_" then None else Some EmptyString
  | String c r =>
      if Ascii.eqb c "_" then
        if PyInt.is_digit prev then drop_underscores c r else None
      else if Ascii.eqb prev "_" && negb (PyInt.is_digit c) then None
      else option_map (String c) (drop_underscores c r)
  end.

(** A run of digits: its value, its length and what follows it. *)
Fixpoint span_digits (acc : Z) (n : Z) (s : string) : Z * Z * string :=
  match s with
  | String c r =>
      if PyInt.is_digit c
      then span_digits (10 * acc + PyInt.digit_val c) (n + 1) r
      else (acc, n, s)
  | EmptyString => (acc, n, s)
  end.

Definition lower_char (c : ascii) : ascii :=
  let n := nat_of_ascii c in
  if ((65 <=? n) && (n <=? 90))%nat then ascii_of_nat (n + 32) else c.

Fixpoint lower (s : string) : string :=
  match s with
  | EmptyString => EmptyString
  | String c r => String (lower_char c) (lower r)
  end.

(** The exponent part: [e] or [E], an optional sign and digits. With
    no digit there the text is not a number. *)
Definition read_exponent (s : string) : option Z :=
  match s with
  | EmptyString => Some 0
  | String c r =>
      if Ascii.eqb (lower_char c) "e" then
        let '(neg, d) :=
          match r with
          | String "+"%char d => (false, d)
          | String "-"%char d => (true, d)
          | _ => (false, r)
          end in
        match span_digits 0 0 d with
        | (v, n, EmptyString) =>
            if n =? 0 then None else Some (if neg then - v else v)
        | _ => None
        end
      else None
  end.

(** The float nearest to [mant * 10^ex]; beyond the range, an infinity. *)
Definition of_decimal (neg : bool) (mant ex : Z) : t :=
  let r := if 0 <=? ex then nearest (mant * 10 ^ ex) 1
           else nearest mant (10 ^ (- ex)) in
  match r with
  | Some (m, e) => Finite neg m e
  | None => Inf neg
  end.

Definition read_unsigned (neg : bool) (s : string) : option t :=
  let l := lower s in
  if String.eqb l "inf" || String.eqb l "infinity" then Some (Inf neg)
  else if String.eqb l "nan" then Some NaN
  else
    let '(ip, ni, r1) := span_digits 0 0 s in
    let '(fp, nf, r2) :=
      match r1 with
      | String "."%char r => span_digits ip 0 r
      | _ => (ip, 0, r1)
      end in
    if ni + nf =? 0 then None
    else
      match read_exponent r2 with
      | Some ex => Some (of_decimal neg fp (ex - nf))
      | None => None
      end.

(** [float(s)]; [None] stands for [ValueError]. *)
Definition of_string (s : string) : option t :=
  match drop_underscores " "%char (PyStr.strip s) with
  | None => None
  | Some u =>
      match u with
      | String "+"%char r => read_unsigned false r
      | String "-"%char r => read_unsigned true r
      | _ => read_unsigned false u
      end
  end.

End PyFloat.

(** ** The two regular expressions and the other string searches of
    the .aux reader *)

Module PyRe.

(** [sub in s] *)
Fixpoint contains (sub s : string) : bool :=
  String.prefix sub s
  || match s with
     | EmptyString => false
     | String _ r => contains sub r
     end.

(** [s[n:]] *)
Fixpoint drop (n : nat) (s : string) : string :=
  match n, s with
  | S k, String _ r => drop k r
  | _, _ => s
  end.

(** The longest prefix without white space: what [[^\s]+] takes. *)
Fixpoint word (s : string) : string :=
  match s with
  | EmptyString => EmptyString
  | String c r => if PyStr.is_space c then EmptyString else String c (word r)
  end.

(** [version\s+([^\s]+)] tried at the start of [s]: the word [version],
    at least one white space character, then the group. *)
Definition version_here (s : string) : option string :=
  if String.prefix "version" s then
    match drop 7 s with
    | String c r =>
        if PyStr.is_space c then
          match PyStr.lstrip r with
          | EmptyString => None
          | after => Some (word after)
          end
        else None
    | EmptyString => None
    end
  else None.

(** [re.search(r'version\s+([^\s]+)', s).group(1)]: the leftmost match. *)
Fixpoint search_version (s : string) : option string :=
  match version_here s with
  | Some g => Some g
  | None =>
      match s with
      | EmptyString => None
      | String _ r => search_version r
      end
  end.

(** [\d{2}/\d{2}/\d{4}] tried at the start of [s]. *)
Definition date_here (s : string) : option string :=
  match s with
  | String d1 (String d2 (String s1 (String m1 (String m2 (String s2
      (String y1 (String y2 (String y3 (String y4 _))))))))) =>
      if PyInt.is_digit d1 && PyInt.is_digit d2 && Ascii.eqb s1 "/"
         && PyInt.is_digit m1 && PyInt.is_digit m2 && Ascii.eqb s2 "/"
         && PyInt.is_digit y1 && PyInt.is_digit y2
         && PyInt.is_digit y3 && PyInt.is_digit y4
      then Some (String d1 (String d2 (String s1 (String m1 (String m2
                  (String s2 (String y1 (String y2 (String y3
                    (String y4 EmptyString))))))))))
      else None
  | _ => None
  end.

(** [re.search(r'(\d{2}/\d{2}/\d{4})', s).group(1)] *)
Fixpoint search_date (s : string) : option string :=
  match date_here s with
  | Some g => Some g
  | None =>
      match s with
      | EmptyString => None
      | String _ r => search_date r
      end
  end.

(** [s.split(':')]: the pieces between the colons, empty ones kept. *)
Fixpoint split_colon (s : string) : list string :=
  match s with
  | EmptyString => [EmptyString]
  | String c r =>
      if Ascii.eqb c ":" then EmptyString :: split_colon r
      else match split_colon r with
           | p :: ps => String c p :: ps
           | [] => [String c EmptyString]
           end
  end.

End PyRe.

(** ** Dictionaries and counters *)

Module PyDict.
Section Dict.
Context {V : Type}.

Definition dict := list (string * V).

Fixpoint get (d : dict) (k : string) : option V :=
  match d with
  | [] => None
  | (k', v) :: r => if String.eqb k k' then Some v else get r k
  end.

(** [k in d] *)
Definition mem (d : dict) (k : string) : bool :=
  match get d k with Some _ => true | None => false end.

(** [d[k] = v]: an existing key keeps its position, a new one goes last. *)
Fixpoint set (d : dict) (k : string) (v : V) : dict :=
  match d with
  | [] => [(k, v)]
  | (k', v') :: r =>
      if String.eqb k k' then (k', v) :: r else (k', v') :: set r k v
  end.

Definition keys (d : dict) : list string := map fst d.
Definition values (d : dict) : list V := map snd d.

(** [len(d)] *)
Definition len (d : dict) : nat := List.length d.
End Dict.
Arguments dict V : clear implicits.
End PyDict.

Module Counter.
Definition t := PyDict.dict nat.

(** [c[k]]: a missing key counts zero. *)
Definition count (c : t) (k : string) : nat :=
  match PyDict.get c k with Some n => n | None => 0 end.

(** [c[k] += 1] *)
Definition incr (c : t) (k : string) : t := PyDict.set c k (count c k + 1).

(** [sum(c.values())] *)
Definition total (c : t) : nat := list_sum (PyDict.values c).
End Counter.

(** ** Reading loops *)


Inductive outcome (S : Type) : Type :=
| Ok (s : S)
| Raise (e : exn) (s : S).
Arguments Ok {S} s.
Arguments Raise {S} e s.

Section Loop.
Context {S : Type}.
Variable step : S -> string -> outcome S.

(** [for line in lines: step] inside a [try]. *)
Fixpoint run (st : S) (lines : list string) : outcome S :=
  match lines with
  | [] => Ok st
  | l :: ls =>
      match step st l with
      | Ok st' => run st' ls
      | Raise e st' => Raise e st'
      end
  end.

Definition final (o : outcome S) : S :=
  match o with Ok s => s | Raise _ s => s end.

Definition raised (o : outcome S) : option exn :=
  match o with Ok _ => None | Raise e _ => Some e end.

(** The lines the loop body completed on. *)
Fixpoint processed (st : S) (lines : list string) : list string :=
  match lines with
  | [] => []
  | l :: ls =>
      match step st l with
      | Ok st' => l :: processed st' ls
      | Raise _ _ => []
      end
  end.
End Loop.

(** What the readers print. *)
Inductive printed : Type :=
| ErrorParsing (reader : string) (e : exn)
    (* print(f"Error parsing <reader> file {path}: {e}") *)
| ErrorDimensions (e : exn)
    (* print(f"Error parsing SITEMAP dimensions: {e}") *)
| InsufficientParts (line : string)
    (* print(f"Warning: SITEMAP line has insufficient parts: {line}") *)
| ErrorReading (what : string) (e : exn)
    (* print(f"Error reading <what> file: {e}") *)
| FileNotFound.
    (* print(f"Error: File '{path}' not found.") *)

Definition report_exn {S} (reader : string) (o : outcome S) : list printed :=
  match raised o with
  | Some e => [ErrorParsing reader e]
  | None => []
  end.

Definition TAB : string := String (ascii_of_nat 9) EmptyString.

(** ** Files

    What [open(path, 'r')] and the reads after it give: the lines
    decoded, and the exception that ended the reading, if any (an
    [OSError] of the opening, with no line, or a [UnicodeDecodeError]
    after the lines decoded so far). *)
Record text_file : Type := {
  decoded : list string;
  read_error : option exn
}.

(** [f.readlines()]: all the lines, or the exception. *)
Definition readlines (f : text_file) : exn + list string :=
  match read_error f with
  | Some e => inl e
  | None => inr (decoded f)
  end.

(** ** bookshelf_analyzer.py: the readers of [BookshelfAnalyzer] *)

Module Analyzer.
Import PyStr.

(** *** [parse_nodes_file] *)

Record nodes_state : Type := {
  instances : PyDict.dict string;
  instance_types : Counter.t
}.

Definition nodes_init : nodes_state :=
  {| instances := []; instance_types := [] |}.

Definition nodes_step (st : nodes_state) (raw : string) : outcome nodes_state :=
  let line := strip raw in
  if truthy line && negb (startswith line "#") then
    match split line with
    | instance_name :: cell_type :: _ =>          (* len(parts) >= 2 *)
        Ok {| instances := PyDict.set (instances st) instance_name cell_type;
              instance_types := Counter.incr (instance_types st) cell_type |}
    | _ => Ok st
    end
  else Ok st.

Definition parse_nodes_file (lines : list string)
  : PyDict.dict string * Counter.t * list printed :=
  let o := run nodes_step nodes_init lines in
  (instances (final o), instance_types (final o), report_exn "nodes" o).

(** [parse_nodes_file] from the file: [open] and [readlines] come first
    inside the [try], so that an exception of theirs leaves the results
    empty. *)
Definition parse_nodes_file_from (f : text_file)
  : PyDict.dict string * Counter.t * list printed :=
  match readlines f with
  | inl e => ([], [], [ErrorParsing "nodes" e])
  | inr lines => parse_nodes_file lines
  end.

(** *** [parse_nets_file] *)

Record connection : Type := { instance : string; pin : string }.

Record net : Type := {
  name : string;
  pin_count : Z;
  connections : list connection
}.

(** [current_net] is the very object stored in [nets] under its name:
    it is kept as that key, and an append to it updates the entry. *)
Record nets_state : Type := {
  nets : PyDict.dict net;
  net_count : nat;
  current_net : option string
}.

Definition nets_init : nets_state :=
  {| nets := []; net_count := 0; current_net := None |}.

Definition append_connection (nets : PyDict.dict net) (key : string)
           (c : connection) : PyDict.dict net :=
  match PyDict.get nets key with
  | Some n =>
      PyDict.set nets key
        {| name := name n; pin_count := pin_count n;
           connections := connections n ++ [c] |}
  | None => nets
  end.

Definition nets_step (st : nets_state) (raw : string) : outcome nets_state :=
  let line := strip raw in
  if startswith line "net" then
    match split line with
    | _ :: net_name :: count :: _ =>              (* len(parts) >= 3 *)
        match PyInt.int count with
        | Some n =>
            Ok {| nets := PyDict.set (nets st) net_name
                            {| name := net_name; pin_count := n;
                               connections := [] |};
                  net_count := net_count st + 1;
                  current_net := Some net_name |}
        | None => Raise (ValueError count) st
        end
    | _ => Ok st
    end
  else
    match startswith line TAB, current_net st with
    | true, Some key =>
        match split (strip line) with
        | i :: p :: _ =>                           (* len(connection) >= 2 *)
            Ok {| nets := append_connection (nets st) key
                            {| instance := i; pin := p |};
                  net_count := net_count st;
                  current_net := current_net st |}
        | _ => Ok st
        end
    | _, _ =>
        if startswith line "endnet"
        then Ok {| nets := nets st; net_count := net_count st;
                   current_net := None |}
        else Ok st
    end.

Definition parse_nets_file (lines : list string)
  : PyDict.dict net * nat * list printed :=
  let o := run nets_step nets_init lines in
  (nets (final o), net_count (final o), report_exn "nets" o).

(** *** [parse_pl_file] *)

Record placement : Type := { x : Z; y : Z; bel : Z }.

Record pl_state : Type := {
  fixed_instances : PyDict.dict placement;
  fixed_types : Counter.t
}.

Definition pl_init : pl_state :=
  {| fixed_instances := []; fixed_types := [] |}.

(** [hasattr(self, 'instances') and instance_name in self.instances]:
    [self_instances] is [None] while the attribute does not exist. *)
Definition instance_type (self_instances : option (PyDict.dict string))
           (instance_name : string) : string :=
  match self_instances with
  | Some m =>
      match PyDict.get m instance_name with
      | Some t => t
      | None => "UNKNOWN"
      end
  | None => "UNKNOWN"
  end.

Definition pl_step (self_instances : option (PyDict.dict string))
           (st : pl_state) (raw : string) : outcome pl_state :=
  let line := strip raw in
  if truthy line && negb (startswith line "#") then
    let parts := split line in
    match parts with
    | instance_name :: tx :: ty :: tbel :: _ :: _ =>   (* len(parts) >= 5 *)
        match last_item parts with
        | Some "FIXED" =>
            match PyInt.int tx with
            | None => Raise (ValueError tx) st
            | Some vx =>
                match PyInt.int ty with
                | None => Raise (ValueError ty) st
                | Some vy =>
                    match PyInt.int tbel with
                    | None => Raise (ValueError tbel) st
                    | Some vbel =>
                        Ok {| fixed_instances :=
                                PyDict.set (fixed_instances st) instance_name
                                  {| x := vx; y := vy; bel := vbel |};
                              fixed_types :=
                                Counter.incr (fixed_types st)
                                  (instance_type self_instances instance_name) |}
                    end
                end
            end
        | _ => Ok st
        end
    | _ => Ok st
    end
  else Ok st.

Definition parse_pl_file (self_instances : option (PyDict.dict string))
           (lines : list string)
  : PyDict.dict placement * Counter.t * list printed :=
  let o := run (pl_step self_instances) pl_init lines in
  (fixed_instances (final o), fixed_types (final o), report_exn "pl" o).

(** *** [parse_scl_file] *)

Record site : Type := { resources_of : PyDict.dict Z }.

Record site_entry : Type := { sx : Z; sy : Z; stype : string }.

Record scl_state : Type := {
  sites : PyDict.dict site;
  resources : PyDict.dict (list string);
  site_map : list site_entry;
  sitemap_dimensions : option (Z * Z);
  current_site : option string;
  in_resources : bool;
  in_sitemap : bool;
  site_map_count : nat;
  scl_log : list printed
}.

Definition max_site_map_entries : nat := 10000.

Definition scl_init : scl_state :=
  {| sites := []; resources := []; site_map := [];
     sitemap_dimensions := None; current_site := None;
     in_resources := false; in_sitemap := false;
     site_map_count := 0; scl_log := [] |}.

Definition with_sites v st :=
  {| sites := v; resources := resources st; site_map := site_map st;
     sitemap_dimensions := sitemap_dimensions st;
     current_site := current_site st; in_resources := in_resources st;
     in_sitemap := in_sitemap st; site_map_count := site_map_count st;
     scl_log := scl_log st |}.
Definition with_resources v st :=
  {| sites := sites st; resources := v; site_map := site_map st;
     sitemap_dimensions := sitemap_dimensions st;
     current_site := current_site st; in_resources := in_resources st;
     in_sitemap := in_sitemap st; site_map_count := site_map_count st;
     scl_log := scl_log st |}.
Definition with_entry e st :=
  {| sites := sites st; resources := resources st;
     site_map := site_map st ++ [e];
     sitemap_dimensions := sitemap_dimensions st;
     current_site := current_site st; in_resources := in_resources st;
     in_sitemap := in_sitemap st; site_map_count := site_map_count st + 1;
     scl_log := scl_log st |}.
Definition with_dimensions v st :=
  {| sites := sites st; resources := resources st; site_map := site_map st;
     sitemap_dimensions := v;
     current_site := current_site st; in_resources := in_resources st;
     in_sitemap := in_sitemap st; site_map_count := site_map_count st;
     scl_log := scl_log st |}.
Definition with_current_site v st :=
  {| sites := sites st; resources := resources st; site_map := site_map st;
     sitemap_dimensions := sitemap_dimensions st;
     current_site := v; in_resources := in_resources st;
     in_sitemap := in_sitemap st; site_map_count := site_map_count st;
     scl_log := scl_log st |}.
Definition with_in_resources v st :=
  {| sites := sites st; resources := resources st; site_map := site_map st;
     sitemap_dimensions := sitemap_dimensions st;
     current_site := current_site st; in_resources := v;
     in_sitemap := in_sitemap st; site_map_count := site_map_count st;
     scl_log := scl_log st |}.
Definition with_in_sitemap v st :=
  {| sites := sites st; resources := resources st; site_map := site_map st;
     sitemap_dimensions := sitemap_dimensions st;
     current_site := current_site st; in_resources := in_resources st;
     in_sitemap := v; site_map_count := site_map_count st;
     scl_log := scl_log st |}.
Definition with_print m st :=
  {| sites := sites st; resources := resources st; site_map := site_map st;
     sitemap_dimensions := sitemap_dimensions st;
     current_site := current_site st; in_resources := in_resources st;
     in_sitemap := in_sitemap st; site_map_count := site_map_count st;
     scl_log := scl_log st ++ [m] |}.

(** Truth value of [current_site]: a non-empty name. *)
Definition site_open (st : scl_state) : bool :=
  match current_site st with Some n => truthy n | None => false end.

(** The [SITEMAP] branch: the mode is entered before the line is split,
    and a bad dimension is caught on the spot. *)
Definition scl_sitemap_header (st : scl_state) (line : string) : scl_state :=
  let st := with_in_sitemap true st in
  match split line with
  | _ :: tw :: th :: _ =>                         (* len(parts) >= 3 *)
      match PyInt.int tw with
      | None => with_print (ErrorDimensions (ValueError tw)) st
      | Some width =>
          match PyInt.int th with
          | None => with_print (ErrorDimensions (ValueError th)) st
          | Some height => with_dimensions (Some (width, height)) st
          end
      end
  | _ => with_print (InsufficientParts line) st
  end.

(** [sites[current_site]['resources'][resource_type] = resource_count] *)
Definition scl_site_resource (st : scl_state) (line : string)
  : outcome scl_state :=
  match split line with
  | resource_type :: tcount :: _ =>               (* len(parts) >= 2 *)
      match PyInt.int tcount with
      | None => Raise (ValueError tcount) st
      | Some resource_count =>
          match current_site st with
          | None => Ok st
          | Some cs =>
              match PyDict.get (sites st) cs with
              | None => Raise (KeyError cs) st
              | Some s =>
                  Ok (with_sites
                        (PyDict.set (sites st) cs
                           {| resources_of :=
                                PyDict.set (resources_of s) resource_type
                                           resource_count |}) st)
              end
          end
      end
  | _ => Ok st
  end.

(** A line inside the site map; a [ValueError] on a coordinate only
    skips the line. *)
Definition scl_sitemap_entry (st : scl_state) (line : string) : scl_state :=
  match split line with
  | tx :: ty :: site_type :: _ =>                 (* len(parts) >= 3 *)
      if site_map_count st <? max_site_map_entries then
        match PyInt.int tx, PyInt.int ty with
        | Some vx, Some vy =>
            with_entry {| sx := vx; sy := vy; stype := site_type |} st
        | _, _ => st
        end
      else st
  | _ => st
  end.

Definition scl_step (st : scl_state) (raw : string) : outcome scl_state :=
  let line := strip raw in
  if startswith line "SITEMAP" then Ok (scl_sitemap_header st line)
  else if startswith line "END SITEMAP" then Ok (with_in_sitemap false st)
  else if startswith line "SITE" && negb (in_sitemap st) then
    match index (split line) 1 with
    | None => Raise IndexError st
    | Some n =>
        Ok (with_sites (PyDict.set (sites st) n {| resources_of := [] |})
              (with_current_site (Some n) st))
    end
  else if startswith line "END SITE" then Ok (with_current_site None st)
  else if site_open st && truthy line && negb (in_sitemap st) then
    scl_site_resource st line
  else if startswith line "RESOURCES" then Ok (with_in_resources true st)
  else if startswith line "END RESOURCES" then Ok (with_in_resources false st)
  else if in_resources st && truthy line then
    match split line with
    | resource_type :: cell_names =>
        match cell_names with
        | _ :: _ =>                               (* len(parts) >= 2 *)
            Ok (with_resources
                  (PyDict.set (resources st) resource_type cell_names) st)
        | [] => Ok st
        end
    | [] => Ok st
    end
  else if in_sitemap st && truthy line && negb (startswith line "SITEMAP")
  then Ok (scl_sitemap_entry st line)
  else Ok st.

Definition parse_scl_file (lines : list string)
  : PyDict.dict site * PyDict.dict (list string) * list site_entry
    * option (Z * Z) * list printed :=
  let o := run scl_step scl_init lines in
  let st := final o in
  (sites st, resources st, site_map st, sitemap_dimensions st,
   scl_log st ++ report_exn "scl" o).

(** *** [count_site_types_from_scl] *)

Record count_state : Type := {
  c_in_sitemap : bool;
  site_type_counts : Counter.t
}.

Definition count_init : count_state :=
  {| c_in_sitemap := false; site_type_counts := [] |}.

Definition count_step (st : count_state) (raw : string)
  : outcome count_state :=
  let line := strip raw in
  if startswith line "SITEMAP"
  then Ok {| c_in_sitemap := true; site_type_counts := site_type_counts st |}
  else if startswith line "END SITEMAP"
  then Ok {| c_in_sitemap := false; site_type_counts := site_type_counts st |}
  else if c_in_sitemap st && truthy line && negb (startswith line "SITEMAP")
  then
    match split line with
    | _ :: _ :: site_type :: _ =>                 (* len(parts) >= 3 *)
        Ok {| c_in_sitemap := c_in_sitemap st;
              site_type_counts := Counter.incr (site_type_counts st) site_type |}
    | _ => Ok st
    end
  else Ok st.

Definition count_site_types_from_scl (lines : list string)
  : Counter.t * list printed :=
  let o := run count_step count_init lines in
  (site_type_counts (final o), report_exn "scl" o).

(** *** [parse_wts_file] *)

Record wts_state : Type := {
  weights : PyDict.dict PyFloat.t;
  weight_count : nat
}.

Definition wts_init : wts_state := {| weights := []; weight_count := 0 |}.

Definition wts_step (st : wts_state) (raw : string) : outcome wts_state :=
  let line := strip raw in
  if truthy line && negb (startswith line "#") then
    match split line with
    | net_name :: tweight :: _ =>                 (* len(parts) >= 2 *)
        match PyFloat.of_string tweight with
        | Some weight =>
            Ok {| weights := PyDict.set (weights st) net_name weight;
                  weight_count := weight_count st + 1 |}
        | None => Raise (ValueError tweight) st
        end
    | _ => Ok st
    end
  else Ok st.

Definition parse_wts_file (lines : list string)
  : PyDict.dict PyFloat.t * nat * list printed :=
  let o := run wts_step wts_init lines in
  (weights (final o), weight_count (final o), report_exn "wts" o).

(** *** [generate_text_report]: the NETS and FIXED INSTANCES sections

    Each function gives the lines the report appends in its section,
    or the exception that leaves [generate_text_report]. *)

Definition rule30 : string := "------------------------------".

(** [Counter.most_common()]: by count, largest first; equal counts stay
    in insertion order. *)
Fixpoint insert_by_count (p : string * nat) (l : list (string * nat))
  : list (string * nat) :=
  match l with
  | [] => [p]
  | q :: r => if snd q <=? snd p then p :: l else q :: insert_by_count p r
  end.

Definition most_common (c : Counter.t) : list (string * nat) :=
  fold_right insert_by_count [] c.

(** [min(l)] and [max(l)] of a non-empty list. *)
Definition py_min (first : Z) (rest : list Z) : Z := fold_left Z.min rest first.
Definition py_max (first : Z) (rest : list Z) : Z := fold_left Z.max rest first.

(** [sum(l)] *)
Definition py_sum (l : list Z) : Z := fold_left Z.add l 0%Z.

(** The message of the [ValueError] of an [int] too long to print. *)
Definition int_too_long : string :=
  "Exceeds the limit (4300 digits) for integer string conversion; use sys.set_int_max_str_digits() to increase the limit".

Definition total_nets_line (net_count : nat) : string :=
  "Total Nets: " +++ PyInt.str (Z.of_nat net_count).

Definition nets_section (nets : PyDict.dict net) (net_count : nat)
  : exn + list string :=
  let head := ["NETS:"; rule30; total_nets_line net_count] in
  match map pin_count (PyDict.values nets) with
  | [] => inr (head ++ [""])                      (* if nets: is false *)
  | first :: rest =>
      let pin_counts := first :: rest in
      match PyFloat.truediv (py_sum pin_counts)
                            (Z.of_nat (List.length pin_counts)) with
      | inl e => inl e
      | inr avg =>
          match PyInt.format (py_min first rest),
                PyInt.format (py_max first rest) with
          | Some mn, Some mx =>
              inr (head ++
                   ["Average Pins per Net: " +++ PyFloat.format_2f avg;
                    "Min Pins per Net: " +++ mn;
                    "Max Pins per Net: " +++ mx;
                    ""])
          | _, _ => inl (ValueError int_too_long)
          end
      end
  end.

Definition count_line (p : string * nat) : string :=
  "  " +++ fst p +++ ": " +++ PyInt.str (Z.of_nat (snd p)).

Definition fixed_section (fixed_instances : PyDict.dict placement)
           (fixed_types : Counter.t) : list string :=
  ["FIXED INSTANCES:"; rule30;
   "Total Fixed Instances: "
     +++ PyInt.str (Z.of_nat (PyDict.len fixed_instances));
   "Fixed Instance Types:"]
  ++ map count_line (most_common fixed_types)
  ++ [""].

(** *** [parse_aux_file] *)

(** [aux_data]: a key is [None] while it is not in the dictionary. *)
Record aux_data : Type := {
  version : option string;
  date : option string;
  design_name : option string;
  included_files : option (list string)
}.

Definition aux_init : aux_data :=
  {| version := None; date := None; design_name := None;
     included_files := None |}.

Definition or_keep {A : Type} (new old : option A) : option A :=
  match new with Some _ => new | None => old end.

Definition aux_step (st : aux_data) (raw : string) : outcome aux_data :=
  let line := strip raw in
  if startswith line "#" then
    if PyRe.contains "version" line then
      Ok {| version := or_keep (PyRe.search_version line) (version st);
            date := or_keep (PyRe.search_date line) (date st);
            design_name := design_name st;
            included_files := included_files st |}
    else Ok st
  else if PyRe.contains ":" line then
    match PyRe.split_colon line with
    | [before; after] =>                      (* len(parts) == 2 *)
        Ok {| version := version st; date := date st;
              design_name := Some (strip before);
              included_files := Some (map strip (split after)) |}
    | _ => Ok st
    end
  else Ok st.

Definition parse_aux_file (lines : list string) : aux_data * list printed :=
  let o := run aux_step aux_init lines in
  (final o, report_exn "aux" o).

(** [parse_aux_file] from the file, with [open] and [readlines]. *)
Definition parse_aux_file_from (f : text_file) : aux_data * list printed :=
  match readlines f with
  | inl e => (aux_init, [ErrorParsing "aux" e])
  | inr lines => parse_aux_file lines
  end.

(** *** [parse_lib_file] *)

Record lib_pin : Type := {
  pin_name : string;
  pin_type : string;
  attributes : list string
}.

Record cell_info : Type := {
  pins : list lib_pin;
  cell_pin_count : nat
}.

Record lib_state : Type := {
  cells : PyDict.dict cell_info;
  current_cell : option string
}.

Definition lib_init : lib_state := {| cells := []; current_cell := None |}.

(** The loop over [pin_info[1:]]. *)
Fixpoint pin_attrs (attrs : list string) (pin_type : string)
         (pin_attr : list string) : string * list string :=
  match attrs with
  | [] => (pin_type, pin_attr)
  | attr :: rest =>
      if String.eqb attr "INPUT" || String.eqb attr "OUTPUT"
      then pin_attrs rest attr pin_attr
      else if String.eqb attr "CLOCK" || String.eqb attr "CTRL"
           then pin_attrs rest pin_type (pin_attr ++ [attr])
           else pin_attrs rest pin_type pin_attr
  end.

Definition cell_open (st : lib_state) : option string :=
  match current_cell st with
  | Some n => if truthy n then Some n else None
  | None => None
  end.

Definition lib_step (st : lib_state) (raw : string) : outcome lib_state :=
  let line := strip raw in
  if startswith line "CELL" then
    match index (split line) 1 with
    | None => Raise IndexError st
    | Some n =>
        Ok {| cells := PyDict.set (cells st) n {| pins := []; cell_pin_count := 0 |};
              current_cell := Some n |}
    end
  else
    match startswith line "PIN", cell_open st with
    | true, Some cur =>
        match tl (split line) with                 (* pin_info *)
        | [] => Raise IndexError st
        | pname :: attrs =>
            let '(ptype, pattr) := pin_attrs attrs "INPUT" [] in
            match PyDict.get (cells st) cur with
            | None => Raise (KeyError cur) st
            | Some c =>
                Ok {| cells :=
                        PyDict.set (cells st) cur
                          {| pins := pins c
                                     ++ [{| pin_name := pname; pin_type := ptype;
                                            attributes := pattr |}];
                             cell_pin_count := cell_pin_count c + 1 |};
                      current_cell := current_cell st |}
            end
        end
    | _, _ =>
        if startswith line "END CELL"
        then Ok {| cells := cells st; current_cell := None |}
        else Ok st
    end.

Definition parse_lib_file (lines : list string)
  : PyDict.dict cell_info * list printed :=
  let o := run lib_step lib_init lines in
  (cells (final o), report_exn "lib" o).

(** *** [analyze_directory]

    A directory is given by its [.aux] files in listing order, each with
    its stem and its lines, and by the content of every other file that
    exists, by name. *)

Record directory : Type := {
  aux_files : list (string * list string);
  file : string -> option (list string)
}.

Record analysis : Type := {
  a_design_name : string;
  a_aux_data : aux_data;
  a_cells : PyDict.dict cell_info;
  a_instances : PyDict.dict string;
  a_instance_types : Counter.t;
  a_nets : PyDict.dict net;
  a_net_count : nat;
  a_fixed_instances : PyDict.dict placement;
  a_fixed_types : Counter.t;
  a_sites : PyDict.dict site;
  a_resources : PyDict.dict (list string);
  a_site_map : list site_entry;
  a_sitemap_dimensions : option (Z * Z);
  a_site_type_counts : Counter.t;
  a_weights : PyDict.dict PyFloat.t;
  a_weight_count : nat
}.

(** [f(file) if file.exists() else default] *)
Definition if_exists {A : Type} (d : directory) (name : string)
           (f : list string -> A) (default : A) : A :=
  match file d name with
  | Some lines => f lines
  | None => default
  end.

Definition analyze_directory (d : directory) : option analysis :=
  match aux_files d with
  | [] => None                                 (* "No .aux files found" *)
  | (design, aux_lines) :: _ =>
      let aux := fst (parse_aux_file aux_lines) in
      let cells := if_exists d (design +++ ".lib")
                     (fun l => fst (parse_lib_file l)) [] in
      let '(instances, instance_types) :=
        if_exists d (design +++ ".nodes")
          (fun l => fst (parse_nodes_file l)) ([], []) in
      let '(nets, net_count) :=
        if_exists d (design +++ ".nets")
          (fun l => fst (parse_nets_file l)) ([], 0) in
      let '(fixed_instances, fixed_types) :=
        if_exists d (design +++ ".pl")
          (fun l => fst (parse_pl_file (Some instances) l)) ([], []) in
      let '(sites, resources, site_map, dims) :=
        if_exists d (design +++ ".scl")
          (fun l => fst (parse_scl_file l)) ([], [], [], None) in
      let '(weights, weight_count) :=
        if_exists d (design +++ ".wts")
          (fun l => fst (parse_wts_file l)) ([], 0) in
      let counts := if_exists d (design +++ ".scl")
                      (fun l => fst (count_site_types_from_scl l)) [] in
      Some {| a_design_name := design; a_aux_data := aux; a_cells := cells;
              a_instances := instances; a_instance_types := instance_types;
              a_nets := nets; a_net_count := net_count;
              a_fixed_instances := fixed_instances;
              a_fixed_types := fixed_types;
              a_sites := sites; a_resources := resources;
              a_site_map := site_map; a_sitemap_dimensions := dims;
              a_site_type_counts := counts;
              a_weights := weights; a_weight_count := weight_count |}
  end.

(** *** [generate_text_report]: the LIBRARY CELLS and Nodes sections *)

Definition cells_section (cells : PyDict.dict cell_info) : list string :=
  ["LIBRARY CELLS:"; rule30;
   "Total Cell Types: " +++ PyInt.str (Z.of_nat (PyDict.len cells));
   "Cell Types:"]
  ++ map (fun kv => "  " +++ fst kv +++ ": "
                    +++ PyInt.str (Z.of_nat (cell_pin_count (snd kv))) +++ " pins")
         cells
  ++ [""].

Definition nodes_section (instances : PyDict.dict string)
           (instance_types : Counter.t) : list string :=
  ["Nodes:"; rule30;
   "Total Nodes: " +++ PyInt.str (Z.of_nat (PyDict.len instances));
   "Node Types:"]
  ++ map count_line (most_common instance_types)
  ++ [""].

End Analyzer.


(** ** What the two visualizers draw

    A figure is kept as the elements the code adds to it: the unit
    squares, the grid-line switch, the legend and the statistics text.
    Axis limits, labels, title and figure size are left out; of the
    figure size only the two divisions are kept, which can raise. *)

Definition NL : string := String (ascii_of_nat 10) EmptyString.

(** [sys.maxsize]: a list holds at most that many items. *)
Definition maxsize : Z := (2 ^ 63 - 1)%Z.

Record rectangle : Type := {
  rx : Z; ry : Z;
  linewidth : string; edgecolor : string; facecolor : string; alpha : string
}.

Record figure : Type := {
  patches : list rectangle;
  grid_lines : bool;
  legend : option (list (string * string));   (* label, colour *)
  stats_text : string;
  saved_to : option string;
  shown : bool
}.

(** What a call of a drawing function comes to. *)
Inductive drawing : Type :=
| NoFigure (message : string)     (* an early [return] after a [print] *)
| Failed (e : exn) (messages : list string)
                                  (* an exception leaves the function,
                                     after these messages *)
| Drawn (f : figure) (messages : list string).

(** [sorted(l)] on strings. *)
Fixpoint insert_sorted (k : string) (l : list string) : list string :=
  match l with
  | [] => [k]
  | h :: r => if String.leb k h then k :: l else h :: insert_sorted k r
  end.

Definition sorted (l : list string) : list string :=
  fold_right insert_sorted [] l.

(** [palette[i % len(palette)]] *)
Definition palette_color (palette : list string) (i : nat) : string :=
  nth (i mod List.length palette) palette "".

(** [for i, k in enumerate(keys): colors[k] = palette[i % len(palette)]] *)
Fixpoint assign_colors (palette : list string) (i : nat) (keys : list string)
         (colors : PyDict.dict string) : PyDict.dict string :=
  match keys with
  | [] => colors
  | k :: r =>
      assign_colors palette (i + 1) r
        (PyDict.set colors k (palette_color palette i))
  end.

(** [range(n)] *)
Definition range (n : Z) : list Z := map Z.of_nat (seq 0 (Z.to_nat n)).

Definition in_bounds (width height x y : Z) : bool :=
  ((0 <=? x) && (x <? width) && (0 <=? y) && (y <? height))%Z.

(** [width / 20] and [height / 20], from which the figure size is
    taken: a quotient beyond the floats raises [OverflowError]. *)
Definition figsize_fails (width height : Z) : option exn :=
  match PyFloat.truediv width 20 with
  | inl e => Some e
  | inr _ =>
      match PyFloat.truediv height 20 with
      | inl e => Some e
      | inr _ => None
      end
  end.

(** The machine the program runs on, as far as a drawing depends on
    it: whether an array of so many bytes can be allocated, and the
    exception [plt.savefig] raises for a path, if any (a format that is
    not supported, a directory that does not exist). *)
Record machine : Type := {
  allocates : Z -> bool;
  savefig : string -> option exn
}.

Definition array_too_big : string :=
  "array is too big; `arr.size * arr.dtype.itemsize` is larger than the maximum possible size.".

(** [np.full((height, width), '', dtype=object)] with 64-bit sizes: the
    exception it raises, if any. A size that is no C integer is refused;
    then, size after size, a negative one and a byte count (8 bytes per
    cell) that is no C integer are refused; then the grid is allocated,
    if the machine can. *)
Definition np_full (m : machine) (height width : Z) : option exn :=
  let fits n := ((- maxsize - 1 <=? n) && (n <=? maxsize))%Z in
  if negb (fits height && fits width)
  then Some (ValueError "Maximum allowed dimension exceeded")
  else if (height <? 0)%Z
  then Some (ValueError "negative dimensions are not allowed")
  else if (maxsize <? 8 * height)%Z
  then Some (ValueError array_too_big)
  else if (width <? 0)%Z
  then Some (ValueError "negative dimensions are not allowed")
  else if (maxsize <? 8 * height * width)%Z
  then Some (ValueError array_too_big)
  else if allocates m (8 * height * width)%Z then None
  else Some MemoryError.

(** [plt.show()] is reached only on a small grid. *)
Definition show_messages (show_plot : bool) (width height : Z) : list string :=
  if show_plot && (5000 <? width * height)%Z
  then ["Warning: Grid is too large for interactive display. Use --show flag and save to file instead."]
  else [].

(** [if output_file:] the path to save to: neither [None] nor empty. *)
Definition to_save (output_file : option string) : option string :=
  match output_file with
  | Some f => if PyStr.truthy f then Some f else None
  | None => None
  end.

Definition save_messages (output_file : option string) : list string :=
  match to_save output_file with
  | Some f => ["Saving visualization to: " +++ f; "Visualization saved successfully!"]
  | None => []
  end.

(** [plt.savefig(output_file, ...)]: the exception of the saving, if
    any, and what is printed before it. *)
Definition save_fails (m : machine) (output_file : option string)
  : option exn :=
  match to_save output_file with
  | Some f => savefig m f
  | None => None
  end.

Definition saving_message (output_file : option string) : list string :=
  match to_save output_file with
  | Some f => ["Saving visualization to: " +++ f]
  | None => []
  end.

(** ** fixed_elements_visualizer.py *)

Module FixedViz.
Import PyStr.

(** *** [parse_scl_file]: the dimensions of the first [SITEMAP] line
    with three tokens *)
Fixpoint scl_loop (lines : list string) : exn + (Z * Z) :=
  match lines with
  | [] => inr (0, 0)%Z
  | raw :: rest =>
      let line := strip raw in
      if startswith line "SITEMAP" then
        match split line with
        | _ :: tw :: th :: _ =>                   (* len(parts) >= 3 *)
            match PyInt.int tw with
            | None => inl (ValueError tw)
            | Some width =>
                match PyInt.int th with
                | None => inl (ValueError th)
                | Some height => inr (width, height)      (* break *)
                end
            end
        | _ => scl_loop rest
        end
      else scl_loop rest
  end.

Definition parse_scl_file (lines : list string) : Z * Z * list printed :=
  match scl_loop lines with
  | inr d => (d, [])
  | inl e => ((0, 0)%Z, [ErrorReading "SCL" e])
  end.

(** *** [parse_pl_file] *)

Record fixed_instance : Type := {
  name : string; x : Z; y : Z; bel : Z
}.

Definition pl_step (acc : list fixed_instance) (raw : string)
  : outcome (list fixed_instance) :=
  let line := strip raw in
  if truthy line && negb (startswith line "#") then
    let parts := split line in
    match parts with
    | instance_name :: tx :: ty :: tbel :: _ :: _ =>   (* len(parts) >= 5 *)
        match last_item parts with
        | Some "FIXED" =>
            match PyInt.int tx with
            | None => Raise (ValueError tx) acc
            | Some vx =>
                match PyInt.int ty with
                | None => Raise (ValueError ty) acc
                | Some vy =>
                    match PyInt.int tbel with
                    | None => Raise (ValueError tbel) acc
                    | Some vbel =>
                        Ok (acc ++ [{| name := instance_name; x := vx;
                                       y := vy; bel := vbel |}])
                    end
                end
            end
        | _ => Ok acc
        end
    | _ => Ok acc
    end
  else Ok acc.

(** The [except] clause returns an empty list, not the list built so far. *)
Definition parse_pl_file (lines : list string)
  : list fixed_instance * list printed :=
  match run pl_step [] lines with
  | Ok l => (l, [])
  | Raise e _ => ([], [ErrorReading "PL" e])
  end.

(** *** [parse_nodes_file] *)

Definition nodes_step (acc : PyDict.dict string) (raw : string)
  : outcome (PyDict.dict string) :=
  let line := strip raw in
  if truthy line && negb (startswith line "#") then
    match split line with
    | instance_name :: cell_type :: _ =>          (* len(parts) >= 2 *)
        Ok (PyDict.set acc instance_name cell_type)
    | _ => Ok acc
    end
  else Ok acc.

Definition parse_nodes_file (lines : list string)
  : PyDict.dict string * list printed :=
  match run nodes_step [] lines with
  | Ok d => (d, [])
  | Raise e _ => ([], [ErrorReading "nodes" e])
  end.

(** [parse_nodes_file] from the file: the loop iterates over the file
    object, so that an exception of the reading comes after the lines
    decoded before it; like any other it gives the empty mapping. *)
Definition parse_nodes_file_from (f : text_file)
  : PyDict.dict string * list printed :=
  match run nodes_step [] (decoded f), read_error f with
  | Ok d, None => (d, [])
  | Ok _, Some e => ([], [ErrorReading "nodes" e])
  | Raise e _, _ => ([], [ErrorReading "nodes" e])
  end.

(** *** [create_fixed_elements_visualization] *)

Definition INSTANCE_COLORS_PALETTE : list string :=
  ["#FF6B6B"; "#4ECDC4"; "#45B7D1"; "#96CEB4"; "#FFEAA7";
   "#DDA0DD"; "#98D8C8"; "#F7DC6F"; "#BB8FCE"; "#85C1E9";
   "#F8C471"; "#82E0AA"; "#F1948A"; "#85C1E9"; "#D7BDE2"].

(** Truth value of [instance_types]: neither [None] nor empty. *)
Definition typed (instance_types : option (PyDict.dict string)) : bool :=
  match instance_types with
  | Some (_ :: _) => true
  | _ => false
  end.

Definition types_of (instance_types : option (PyDict.dict string))
  : PyDict.dict string :=
  match instance_types with Some m => m | None => [] end.

Definition count_types (instance_types : PyDict.dict string)
           (fixed_instances : list fixed_instance) : Counter.t :=
  fold_left
    (fun c i =>
       match PyDict.get instance_types (name i) with
       | Some t => Counter.incr c t
       | None => Counter.incr c "UNKNOWN"
       end)
    fixed_instances [].

Definition instance_colors (instance_types : option (PyDict.dict string))
           (fixed_instances : list fixed_instance) : PyDict.dict string :=
  if typed instance_types then
    assign_colors INSTANCE_COLORS_PALETTE 0
      (sorted (PyDict.keys (count_types (types_of instance_types)
                                        fixed_instances))) []
  else [("FIXED", "#FF6B6B")].

Definition instance_color (instance_types : option (PyDict.dict string))
           (colors : PyDict.dict string) (i : fixed_instance) : string :=
  if typed instance_types then
    match PyDict.get (types_of instance_types) (name i) with
    | Some inst_type =>
        match PyDict.get colors inst_type with
        | Some c => c
        | None => "#FF6B6B"
        end
    | None => "#FF6B6B"
    end
  else "#FF6B6B".

(** The loop that plots the fixed instances. *)
Fixpoint plot (width height : Z)
         (instance_types : option (PyDict.dict string))
         (colors : PyDict.dict string)
         (fixed_instances : list fixed_instance) : list rectangle :=
  match fixed_instances with
  | [] => []
  | i :: rest =>
      if in_bounds width height (x i) (y i) then
        {| rx := x i; ry := y i; linewidth := "0.5"; edgecolor := "black";
           facecolor := instance_color instance_types colors i;
           alpha := "0.8" |}
        :: plot width height instance_types colors rest
      else plot width height instance_types colors rest
  end.

(** [len(fixed_instances) / (width * height) * 100] when the grid has
    cells, the [int] zero otherwise; then [:.2f]. *)
Definition coverage_text (n : nat) (width height : Z) : exn + string :=
  if (0 <? width * height)%Z then
    match PyFloat.truediv (Z.of_nat n) (width * height),
          PyFloat.of_int 100 with
    | inr q, inr hundred => inr (PyFloat.format_2f (PyFloat.mul q hundred))
    | inl e, _ => inl e
    | _, inl e => inl e
    end
  else inr "0.00".

Definition type_line (p : string * nat) : string :=
  "  " +++ fst p +++ ": " +++ PyInt.str (Z.of_nat (snd p)) +++ NL.

Definition by_type_text (instance_types : option (PyDict.dict string))
           (fixed_instances : list fixed_instance) : string :=
  if typed instance_types then
    NL +++ "By Instance Type:" +++ NL
    +++ String.concat ""
          (map type_line
             (Analyzer.most_common
                (count_types (types_of instance_types) fixed_instances)))
  else "".

Definition statistics (width height : Z)
           (instance_types : option (PyDict.dict string))
           (fixed_instances : list fixed_instance) : exn + string :=
  let n := List.length fixed_instances in
  match coverage_text n width height with
  | inl e => inl e
  | inr cov =>
      inr ("Fixed Elements Statistics:" +++ NL
           +++ "Total Fixed Instances: " +++ PyInt.str (Z.of_nat n) +++ NL
           +++ "Grid Coverage: " +++ PyInt.str (Z.of_nat n) +++ " / "
           +++ PyInt.str (width * height) +++ " sites" +++ NL
           +++ "Coverage: " +++ cov +++ "%" +++ NL
           +++ by_type_text instance_types fixed_instances)
  end.

Definition create_fixed_elements_visualization
           (m : machine)
           (width height : Z) (fixed_instances : list fixed_instance)
           (instance_types : option (PyDict.dict string))
           (output_file : option string) (show_plot : bool) : drawing :=
  if ((width =? 0) || (height =? 0))%Z
  then NoFigure "Error: Invalid site map dimensions."
  else
    match fixed_instances with
    | [] => NoFigure "Warning: No fixed instances found."
    | _ :: _ =>
        let colors := instance_colors instance_types fixed_instances in
        match figsize_fails width height with
        | Some e => Failed e []
        | None =>
        match np_full m height width with
        | Some e => Failed e []
        | None =>
          match statistics width height instance_types fixed_instances with
          | inl e => Failed e []
          | inr text =>
            match save_fails m output_file with
            | Some e => Failed e (saving_message output_file)
            | None =>
              Drawn
                {| patches := plot width height instance_types colors
                                   fixed_instances;
                   grid_lines := (width * height <=? 10000)%Z;
                   legend :=
                     if typed instance_types
                        && (PyDict.len colors <=? 10)
                     then Some colors else None;
                   stats_text := text;
                   saved_to := to_save output_file;
                   shown := show_plot && (width * height <=? 5000)%Z |}
                (save_messages output_file
                 ++ show_messages show_plot width height)
            end
          end
        end
        end
    end.

End FixedViz.

(** ** scl_visualizer.py *)

Module SiteViz.
Import PyStr.

Definition SITE_COLORS_PALETTE : list string :=
  ["#4CAF50"; "#2196F3"; "#FF9800"; "#9C27B0"; "#F44336";
   "#00BCD4"; "#FFEB3B"; "#795548"; "#607D8B"; "#E91E63";
   "#3F51B5"; "#8BC34A"; "#FF5722"; "#9E9E9E"; "#673AB7"].

(** A [set] of strings: a list without repetition. *)
Definition set_add (k : string) (s : list string) : list string :=
  if existsb (String.eqb k) s then s else s ++ [k].

(** *** [parse_scl_file] *)

(** The first loop is the one of the other visualizer. *)
Definition dimensions_loop := FixedViz.scl_loop.

Definition sites_step (acc : list (Z * Z * string) * list string)
           (raw : string) : list (Z * Z * string) * list string :=
  let line := strip raw in
  if truthy line && negb (startswith line "SITE")
     && negb (startswith line "RESOURCES")
     && negb (startswith line "SITEMAP") then
    match split line with
    | tx :: ty :: site_type :: _ =>               (* len(parts) >= 3 *)
        match PyInt.int tx, PyInt.int ty with
        | Some vx, Some vy =>
            (fst acc ++ [(vx, vy, site_type)], set_add site_type (snd acc))
        | _, _ => acc                              (* except ValueError: continue *)
        end
    | _ => acc
    end
  else acc.

Definition parse_scl_file (lines : list string)
  : Z * Z * list (Z * Z * string) * list string * list printed :=
  match dimensions_loop lines with
  | inl e => (0%Z, 0%Z, [], [], [ErrorReading "SCL" e])
  | inr (width, height) =>
      let r := fold_left sites_step lines ([], []) in
      (width, height, fst r, snd r, [])
  end.

(** *** [create_site_visualization] *)

Definition grid := Z -> Z -> string.           (* row, then column *)

Definition grid_set (g : grid) (row col : Z) (v : string) : grid :=
  fun r c => if ((r =? row) && (c =? col))%Z then v else g r c.

Definition fill_grid (width height : Z) (sites : list (Z * Z * string)) : grid :=
  fold_left
    (fun g '(x, y, site_type) =>
       if in_bounds width height x y then grid_set g y x site_type else g)
    sites (fun _ _ => "").

Definition site_colors (site_types : list string) : PyDict.dict string :=
  assign_colors SITE_COLORS_PALETTE 0 (sorted site_types) [].

Definition color_of (colors : PyDict.dict string) (site_type : string) : string :=
  match PyDict.get colors site_type with
  | Some c => c
  | None => "#E0E0E0"
  end.

Definition cell (g : grid) (colors : PyDict.dict string)
           (line_width : string) (is_large_grid : bool) (y x : Z)
  : list rectangle :=
  let site_type := g y x in
  if truthy site_type then
    [{| rx := x; ry := y; linewidth := line_width; edgecolor := "black";
        facecolor := color_of colors site_type; alpha := "0.8" |}]
  else if negb is_large_grid then
    [{| rx := x; ry := y; linewidth := "0.05"; edgecolor := "lightgray";
        facecolor := "white"; alpha := "0.3" |}]
  else [].

(** [site_counts[t] = site_counts.get(t, 0) + 1] over the sites, then
    the lines in the order of [sorted(site_counts.items())]. *)
Definition site_counts (sites : list (Z * Z * string)) : Counter.t :=
  fold_left (fun c '(_, _, site_type) => Counter.incr c site_type) sites [].

Definition statistics (sites : list (Z * Z * string)) : string :=
  let counts := site_counts sites in
  "Site Statistics:" +++ NL
  +++ String.concat ""
        (map (fun k => k +++ ": "
                       +++ PyInt.str (Z.of_nat (Counter.count counts k)) +++ NL)
             (sorted (PyDict.keys counts))).

Definition create_site_visualization
           (m : machine)
           (width height : Z) (sites : list (Z * Z * string))
           (site_types : list string)
           (output_file : option string) (show_plot : bool) : drawing :=
  if ((width =? 0) || (height =? 0))%Z
  then NoFigure "Error: Invalid site map dimensions."
  else
    let colors := site_colors site_types in
    match figsize_fails width height with
    | Some e => Failed e []
    | None =>
    match np_full m height width with
    | Some e => Failed e []
    | None =>
      let g := fill_grid width height sites in
      let is_large_grid := (10000 <? width * height)%Z in
      let line_width := if is_large_grid then "0.1" else "0.5" in
      match save_fails m output_file with
      | Some e => Failed e (saving_message output_file)
      | None =>
      Drawn
        {| patches :=
             flat_map
               (fun y => flat_map (cell g colors line_width is_large_grid y)
                                  (range width))
               (range height);
           grid_lines := negb is_large_grid;
           legend :=
             if List.length site_types <=? 10
             then Some (map (fun t => (t, color_of colors t))
                            (sorted site_types))
             else None;
           stats_text := statistics sites;
           saved_to := to_save output_file;
           shown := show_plot && (width * height <=? 5000)%Z |}
        (save_messages output_file ++ show_messages show_plot width height)
      end
    end
    end.

End SiteViz.

(** * Properties *)

(** ** Strings *)

Section StripFacts.
Import PyStr.

Lemma rstrip_head (c : ascii) (r : string) :
  rstrip (String c r) = EmptyString \/ exists r', rstrip (String c r) = String c r'.
Proof.
  simpl. destruct (rstrip r).
  - destruct (is_space c); [left | right; eexists]; reflexivity.
  - right. eexists. reflexivity.
Qed.

Lemma lstrip_head (s : string) (c : ascii) (r : string) :
  lstrip s = String c r -> is_space c = false.
Proof.
  induction s as [|a s IH]; simpl; [discriminate|].
  destruct (is_space a) eqn:E; [exact IH|].
  intros H. injection H as -> _. exact E.
Qed.

(** A stripped line never starts with white space. *)
Lemma strip_head (s : string) (c : ascii) (r : string) :
  strip s = String c r -> is_space c = false.
Proof.
  unfold strip. destruct (lstrip s) as [|a t] eqn:E; [discriminate|].
  intros H. destruct (rstrip_head a t) as [H0 | [r' H0]]; rewrite H0 in H.
  - discriminate.
  - injection H as -> _. exact (lstrip_head _ _ _ E).
Qed.

(** So the test [line.startswith('\t')] fails on every stripped line. *)
Lemma strip_not_tab (s : string) : startswith (strip s) TAB = false.
Proof.
  unfold startswith, TAB. destruct (strip s) as [|c r] eqn:E; [reflexivity|].
  cbn [String.prefix].
  destruct (ascii_dec (ascii_of_nat 9) c) as [<-|]; [|reflexivity].
  apply strip_head in E. discriminate.
Qed.
End StripFacts.

(** ** Dictionaries *)

Section DictFacts.
Import PyDict.
Context {V : Type}.
Implicit Types (d : dict V) (k : string) (v : V).

Lemma mem_keys d k : mem d k = true <-> In k (keys d).
Proof.
  unfold mem. induction d as [|[k' v'] d IH]; simpl.
  - split; [discriminate | tauto].
  - destruct (String.eqb_spec k k') as [->|N].
    + split; auto.
    + rewrite IH. split; [auto | intros [E|]; [congruence | assumption]].
Qed.

Lemma keys_set d k v :
  keys (set d k v) = if mem d k then keys d else keys d ++ [k].
Proof.
  unfold mem. induction d as [|[k' v'] d IH]; simpl; [reflexivity|].
  destruct (String.eqb_spec k k') as [->|N]; simpl; [reflexivity|].
  rewrite IH. destruct (get d k); reflexivity.
Qed.

Lemma len_set d k v :
  len (set d k v) = if mem d k then len d else S (len d).
Proof.
  unfold len. rewrite <- !(length_map fst). fold (keys (set d k v)) (keys d).
  rewrite keys_set. destruct (mem d k); [reflexivity|].
  rewrite length_app. simpl. lia.
Qed.

Lemma in_keys_set d k v k0 :
  In k0 (keys (set d k v)) <-> In k0 (keys d) \/ k0 = k.
Proof.
  rewrite keys_set. destruct (mem d k) eqn:E.
  - apply mem_keys in E. split; [auto | intros [H| ->]; assumption].
  - rewrite in_app_iff. simpl. intuition congruence.
Qed.

Lemma NoDup_keys_set d k v : NoDup (keys d) -> NoDup (keys (set d k v)).
Proof.
  intros H. rewrite keys_set. destruct (mem d k) eqn:E; [assumption|].
  apply NoDup_app; [assumption | repeat constructor; simpl; tauto |].
  intros a Ha [<-|[]]. apply mem_keys in Ha. congruence.
Qed.

Lemma in_values_set d k v v0 :
  In v0 (values (set d k v)) -> In v0 (values d) \/ v0 = v.
Proof.
  induction d as [|[k' v'] d IH]; simpl.
  - intros [<-|[]]. auto.
  - destruct (String.eqb k k'); simpl; intros [<-|H]; auto.
    destruct (IH H); auto.
Qed.

Lemma get_set_same d k v : get (set d k v) k = Some v.
Proof.
  induction d as [|[k' v'] d IH]; simpl.
  - rewrite String.eqb_refl. reflexivity.
  - destruct (String.eqb k k') eqn:E; simpl; rewrite E; auto.
Qed.

Lemma get_set_other d k v k0 : k0 <> k -> get (set d k v) k0 = get d k0.
Proof.
  intros N. induction d as [|[k' v'] d IH]; simpl.
  - destruct (String.eqb_spec k0 k); congruence.
  - destruct (String.eqb_spec k k') as [->|]; simpl.
    + destruct (String.eqb_spec k0 k'); congruence.
    + rewrite IH. reflexivity.
Qed.
End DictFacts.

(** A duplicate-free list of keys against the list of all the names that
    were written: it is no longer, and shorter exactly when a name was
    written twice. *)
Lemma distinct_keys_count (ks hs : list string) :
  NoDup ks -> (forall k, In k ks <-> In k hs) ->
  List.length ks <= List.length hs
  /\ (List.length ks < List.length hs <-> ~ NoDup hs)
  /\ (List.length ks = List.length hs <-> NoDup hs).
Proof.
  intros ND E.
  assert (I1 : incl ks hs) by (intros k; apply E).
  assert (I2 : incl hs ks) by (intros k; apply E).
  pose proof (NoDup_incl_length ND I1) as L.
  assert (A : NoDup hs -> List.length hs <= List.length ks)
    by (intros H; exact (NoDup_incl_length H I2)).
  assert (B : List.length hs <= List.length ks -> NoDup hs)
    by (intros H; exact (NoDup_incl_NoDup ND H I1)).
  split; [exact L|]. split; split.
  - intros Hlt Hn. apply A in Hn. lia.
  - intros Hn. destruct (Nat.lt_ge_cases (List.length ks) (List.length hs)); auto.
    exfalso. auto.
  - intros Heq. apply B. lia.
  - intros Hn. apply A in Hn. lia.
Qed.

(** ** Counters *)

Section CounterFacts.
Import PyDict Counter.

Lemma total_set (c : Counter.t) (k : string) (n : nat) :
  total (set c k n) + count c k = total c + n.
Proof.
  unfold total, count. induction c as [|[k' m] c IH]; simpl.
  - lia.
  - destruct (String.eqb k k'); simpl; lia.
Qed.

Lemma total_incr (c : Counter.t) (k : string) : total (incr c k) = S (total c).
Proof. unfold incr. pose proof (total_set c k (count c k + 1)). lia. Qed.

Lemma count_incr_same (c : Counter.t) (k : string) :
  count (incr c k) k = S (count c k).
Proof. unfold incr, count at 1. rewrite get_set_same. lia. Qed.

Lemma count_incr_other (c : Counter.t) (k k0 : string) :
  k0 <> k -> count (incr c k) k0 = count c k0.
Proof. intros N. unfold incr, count at 1. rewrite get_set_other; auto. Qed.
End CounterFacts.

(** [collect f l]: the values [f] gives on the elements of [l], in order. *)
Fixpoint collect {A B : Type} (f : A -> option B) (l : list A) : list B :=
  match l with
  | [] => []
  | a :: r => match f a with Some b => b :: collect f r | None => collect f r end
  end.



Section StoppingLoop.
Context {S : Type}.
Variable step : S -> string -> outcome S.
Variable bad : string -> option string.

Hypothesis step_stops :
  forall st raw,
    match bad raw with
    | Some t => step st raw = Raise (ValueError t) st
    | None => exists st', step st raw = Ok st'
    end.

End StoppingLoop.

(** ** The .nets reader *)

Section NetsReader.
Import PyStr PyDict Analyzer.

(** The name a line declares when it is a valid [net] header: it starts
    with [net], has at least three tokens and an integer third token. *)
Definition net_header (raw : string) : option string :=
  let line := strip raw in
  if startswith line "net" then
    match split line with
    | _ :: n :: c :: _ =>
        match PyInt.int c with Some _ => Some n | None => None end
    | _ => None
    end
  else None.



Definition no_connections (d : dict net) : Prop :=
  forall n, In n (values d) -> connections n = [].

(** One line: either it is a header, which writes a fresh net under its
    name and counts it, or it raises and changes nothing, or it leaves
    the nets and the count as they are. *)
Lemma nets_step_cases (st : nets_state) (raw : string) :
  match nets_step st raw with
  | Ok st' =>
      match net_header raw with
      | Some n =>
          exists c, nets st' = set (nets st) n
                                 {| name := n; pin_count := c; connections := [] |}
                    /\ net_count st' = net_count st + 1
      | None => nets st' = nets st /\ net_count st' = net_count st
      end
  | Raise _ st' => st' = st /\ net_header raw = None
  end.
Proof.
  unfold nets_step, net_header. rewrite strip_not_tab.
  destruct (startswith (strip raw) "net").
  - destruct (split (strip raw)) as [|t0 [|t1 [|t2 ts]]]; simpl; auto.
    destruct (PyInt.int t2); simpl; eauto.
  - destruct (startswith (strip raw) "endnet"); simpl; auto.
Qed.

Lemma nets_run_invariant (lines : list string) (st : nets_state) :
  let st' := final (run nets_step st lines) in
  let hs := collect net_header (processed nets_step st lines) in
  (NoDup (keys (nets st)) -> NoDup (keys (nets st')))
  /\ (forall k, In k (keys (nets st')) <-> In k (keys (nets st)) \/ In k hs)
  /\ net_count st' = net_count st + List.length hs
  /\ (no_connections (nets st) -> no_connections (nets st')).
Proof.
  revert st. induction lines as [|raw lines IH]; intros st; simpl.
  - split; [auto | split; [intros k; simpl; tauto | split; [simpl; lia | auto]]].
  - pose proof (nets_step_cases st raw) as C.
    destruct (nets_step st raw) as [st1|e st1]; simpl.
    + specialize (IH st1). simpl in IH. destruct IH as (I1 & I2 & I3 & I4).
      destruct (net_header raw) as [n|].
      * destruct C as (c & Hn & Hc). rewrite Hn in *.
        split; [|split; [|split]].
        -- intros H. apply I1. apply NoDup_keys_set. exact H.
        -- intros k. rewrite I2, in_keys_set. simpl. intuition congruence.
        -- rewrite I3, Hc. simpl. lia.
        -- intros H. apply I4. intros m Hm.
           destruct (in_values_set _ _ _ _ Hm) as [Hm'| ->]; auto.
      * destruct C as (Hn & Hc). rewrite Hn, Hc in *.
        split; [|split; [|split]]; auto.
    + destruct C as (-> & _). split; [auto | split; [intros k; simpl; tauto | split; [simpl; lia | auto]]].
Qed.

(** Whatever the input, no net of the result has a connection. *)
Lemma nets_never_connected (lines : list string) :
  let '(nets, _, _) := parse_nets_file lines in no_connections nets.
Proof.
  unfold parse_nets_file.
  destruct (nets_run_invariant lines nets_init) as (_ & _ & _ & H).
  apply H. intros n [].
Qed.

Definition nets_block : list string :=
  ["net N1 2" +++ NL; TAB +++ "I1 A" +++ NL; TAB +++ "I2 B" +++ NL;
   "endnet" +++ NL].

(** C1. The .nets reader on the block [net N1 2], two tab-prefixed
    connection lines [I1 A] and [I2 B], [endnet]: the net N1 is there
    with declared pin count 2, but its connection list is empty, not
    the two entries (I1,A), (I2,B). Every line is stripped before the
    test for a leading tab, so on any input no connection is ever
    appended to any net. *)
Theorem nets_block_loses_connections :
  parse_nets_file nets_block
  = ([("N1", {| name := "N1"; pin_count := 2; connections := [] |})], 1, [])
  /\ forall lines n,
       In n (values (fst (fst (parse_nets_file lines)))) -> connections n = [].
Proof.
  split; [reflexivity|].
  intros lines. pose proof (nets_never_connected lines) as H.
  destruct (parse_nets_file lines) as [[d c] m]. exact H.
Qed.







End NetsReader.

(** ** The .pl reader *)

Section PlReader.
Import PyStr PyDict Analyzer.

Variable self_instances : option (dict string).

(** The FixedPlacement a line is captured as: the line is not empty and
    not a comment, has at least five tokens, the last one [FIXED], and
    integers in the second to fourth. *)
Definition fixed_placement (raw : string) : option (string * placement) :=
  let line := strip raw in
  if truthy line && negb (startswith line "#") then
    match split line with
    | n :: tx :: ty :: tbel :: t4 :: ts =>
        match last_item (n :: tx :: ty :: tbel :: t4 :: ts),
              PyInt.int tx, PyInt.int ty, PyInt.int tbel with
        | Some "FIXED", Some vx, Some vy, Some vbel =>
            Some (n, {| x := vx; y := vy; bel := vbel |})
        | _, _, _, _ => None
        end
    | _ => None
    end
  else None.

(** The captured placements, in input order, repeats kept. *)
Definition captured (lines : list string) : list (string * placement) :=
  collect fixed_placement (processed (pl_step self_instances) pl_init lines).

(** The placement of the last captured line for an instance. *)
Definition last_placement (n : string) (cs : list (string * placement))
           (before : option placement) : option placement :=
  fold_left (fun acc c => if String.eqb n (fst c) then Some (snd c) else acc)
            cs before.

(** The name is not a key of the .nodes map (or there is no map). *)
Definition absent (n : string) : bool :=
  match self_instances with
  | Some m => negb (mem m n)
  | None => true
  end.

Lemma absent_unknown (n : string) :
  absent n = true -> instance_type self_instances n = "UNKNOWN".
Proof.
  unfold absent, instance_type, mem. destruct self_instances as [m|]; auto.
  destruct (get m n); [discriminate | reflexivity].
Qed.

Lemma pl_step_cases (st : pl_state) (raw : string) :
  match pl_step self_instances st raw with
  | Ok st' =>
      match fixed_placement raw with
      | Some (n, p) =>
          fixed_instances st' = set (fixed_instances st) n p
          /\ fixed_types st'
             = Counter.incr (fixed_types st) (instance_type self_instances n)
      | None => st' = st
      end
  | Raise _ st' => st' = st /\ fixed_placement raw = None
  end.
Proof.
  unfold pl_step, fixed_placement.
  destruct (truthy (strip raw) && negb (startswith (strip raw) "#")); auto.
  destruct (split (strip raw)) as [|t0 [|t1 [|t2 [|t3 [|t4 ts]]]]]; auto.
  cbv zeta.
  destruct (last_item (t0 :: t1 :: t2 :: t3 :: t4 :: ts)) as [l|]; auto.
  destruct (String.eqb_spec l "FIXED") as [->|N].
  - destruct (PyInt.int t1); [|auto].
    destruct (PyInt.int t2); [|auto].
    destruct (PyInt.int t3); [|auto].
    simpl. auto.
  - assert (forall (A : Type) (a b : A),
               match l with "FIXED" => a | _ => b end = b) as E.
    { intros A a b.
      repeat (match goal with
              | |- context [match ?s with EmptyString => _ | String _ _ => _ end] =>
                  destruct s; try reflexivity
              | |- context [match ?c with Ascii _ _ _ _ _ _ _ _ => _ end] =>
                  destruct c
              | |- context [if ?b then _ else _] => destruct b; try reflexivity
              end).
      congruence. }
    rewrite !E. auto.
Qed.

Definition typed_as (t : string) (c : string * placement) : bool :=
  String.eqb (instance_type self_instances (fst c)) t.

Lemma pl_run_invariant (lines : list string) (st : pl_state) :
  let st' := final (run (pl_step self_instances) st lines) in
  let cs := collect fixed_placement
                    (processed (pl_step self_instances) st lines) in
  (NoDup (keys (fixed_instances st)) -> NoDup (keys (fixed_instances st')))
  /\ (forall k, In k (keys (fixed_instances st'))
                <-> In k (keys (fixed_instances st)) \/ In k (map fst cs))
  /\ (forall n, get (fixed_instances st') n
                = last_placement n cs (get (fixed_instances st) n))
  /\ Counter.total (fixed_types st')
     = Counter.total (fixed_types st) + List.length cs
  /\ (forall t, Counter.count (fixed_types st') t
                = Counter.count (fixed_types st) t
                  + List.length (filter (typed_as t) cs)).
Proof.
  revert st. induction lines as [|raw lines IH]; intros st; simpl.
  - split; [auto | split; [intros k; simpl; tauto | ]].
    split; [reflexivity | split; [simpl; lia | intros t; simpl; lia]].
  - pose proof (pl_step_cases st raw) as C.
    destruct (pl_step self_instances st raw) as [st1|e st1]; simpl.
    + specialize (IH st1). simpl in IH. destruct IH as (I1 & I2 & I3 & I4 & I5).
      destruct (fixed_placement raw) as [[n p]|].
      * destruct C as (Hn & Hc). rewrite Hn, Hc in *.
        split; [|split; [|split; [|split]]].
        -- intros H. apply I1. apply NoDup_keys_set. exact H.
        -- intros k. rewrite I2, in_keys_set. simpl. intuition congruence.
        -- intros k. rewrite I3. unfold last_placement. simpl.
           destruct (String.eqb_spec k n) as [->|N].
           ++ rewrite get_set_same. reflexivity.
           ++ rewrite get_set_other by assumption. reflexivity.
        -- rewrite I4, total_incr. simpl. lia.
        -- intros t. rewrite I5. simpl. unfold typed_as at 2. simpl.
           destruct (String.eqb_spec (instance_type self_instances n) t) as [<-|N].
           ++ rewrite count_incr_same. simpl. lia.
           ++ rewrite count_incr_other by congruence. lia.
      * subst st1. split; [|split; [|split; [|split]]]; auto.
    + destruct C as (-> & _).
      split; [auto | split; [intros k; simpl; tauto | ]].
      split; [reflexivity | split; [simpl; lia | intros t; simpl; lia]].
Qed.

End PlReader.

(** [most_common] only reorders the counts. *)
Lemma most_common_sum (c : Counter.t) :
  list_sum (map snd (Analyzer.most_common c)) = Counter.total c.
Proof.
  unfold Analyzer.most_common, Counter.total, PyDict.values.
  induction c as [|p c IH]; simpl; [reflexivity|].
  rewrite <- IH. generalize (fold_right Analyzer.insert_by_count [] c) as l.
  induction l as [|q l IHl]; simpl; [reflexivity|].
  destruct (snd q <=? snd p); simpl; [reflexivity|].
  rewrite IHl. lia.
Qed.

Section PlClaims.
Import PyDict Analyzer.

Definition twice_fixed : list string :=
  ["I1 1 1 0 FIXED" +++ NL; "I1 2 3 0 FIXED" +++ NL].

(** C10. After reading any .pl input: the fixed-type counts sum to the
    number of captured FIXED lines, while the fixed-instances mapping
    keeps one entry per distinct instance, holding the placement of
    the last captured line for it; so the sum is at least the number
    of entries, with equality exactly when the captured lines have
    distinct instance names. The report prints the number of entries
    as Total Fixed Instances and one line per type whose counts add up
    to the sum; a repeated line makes the two differ. *)
Theorem fixed_types_sum_vs_fixed_instances :
  (forall self_instances lines,
      let '(fixed_instances, fixed_types, _) :=
        parse_pl_file self_instances lines in
      let cs := captured self_instances lines in
      Counter.total fixed_types = List.length cs
      /\ len fixed_instances <= Counter.total fixed_types
      /\ (len fixed_instances = Counter.total fixed_types
          <-> NoDup (map fst cs))
      /\ (forall n, get fixed_instances n = last_placement n cs None)
      /\ fixed_section fixed_instances fixed_types
         = ["FIXED INSTANCES:"; rule30;
            "Total Fixed Instances: "
              +++ PyInt.str (Z.of_nat (len fixed_instances));
            "Fixed Instance Types:"]
           ++ map count_line (most_common fixed_types) ++ [""]
      /\ list_sum (map snd (most_common fixed_types))
         = Counter.total fixed_types)
  /\ parse_pl_file None twice_fixed
     = ([("I1", {| x := 2; y := 3; bel := 0 |})], [("UNKNOWN", 2)], []).
Proof.
  split; [|reflexivity].
  intros inst lines. unfold parse_pl_file, captured.
  destruct (pl_run_invariant inst lines pl_init) as (I1 & I2 & I3 & I4 & _).
  simpl in I1, I2, I3, I4.
  set (st := final (run (pl_step inst) pl_init lines)) in *.
  set (cs := collect fixed_placement (processed (pl_step inst) pl_init lines)) in *.
  assert (E : forall k, In k (keys (fixed_instances st)) <-> In k (map fst cs))
    by (intros k; rewrite I2; tauto).
  destruct (distinct_keys_count _ _ (I1 (NoDup_nil _)) E) as (L1 & _ & L3).
  unfold keys in L1, L3. rewrite !length_map in L1, L3.
  unfold len. rewrite I4.
  split; [reflexivity | split; [exact L1 | split; [exact L3 | split; [exact I3|]]]].
  split; [reflexivity|]. rewrite most_common_sum. exact I4.
Qed.

(** C7. In the .pl reader every captured FixedPlacement is counted in
    the fixed-type distribution, under the type the .nodes map gives
    its instance and under [UNKNOWN] when the map does not have it:
    the counts sum to the number of captured placements, the count of
    [UNKNOWN] covers every captured placement whose instance is absent
    from the map, and with no map or an empty one it is the number of
    all captured placements. *)
Theorem absent_instances_counted_unknown
        (self_instances : option (dict string)) (lines : list string) :
  let fixed_types := snd (fst (parse_pl_file self_instances lines)) in
  let cs := captured self_instances lines in
  Counter.total fixed_types = List.length cs
  /\ (forall t, Counter.count fixed_types t
                = List.length (filter (typed_as self_instances t) cs))
  /\ (forall c, absent self_instances (fst c) = true ->
                typed_as self_instances "UNKNOWN" c = true)
  /\ List.length (filter (fun c => absent self_instances (fst c)) cs)
     <= Counter.count fixed_types "UNKNOWN"
  /\ (self_instances = None \/ self_instances = Some [] ->
      Counter.count fixed_types "UNKNOWN" = List.length cs)
  /\ (forall st raw n p,
         fixed_placement raw = Some (n, p) ->
         absent self_instances n = true ->
         exists st',
           pl_step self_instances st raw = Ok st'
           /\ Counter.count (Analyzer.fixed_types st') "UNKNOWN"
              = S (Counter.count (Analyzer.fixed_types st) "UNKNOWN")).
Proof.
  unfold parse_pl_file, captured. simpl.
  destruct (pl_run_invariant self_instances lines pl_init)
    as (_ & _ & _ & I4 & I5).
  simpl in I4, I5.
  set (st := final (run (pl_step self_instances) pl_init lines)) in *.
  set (cs := collect (fixed_placement)
               (processed (pl_step self_instances) pl_init lines)) in *.
  assert (A : forall c, absent self_instances (fst c) = true ->
                        typed_as self_instances "UNKNOWN" c = true).
  { intros c H. unfold typed_as. rewrite (absent_unknown _ _ H). reflexivity. }
  split; [exact I4 | split; [exact I5 | split; [exact A | split; [|split]]]].
  - rewrite I5. clear -A. induction cs as [|c cs IH]; simpl; [lia|].
    destruct (absent self_instances (fst c)) eqn:E.
    + rewrite (A c E). simpl. lia.
    + destruct (typed_as self_instances "UNKNOWN" c); simpl; lia.
  - intros H. rewrite I5. clear -H A. induction cs as [|c cs IH]; simpl; [lia|].
    rewrite A; [simpl; lia|].
    destruct H as [-> | ->]; reflexivity.
  - intros st0 raw n p Hp Ha. pose proof (pl_step_cases self_instances st0 raw) as C.
    rewrite Hp in C. destruct (pl_step self_instances st0 raw) as [st1|e st1].
    + exists st1. destruct C as (_ & ->). split; [reflexivity|].
      rewrite (absent_unknown _ _ Ha). apply count_incr_same.
    + destruct C as (_ & C). discriminate.
Qed.

End PlClaims.

(** ** Exceptions at the file boundary *)

Section LoopFacts.
Context {S : Type}.
Variable step : S -> string -> outcome S.

Lemma run_app (pre post : list string) (st : S) :
  run step st (pre ++ post)
  = match run step st pre with
    | Ok st' => run step st' post
    | Raise e st' => Raise e st'
    end.
Proof.
  revert st. induction pre as [|l pre IH]; intros st; simpl; [reflexivity|].
  destruct (step st l); auto.
Qed.

Lemma processed_app (pre post : list string) (st : S) :
  processed step st (pre ++ post)
  = match run step st pre with
    | Ok st' => processed step st pre ++ processed step st' post
    | Raise _ _ => processed step st pre
    end.
Proof.
  revert st. induction pre as [|l pre IH]; intros st; simpl; [reflexivity|].
  destruct (step st l) as [st1|e st1]; [|reflexivity].
  rewrite IH. destruct (run step st1 pre); reflexivity.
Qed.

(** The loop stops at the first line that raises. *)
Lemma run_stops (pre post : list string) (bad : string) (st st' st'' : S)
      (e : exn) :
  run step st pre = Ok st' -> step st' bad = Raise e st'' ->
  run step st (pre ++ bad :: post) = Raise e st''.
Proof. intros H1 H2. rewrite run_app, H1. simpl. rewrite H2. reflexivity. Qed.
End LoopFacts.

Section ExceptionPolicy.
Import PyStr PyDict.

(** A weight line whose second token is not a float. *)
Definition bad_weight (raw : string) : option string :=
  let line := strip raw in
  if truthy line && negb (startswith line "#") then
    match split line with
    | _ :: w :: _ =>
        match PyFloat.of_string w with Some _ => None | None => Some w end
    | _ => None
    end
  else None.

(** A [FIXED] line with a token among the second to fourth that is not
    an integer: the first such token. *)
Definition bad_fixed (raw : string) : option string :=
  let line := strip raw in
  if truthy line && negb (startswith line "#") then
    match split line with
    | n :: tx :: ty :: tbel :: t4 :: ts =>
        match last_item (n :: tx :: ty :: tbel :: t4 :: ts) with
        | Some "FIXED" =>
            match PyInt.int tx, PyInt.int ty, PyInt.int tbel with
            | None, _, _ => Some tx
            | Some _, None, _ => Some ty
            | Some _, Some _, None => Some tbel
            | Some _, Some _, Some _ => None
            end
        | _ => None
        end
    | _ => None
    end
  else None.

Lemma wts_step_cases (st : Analyzer.wts_state) (raw : string) :
  Analyzer.wts_step st raw
  = match bad_weight raw with
    | Some w => Raise (ValueError w) st
    | None => Ok (final (Analyzer.wts_step st raw))
    end.
Proof.
  unfold Analyzer.wts_step, bad_weight.
  destruct (truthy (strip raw) && negb (startswith (strip raw) "#")); auto.
  destruct (split (strip raw)) as [|t0 [|t1 ts]]; auto.
  destruct (PyFloat.of_string t1); auto.
Qed.

Lemma match_fixed {A : Type} (l : string) (a b : A) :
  match l with "FIXED" => a | _ => b end
  = if String.eqb l "FIXED" then a else b.
Proof.
  destruct (String.eqb_spec l "FIXED") as [->|N]; [reflexivity|].
  repeat (match goal with
          | |- context [match ?s with EmptyString => _ | String _ _ => _ end] =>
              destruct s; try reflexivity
          | |- context [match ?c with Ascii _ _ _ _ _ _ _ _ => _ end] =>
              destruct c
          | |- context [if ?b then _ else _] => destruct b; try reflexivity
          end).
  congruence.
Qed.

Lemma pl_step_raises (inst : option (dict string)) (st : Analyzer.pl_state)
      (raw : string) :
  Analyzer.pl_step inst st raw
  = match bad_fixed raw with
    | Some t => Raise (ValueError t) st
    | None => Ok (final (Analyzer.pl_step inst st raw))
    end.
Proof.
  unfold Analyzer.pl_step, bad_fixed.
  destruct (truthy (strip raw) && negb (startswith (strip raw) "#")); auto.
  destruct (split (strip raw)) as [|t0 [|t1 [|t2 [|t3 [|t4 ts]]]]]; auto.
  cbv zeta.
  destruct (last_item (t0 :: t1 :: t2 :: t3 :: t4 :: ts)) as [l|]; auto.
  rewrite !match_fixed. destruct (String.eqb l "FIXED"); auto.
  destruct (PyInt.int t1); auto.
  destruct (PyInt.int t2); auto.
  destruct (PyInt.int t3); auto.
Qed.

Lemma viz_pl_step_raises (acc : list FixedViz.fixed_instance) (raw : string) :
  FixedViz.pl_step acc raw
  = match bad_fixed raw with
    | Some t => Raise (ValueError t) acc
    | None => Ok (final (FixedViz.pl_step acc raw))
    end.
Proof.
  unfold FixedViz.pl_step, bad_fixed.
  destruct (truthy (strip raw) && negb (startswith (strip raw) "#")); auto.
  destruct (split (strip raw)) as [|t0 [|t1 [|t2 [|t3 [|t4 ts]]]]]; auto.
  cbv zeta.
  destruct (last_item (t0 :: t1 :: t2 :: t3 :: t4 :: ts)) as [l|]; auto.
  rewrite !match_fixed. destruct (String.eqb l "FIXED"); auto.
  destruct (PyInt.int t1); auto.
  destruct (PyInt.int t2); auto.
  destruct (PyInt.int t3); auto.
Qed.

(** A loop whose lines all pass ends normally. *)
Lemma run_clean {S : Type} (step : S -> string -> outcome S)
      (bad : string -> option string) (lines : list string) (st : S) :
  (forall st raw, bad raw = None -> exists st', step st raw = Ok st') ->
  Forall (fun raw => bad raw = None) lines ->
  exists st', run step st lines = Ok st'.
Proof.
  intros Hs H. revert st. induction H as [|raw lines Hb _ IH]; intros st; simpl.
  - eauto.
  - destruct (Hs st raw Hb) as [st1 ->]. apply IH.
Qed.

Definition wts_lines : list string :=
  ["n1 1.5" +++ NL; "n2 abc" +++ NL; "n3 2" +++ NL].

Definition pl_lines : list string :=
  ["I1 5 5 0 FIXED" +++ NL; "I2 x 3 0 FIXED" +++ NL; "I3 1 1 0 FIXED" +++ NL].

(** C3, as stated, fails: with a bad token on the second line, the
    Analyzer's .wts reader prints its message and still returns the
    weight of the first line with a count of one, and its .pl reader
    still returns the first fixed instance. *)
Lemma analyzer_readers_keep_earlier_lines :
  Analyzer.parse_wts_file wts_lines
  = ([("n1", PyFloat.Finite false 6755399441055744 (-52))], 1,
     [ErrorParsing "wts" (ValueError "abc")])
  /\ Analyzer.parse_pl_file None pl_lines
     = ([("I1", {| Analyzer.x := 5; Analyzer.y := 5; Analyzer.bel := 0 |})],
        [("UNKNOWN", 1)], [ErrorParsing "pl" (ValueError "x")])
  /\ fst (fst (Analyzer.parse_wts_file wts_lines)) <> []
  /\ snd (fst (Analyzer.parse_wts_file wts_lines)) <> 0
  /\ fst (fst (Analyzer.parse_pl_file None pl_lines)) <> [].
Proof. repeat split; try reflexivity; discriminate. Qed.

(** C3, amended. When a line of the file has a token that does not
    convert (the weight of a .wts line, a coordinate of a FIXED line)
    and the lines before it are sound, the reader catches the
    exception, prints one message and returns: the Analyzer's .wts and
    .pl readers return what the lines before the failing one gave,
    which is the empty result only when those recorded nothing, and
    nothing of the lines after it; the Fixed-Elements Visualizer's .pl
    reader returns the empty list. *)
Theorem readers_catch_and_return
        (inst : option (dict string)) (pre post : list string)
        (bad tok : string) :
  (Forall (fun raw => bad_weight raw = None) pre ->
   bad_weight bad = Some tok ->
   Analyzer.parse_wts_file (pre ++ bad :: post)
   = (fst (fst (Analyzer.parse_wts_file pre)),
      snd (fst (Analyzer.parse_wts_file pre)),
      [ErrorParsing "wts" (ValueError tok)])
   /\ snd (Analyzer.parse_wts_file pre) = [])
  /\ (Forall (fun raw => bad_fixed raw = None) pre ->
      bad_fixed bad = Some tok ->
      Analyzer.parse_pl_file inst (pre ++ bad :: post)
      = (fst (fst (Analyzer.parse_pl_file inst pre)),
         snd (fst (Analyzer.parse_pl_file inst pre)),
         [ErrorParsing "pl" (ValueError tok)])
      /\ snd (Analyzer.parse_pl_file inst pre) = []
      /\ FixedViz.parse_pl_file (pre ++ bad :: post)
         = ([], [ErrorReading "PL" (ValueError tok)])).
Proof.
  split.
  - intros Hpre Hbad.
    destruct (run_clean Analyzer.wts_step bad_weight pre Analyzer.wts_init)
      as [st1 H1]; [|exact Hpre|].
    { intros st raw Hb. rewrite wts_step_cases, Hb. eauto. }
    unfold Analyzer.parse_wts_file.
    rewrite (run_stops _ pre post bad _ st1 st1 (ValueError tok) H1), H1.
    + split; reflexivity.
    + rewrite wts_step_cases, Hbad. reflexivity.
  - intros Hpre Hbad.
    destruct (run_clean (Analyzer.pl_step inst) bad_fixed pre Analyzer.pl_init)
      as [st1 H1]; [|exact Hpre|].
    { intros st raw Hb. rewrite pl_step_raises, Hb. eauto. }
    destruct (run_clean FixedViz.pl_step bad_fixed pre [])
      as [acc1 H2]; [|exact Hpre|].
    { intros st raw Hb. rewrite viz_pl_step_raises, Hb. eauto. }
    unfold Analyzer.parse_pl_file, FixedViz.parse_pl_file.
    rewrite (run_stops _ pre post bad _ st1 st1 (ValueError tok) H1), H1.
    + rewrite (run_stops _ pre post bad _ acc1 acc1 (ValueError tok) H2).
      * repeat split.
      * rewrite viz_pl_step_raises, Hbad. reflexivity.
    + rewrite pl_step_raises, Hbad. reflexivity.
Qed.

End ExceptionPolicy.

(** ** The .scl reader: fabric dimensions *)

Section SclDimensions.
Import PyStr PyDict Analyzer.

(** The dimensions a line gives when it is a [SITEMAP] line with
    parseable integer dimensions. *)
Definition sitemap_dims (raw : string) : option (Z * Z) :=
  let line := strip raw in
  if startswith line "SITEMAP" then
    match split line with
    | _ :: tw :: th :: _ =>
        match PyInt.int tw, PyInt.int th with
        | Some w, Some h => Some (w, h)
        | _, _ => None
        end
    | _ => None
    end
  else None.

(** The last element of a list, if any. *)
Definition last_or {A : Type} (l : list A) (before : option A) : option A :=
  fold_left (fun _ a => Some a) l before.

Lemma scl_site_resource_dims (st : scl_state) (line : string) :
  sitemap_dimensions (final (scl_site_resource st line)) = sitemap_dimensions st.
Proof.
  unfold scl_site_resource.
  destruct (split line) as [|t0 [|t1 ts]]; auto.
  destruct (PyInt.int t1); auto.
  destruct (current_site st); auto.
  destruct (get (sites st) s); auto.
Qed.

Lemma scl_sitemap_entry_dims (st : scl_state) (line : string) :
  sitemap_dimensions (scl_sitemap_entry st line) = sitemap_dimensions st.
Proof.
  unfold scl_sitemap_entry.
  destruct (split line) as [|t0 [|t1 [|t2 ts]]]; auto.
  destruct (site_map_count st <? max_site_map_entries); auto.
  destruct (PyInt.int t0), (PyInt.int t1); auto.
Qed.

(** One line: a [SITEMAP] line with two integers sets the dimensions,
    any other line leaves them, and a line that raises is no such line. *)
Lemma scl_step_dims (st : scl_state) (raw : string) :
  sitemap_dimensions (final (scl_step st raw))
  = match sitemap_dims raw with
    | Some d => Some d
    | None => sitemap_dimensions st
    end
  /\ (raised (scl_step st raw) <> None -> sitemap_dims raw = None).
Proof.
  unfold scl_step, sitemap_dims.
  destruct (startswith (strip raw) "SITEMAP").
  { unfold scl_sitemap_header. split; [|intros H; elim H; reflexivity].
    destruct (split (strip raw)) as [|t0 [|t1 [|t2 ts]]]; auto.
    destruct (PyInt.int t1); auto. destruct (PyInt.int t2); auto. }
  split; [|reflexivity].
  destruct (startswith (strip raw) "END SITEMAP"); [reflexivity|].
  destruct (startswith (strip raw) "SITE" && negb (in_sitemap st)).
  { destruct (index (split (strip raw)) 1); reflexivity. }
  destruct (startswith (strip raw) "END SITE"); [reflexivity|].
  destruct (site_open st && truthy (strip raw) && negb (in_sitemap st)).
  { apply scl_site_resource_dims. }
  destruct (startswith (strip raw) "RESOURCES"); [reflexivity|].
  destruct (startswith (strip raw) "END RESOURCES"); [reflexivity|].
  destruct (in_resources st && truthy (strip raw)).
  { destruct (split (strip raw)) as [|t0 [|t1 ts]]; reflexivity. }
  destruct (in_sitemap st && truthy (strip raw) && negb false);
    [apply scl_sitemap_entry_dims | reflexivity].
Qed.

Lemma scl_run_dims (lines : list string) (st : scl_state) :
  sitemap_dimensions (final (run scl_step st lines))
  = last_or (collect sitemap_dims (processed scl_step st lines))
            (sitemap_dimensions st).
Proof.
  revert st. induction lines as [|raw lines IH]; intros st; simpl; [reflexivity|].
  destruct (scl_step_dims st raw) as [D R].
  destruct (scl_step st raw) as [st1|e st1]; simpl in *.
  - rewrite IH, D. destruct (sitemap_dims raw); reflexivity.
  - rewrite D, R; [reflexivity | discriminate].
Qed.

Definition two_sitemaps : list string :=
  ["SITEMAP 2 2" +++ NL; "0 0 SLICE" +++ NL; "END SITEMAP" +++ NL;
   "SITEMAP 3 5" +++ NL].

(** C2, as stated, fails: with two [SITEMAP] lines the Analyzer's .scl
    reader returns the dimensions of the second, not of the first. *)
Lemma second_sitemap_replaces_first :
  snd (fst (parse_scl_file two_sitemaps)) = Some (3, 5)%Z
  /\ snd (fst (parse_scl_file two_sitemaps)) <> Some (2, 2)%Z.
Proof. split; [reflexivity | discriminate]. Qed.

(** C2, amended. The Analyzer's .scl reader returns the dimensions of
    the last [SITEMAP] line with parseable integer dimensions among
    the lines it reads: every such line replaces the dimensions
    recorded before, and they stay unset when there is none. *)
Theorem last_sitemap_line_gives_dimensions (lines : list string) :
  snd (fst (parse_scl_file lines))
  = last_or (collect sitemap_dims (processed scl_step scl_init lines)) None.
Proof. unfold parse_scl_file. simpl. apply scl_run_dims. Qed.

End SclDimensions.

(** ** The .scl readers: the capped site map and the exact count *)

Section SiteMap.
Import PyStr PyDict Analyzer.

Local Opaque max_site_map_entries.



Definition sitemap_line (raw : string) : bool := startswith (strip raw) "SITEMAP".

Definition end_sitemap_line (raw : string) : bool :=
  startswith (strip raw) "END SITEMAP".


Lemma int_cases (s : string) (v : Z) :
  PyInt.int s = Some v ->
  match strip s with
  | String c r =>
      if Ascii.eqb c "+" then PyInt.digits 0 false r
      else if Ascii.eqb c "-" then option_map Z.opp (PyInt.digits 0 false r)
      else PyInt.digits 0 false (String c r)
  | EmptyString => None
  end = Some v.
Proof.
  unfold PyInt.int. cbv zeta.
  destruct (PyInt.max_str_digits <? PyInt.digit_count (strip s))%Z;
    [discriminate|].
  destruct (strip s) as [|c r]; [intros H; exact H|].
  destruct c as [[] [] [] [] [] [] [] []]; intros H; exact H.
Qed.






(** *** The full-detail reader *)








(** *** The streaming counter *)




Lemma count_step_ok (st : count_state) (raw : string) :
  count_step st raw = Ok (final (count_step st raw)).
Proof.
  unfold count_step.
  destruct (startswith (strip raw) "SITEMAP"); [reflexivity|].
  destruct (startswith (strip raw) "END SITEMAP"); [reflexivity|].
  destruct (c_in_sitemap st && truthy (strip raw) && negb false); [|reflexivity].
  destruct (split (strip raw)) as [|tx [|ty [|t ts]]]; reflexivity.
Qed.













End SiteMap.

(** ** Floats *)

Section FloatFacts.
Import PyFloat.
Open Scope Z_scope.

Lemma log2_bounds (n : Z) : 0 < n -> 2 ^ Z.log2 n <= n < 2 ^ (Z.log2 n + 1).
Proof. intros H. apply Z.log2_spec. exact H. Qed.

(** The exponent of a quotient below [2^B]. *)
Lemma exponent_bound (num den B : Z) :
  0 < num -> 0 < den -> 0 <= B -> num < 2 ^ B * den ->
  exponent num den <= Z.max (B - 53) emin.
Proof.
  intros Hn Hd HB Hlt. unfold exponent.
  pose proof (log2_bounds num Hn) as [Ln _].
  pose proof (log2_bounds den Hd) as [_ Ld].
  pose proof (Z.log2_nonneg num) as Pn. pose proof (Z.log2_nonneg den) as Pd.
  set (a := Z.log2 num) in *. set (b := Z.log2 den) in *.
  assert (K : a - b <= B).
  { assert (2 ^ a < 2 ^ (B + 1 + b)).
    { replace (B + 1 + b) with (B + (b + 1)) by lia.
      rewrite Z.pow_add_r by lia.
      assert (2 ^ B * den < 2 ^ B * 2 ^ (b + 1))
        by (apply Z.mul_lt_mono_pos_l; [apply Z.pow_pos_nonneg; lia | exact Ld]).
      lia. }
    apply Z.pow_lt_mono_r_iff in H; lia. }
  destruct (below_pow2 num den (a - b)) eqn:E; [lia|].
  assert (a - b <= B - 1); [|lia].
  unfold below_pow2 in E. destruct (Z.leb_spec 0 (a - b)) as [Hk|Hk]; [|lia].
  apply Z.ltb_ge in E.
  assert (den * 2 ^ (a - b) < den * 2 ^ B) by lia.
  apply Z.mul_lt_mono_pos_l in H; [|exact Hd].
  apply Z.pow_lt_mono_r_iff in H; lia.
Qed.

Lemma exponent_in_range (num den : Z) :
  0 < num -> 0 < den -> num < 2 ^ 1023 * den -> exponent num den <= 970.
Proof.
  intros Hn Hd Hlt.
  pose proof (exponent_bound num den 1023 Hn Hd ltac:(lia) Hlt).
  unfold emin in *. lia.
Qed.

Lemma nearest_in_range (num den : Z) :
  0 <= num -> 0 < den -> num < 2 ^ 1023 * den ->
  exists m e, nearest num den = Some (m, e).
Proof.
  intros Hn Hd Hlt. unfold nearest.
  destruct (Z.eqb_spec num 0) as [->|N]; [eauto|].
  pose proof (exponent_in_range num den ltac:(lia) Hd Hlt) as E.
  destruct (scaled num den (exponent num den) =? 2 ^ 53).
  - assert ((emax <? exponent num den + 1) = false) as ->
        by (apply Z.ltb_ge; unfold emax; lia).
    eauto.
  - assert ((emax <? exponent num den) = false) as ->
        by (apply Z.ltb_ge; unfold emax; lia).
    eauto.
Qed.

(** The quotient of two [int]s is a float when it is below [2^1023]. *)
Lemma truediv_in_range (a b : Z) :
  0 < b -> Z.abs a < 2 ^ 1023 * b ->
  exists m e, truediv a b = inr (Finite (a <? 0) m e).
Proof.
  intros Hb Ha. unfold truediv.
  destruct (Z.eqb_spec b 0) as [E|_]; [exfalso; clear Ha; lia|].
  destruct (nearest_in_range (Z.abs a) (Z.abs b)) as (m & e & ->);
    [clear Ha; lia | clear Ha; lia
     | rewrite (Z.abs_eq b) by (clear Ha; lia); exact Ha |].
  replace (b <? 0) with false by (symmetry; apply Z.ltb_ge; lia).
  rewrite xorb_false_r. eauto.
Qed.

End FloatFacts.

(** ** Floats: how near the quotient of two integers and its text are
    to the exact quotient *)

Section FloatAccuracy.
Import PyFloat.
Open Scope Z_scope.

(** The exact quotient and the powers of two, as rationals. *)
Definition quotient (num den : Z) : Q := (inject_Z num / inject_Z den)%Q.
Definition pow2 (e : Z) : Q := (2 ^ e)%Q.

Ltac push_inject :=
  unfold Z.sub in *;
  repeat (rewrite inject_Z_plus in * || rewrite inject_Z_mult in *
          || rewrite inject_Z_opp in *).

Lemma pow2_pos (e : Z) : (0 < pow2 e)%Q.
Proof. apply Qpower_0_lt. reflexivity. Qed.

Lemma pow2_add (a b : Z) : (pow2 (a + b) == pow2 a * pow2 b)%Q.
Proof. apply Qpower_plus. discriminate. Qed.

Lemma pow2_Z (e : Z) : 0 <= e -> (inject_Z (2 ^ e) == pow2 e)%Q.
Proof. intros H. apply Zpower_Qpower. exact H. Qed.

Lemma pow2_le (a b : Z) : a <= b -> (pow2 a <= pow2 b)%Q.
Proof. intros H. apply Qpower_le_compat_l; [exact H | discriminate]. Qed.

Lemma pow2_lt (a b : Z) : a < b -> (pow2 a < pow2 b)%Q.
Proof. intros H. apply Qpower_lt_compat_l; [exact H | reflexivity]. Qed.

Lemma inject_pos (d : Z) : 0 < d -> (0 < inject_Z d)%Q.
Proof. intros H. change 0%Q with (inject_Z 0). rewrite <- Zlt_Qlt. exact H. Qed.

(** [round_half_even] is within a half of the quotient. *)
Lemma round_half_even_near (num den : Z) :
  0 <= num -> 0 < den ->
  0 <= round_half_even num den
  /\ - den <= 2 * (round_half_even num den * den - num) <= den.
Proof.
  intros Hn Hd. unfold round_half_even.
  pose proof (Z.div_mod num den ltac:(lia)) as E.
  pose proof (Z.mod_pos_bound num den Hd) as B.
  pose proof (Z.div_pos num den Hn Hd) as P.
  set (q := num / den) in *. set (r := num mod den) in *.
  destruct (Z.compare_spec (2 * r) den) as [C|C|C].
  - destruct (Z.even q); split; nia.
  - split; nia.
  - split; nia.
Qed.

Lemma round_half_even_Q (num den : Z) :
  0 <= num -> 0 < den ->
  (- (1 # 2) <= inject_Z (round_half_even num den) - quotient num den <= 1 # 2)%Q.
Proof.
  intros Hn Hd. destruct (round_half_even_near num den Hn Hd) as [_ [L U]].
  set (r := round_half_even num den) in *.
  pose proof (inject_pos den Hd) as Pd.
  rewrite Zle_Qle in L, U. push_inject.
  unfold quotient.
  set (R := inject_Z r) in *. set (D := inject_Z den) in *.
  set (N := inject_Z num) in *.
  assert (EN : (N == (N / D) * D)%Q) by (field; lra).
  set (X := (N / D)%Q) in *.
  change (inject_Z 2) with 2%Q in *.
  split; nra.
Qed.


Lemma quotient_spec (num den : Z) :
  0 < den -> (inject_Z num == quotient num den * inject_Z den)%Q.
Proof.
  intros Hd. pose proof (inject_pos den Hd). unfold quotient. field. lra.
Qed.

Lemma scaled_Q (num den e : Z) :
  0 <= num -> 0 < den ->
  (- (1 # 2) <= inject_Z (scaled num den e) - quotient num den / pow2 e
   <= 1 # 2)%Q.
Proof.
  intros Hn Hd. unfold scaled.
  pose proof (inject_pos den Hd) as Pd. pose proof (pow2_pos e) as Pe.
  destruct (Z.leb_spec 0 e) as [He|He].
  - assert (Hp : 0 < den * 2 ^ e)
      by (apply Z.mul_pos_pos; [exact Hd | apply Z.pow_pos_nonneg; lia]).
    pose proof (round_half_even_Q num (den * 2 ^ e) Hn Hp) as H.
    assert (E : (quotient num (den * 2 ^ e) == quotient num den / pow2 e)%Q).
    { unfold quotient. rewrite inject_Z_mult, (pow2_Z e He). field. lra. }
    rewrite E in H. exact H.
  - assert (Hp : 0 <= num * 2 ^ (- e))
      by (apply Z.mul_nonneg_nonneg; [exact Hn | apply Z.pow_nonneg; lia]).
    pose proof (round_half_even_Q (num * 2 ^ (- e)) den Hp Hd) as H.
    assert (E : (quotient (num * 2 ^ (- e)) den == quotient num den / pow2 e)%Q).
    { unfold quotient. rewrite inject_Z_mult, (pow2_Z (- e)) by lia.
      unfold pow2. rewrite Qpower_opp. fold (pow2 e). field. lra. }
    rewrite E in H. exact H.
Qed.

Lemma below_pow2_Q (num den k : Z) :
  0 < den ->
  below_pow2 num den k = true <-> (quotient num den < pow2 k)%Q.
Proof.
  intros Hd. unfold below_pow2.
  pose proof (inject_pos den Hd) as Pd. pose proof (pow2_pos k) as Pk.
  pose proof (quotient_spec num den Hd) as EN.
  destruct (Z.leb_spec 0 k) as [Hk|Hk].
  - rewrite Z.ltb_lt, Zlt_Qlt, inject_Z_mult, (pow2_Z k Hk).
    split; intros H; nra.
  - rewrite Z.ltb_lt, Zlt_Qlt, inject_Z_mult, (pow2_Z (- k)) by lia.
    assert (E : (pow2 (- k) * pow2 k == 1)%Q).
    { rewrite <- pow2_add. replace (- k + k) with 0 by lia. reflexivity. }
    pose proof (pow2_pos (- k)) as Pn.
    set (X := quotient num den) in *. set (T := (X * pow2 (- k))%Q).
    assert (ET : (X == T * pow2 k)%Q).
    { unfold T. rewrite <- Qmult_assoc, E. ring. }
    split; intros H.
    + assert (T < 1)%Q by (unfold T; nra). nra.
    + assert (T < 1)%Q by nra. unfold T in *. nra.
Qed.

Lemma log2_Q (n : Z) :
  0 < n -> (pow2 (Z.log2 n) <= inject_Z n < pow2 (Z.log2 n + 1))%Q.
Proof.
  intros H. destruct (log2_bounds n H) as [L U].
  pose proof (Z.log2_nonneg n) as P.
  rewrite <- !pow2_Z by lia. rewrite <- Zle_Qle, <- Zlt_Qlt. auto.
Qed.

(** The quotient is below [2^(e+53)], and not below [2^(e+52)] when it
    is in the range of the normal numbers. *)
Lemma exponent_Q (num den : Z) :
  0 < num -> 0 < den ->
  let e := exponent num den in
  emin <= e
  /\ (quotient num den < pow2 (e + 53))%Q
  /\ (emin < e \/ (pow2 (emin + 52) <= quotient num den)%Q ->
      (pow2 (e + 52) <= quotient num den)%Q).
Proof.
  intros Hn Hd e. subst e. unfold exponent.
  pose proof (inject_pos den Hd) as Pd. pose proof (inject_pos num Hn) as Pn.
  pose proof (quotient_spec num den Hd) as EN.
  destruct (log2_Q num Hn) as [La Ua]. destruct (log2_Q den Hd) as [Lb Ub].
  set (a := Z.log2 num) in *. set (b := Z.log2 den) in *.
  set (X := quotient num den) in *.
  assert (Lo : (pow2 (a - b - 1) < X)%Q).
  { pose proof (pow2_add (a - b - 1) (b + 1)) as E.
    replace (a - b - 1 + (b + 1)) with a in E by lia.
    pose proof (pow2_pos (a - b - 1)). pose proof (pow2_pos (b + 1)). nra. }
  assert (Hi : (X < pow2 (a - b + 1))%Q).
  { pose proof (pow2_add (a - b + 1) b) as E.
    replace (a - b + 1 + b) with (a + 1) in E by lia.
    pose proof (pow2_pos (a - b + 1)). pose proof (pow2_pos b). nra. }
  pose proof (below_pow2_Q num den (a - b) Hd) as B. fold X in B.
  split; [lia|].
  destruct (below_pow2 num den (a - b)).
  - assert (Bt : (X < pow2 (a - b))%Q) by (apply B; reflexivity).
    destruct (Z.max_spec (a - b - 53) emin) as [[C ->]|[C ->]].
    + split.
      * eapply Qlt_le_trans; [exact Bt|]. apply pow2_le. lia.
      * intros [N|N]; [lia|]. exfalso.
        assert (pow2 (a - b) <= pow2 (emin + 52))%Q by (apply pow2_le; lia).
        lra.
    + split.
      * replace (a - b - 53 + 53) with (a - b) by lia. exact Bt.
      * intros _. replace (a - b - 53 + 52) with (a - b - 1) by lia. lra.
  - assert (Bf : (pow2 (a - b) <= X)%Q).
    { destruct (Qlt_le_dec X (pow2 (a - b))) as [L|L]; [|exact L].
      apply B in L. discriminate. }
    destruct (Z.max_spec (a - b - 52) emin) as [[C ->]|[C ->]].
    + split.
      * eapply Qlt_le_trans; [exact Hi|]. apply pow2_le. lia.
      * intros [N|N]; [lia|]. exfalso.
        assert (pow2 (a - b + 1) <= pow2 (emin + 52))%Q by (apply pow2_le; lia).
        lra.
    + split.
      * replace (a - b - 52 + 53) with (a - b + 1) by lia. exact Hi.
      * intros _. replace (a - b - 52 + 52) with (a - b) by lia. exact Bf.
Qed.


(** The rational a finite float stands for. *)
Definition value (m e : Z) : Q := (inject_Z m * pow2 e)%Q.

Lemma scaled_nonneg (num den e : Z) :
  0 <= num -> 0 < den -> 0 <= scaled num den e.
Proof.
  intros Hn Hd. unfold scaled. destruct (Z.leb_spec 0 e) as [He|He].
  - apply round_half_even_near; [exact Hn|].
    apply Z.mul_pos_pos; [exact Hd | apply Z.pow_pos_nonneg; lia].
  - apply round_half_even_near; [|exact Hd].
    apply Z.mul_nonneg_nonneg; [exact Hn | apply Z.pow_nonneg; lia].
Qed.

(** The float nearest to a quotient is within half a unit in the last
    place of it. *)
Lemma nearest_Q (num den m e : Z) :
  0 < num -> 0 < den -> nearest num den = Some (m, e) ->
  0 <= m
  /\ (- ((1 # 2) * pow2 (exponent num den)) <= value m e - quotient num den
      <= (1 # 2) * pow2 (exponent num den))%Q.
Proof.
  intros Hn Hd. unfold nearest.
  destruct (Z.eqb_spec num 0) as [Z0|_]; [lia|].
  set (E := exponent num den).
  pose proof (scaled_Q num den E ltac:(lia) Hd) as S.
  pose proof (scaled_nonneg num den E ltac:(lia) Hd) as P.
  set (m0 := scaled num den E) in *.
  pose proof (pow2_pos E) as PE.
  assert (V : (- ((1 # 2) * pow2 E) <= value m0 E - quotient num den
               <= (1 # 2) * pow2 E)%Q).
  { unfold value.
    assert (X : (quotient num den == quotient num den / pow2 E * pow2 E)%Q)
      by (field; lra).
    set (T := (quotient num den / pow2 E)%Q) in *. destruct S as [S1 S2].
    assert (A1 : ((inject_Z m0 - T) * pow2 E <= (1 # 2) * pow2 E)%Q)
      by (apply Qmult_le_compat_r; lra).
    assert (A2 : (- (1 # 2) * pow2 E <= (inject_Z m0 - T) * pow2 E)%Q)
      by (apply Qmult_le_compat_r; lra).
    split; lra. }
  destruct (Z.eqb_spec m0 (2 ^ 53)) as [T|_].
  - destruct (emax <? E + 1); [discriminate|].
    intros H. injection H as <- <-. split; [lia|].
    assert (X : (value (2 ^ 52) (E + 1) == value m0 E)%Q).
    { unfold value. rewrite T, pow2_add.
      change (pow2 1) with 2%Q.
      assert (I : (inject_Z (2 ^ 53) == inject_Z (2 ^ 52) * 2)%Q) by reflexivity.
      rewrite I. ring. }
    rewrite X. exact V.
  - destruct (emax <? E); [discriminate|].
    intros H. injection H as <- <-. split; [exact P | exact V].
Qed.


(** A tie or more below an even integer rounds up to it. *)
Lemma round_half_even_reaches (num den M : Z) :
  0 <= num -> 0 < den -> Z.even M = true ->
  (2 * M - 1) * den <= 2 * num -> M <= round_half_even num den.
Proof.
  intros Hn Hd HM H. unfold round_half_even.
  pose proof (Z.div_mod num den ltac:(lia)) as E.
  pose proof (Z.mod_pos_bound num den Hd) as B.
  set (q := num / den) in *. set (r := num mod den) in *.
  assert (Q1 : M <= q + 1) by nia.
  destruct (Z.eq_dec M (q + 1)) as [EM|NM].
  - assert (R : den <= 2 * r) by nia.
    destruct (Z.compare_spec (2 * r) den) as [C|C|C]; [|lia|lia].
    assert (O : Z.even q = false).
    { replace q with (M - 1) by lia. rewrite Z.even_sub, HM. reflexivity. }
    rewrite O. lia.
  - destruct (Z.compare_spec (2 * r) den); [destruct (Z.even q)|..]; lia.
Qed.

(** Quotients from here on are beyond the largest float: they round to
    [2^1024]. *)
Definition float_limit : Z := 2 ^ 1024 - 2 ^ 970.

Lemma quotient_lt (num den : Z) (k : Z) :
  0 < den -> 0 <= k ->
  (quotient num den < pow2 k)%Q <-> num < den * 2 ^ k.
Proof.
  intros Hd Hk. pose proof (inject_pos den Hd) as Pd.
  pose proof (quotient_spec num den Hd) as EN. pose proof (pow2_pos k) as Pk.
  rewrite Zlt_Qlt, inject_Z_mult, (pow2_Z k Hk). split; intros H; nra.
Qed.

Lemma quotient_ge (num den : Z) (k : Z) :
  0 < den -> 0 <= k ->
  (pow2 k <= quotient num den)%Q <-> den * 2 ^ k <= num.
Proof.
  intros Hd Hk. pose proof (inject_pos den Hd) as Pd.
  pose proof (quotient_spec num den Hd) as EN. pose proof (pow2_pos k) as Pk.
  rewrite Zle_Qle, inject_Z_mult, (pow2_Z k Hk). split; intros H; nra.
Qed.

Lemma nearest_overflows (num den : Z) :
  0 < num -> 0 < den -> float_limit * den <= num -> nearest num den = None.
Proof.
  intros Hn Hd H.
  destruct (exponent_Q num den Hn Hd) as (E0 & E1 & E2).
  assert (FL : float_limit = (2 ^ 54 - 1) * 2 ^ 970) by (vm_compute; reflexivity).
  assert (P1023 : 2 ^ 1023 = 2 ^ 53 * 2 ^ 970) by (vm_compute; reflexivity).
  assert (P1024 : 2 ^ 1024 = 2 ^ 54 * 2 ^ 970) by (vm_compute; reflexivity).
  assert (P971 : 2 ^ 971 = 2 * 2 ^ 970) by (vm_compute; reflexivity).
  assert (PP : 0 < 2 ^ 970) by (apply Z.pow_pos_nonneg; lia).
  rewrite FL in H.
  assert (G : (pow2 1023 <= quotient num den)%Q).
  { apply quotient_ge; [exact Hd | lia|]. rewrite P1023.
    set (P := 2 ^ 970) in *. nia. }
  assert (E971 : 971 <= exponent num den).
  { assert (L : (pow2 1023 < pow2 (exponent num den + 53))%Q) by lra.
    apply Qpower_lt_compat_l_inv in L; [lia | reflexivity]. }
  unfold nearest. destruct (Z.eqb_spec num 0) as [Z0|_]; [lia|].
  set (E := exponent num den) in *.
  destruct (Z.eq_dec E 971) as [Eq|Ne].
  - assert (M : scaled num den E = 2 ^ 53).
    { rewrite Eq. unfold scaled. change (0 <=? 971) with true. cbv iota.
      assert (U : num < den * 2 ^ 1024).
      { apply quotient_lt; [exact Hd | lia|]. rewrite Eq in E1. exact E1. }
      rewrite P1024 in U. rewrite P971.
      assert (Hp : 0 < den * (2 * 2 ^ 970)) by nia.
      destruct (round_half_even_near num (den * (2 * 2 ^ 970)) ltac:(lia) Hp)
        as (_ & _ & Up).
      pose proof (round_half_even_reaches num (den * (2 * 2 ^ 970)) (2 ^ 53)
                    ltac:(lia) Hp eq_refl) as Lo.
      set (r := round_half_even num (den * (2 * 2 ^ 970))) in *.
      set (P := 2 ^ 970) in *.
      assert (PD : 0 < P * den) by nia. set (X := P * den) in *.
      assert (Lo' : 2 ^ 53 <= r).
      { apply Lo. replace (den * (2 * P)) with (2 * X) by (unfold X; ring).
        replace ((2 ^ 54 - 1) * P * den) with ((2 ^ 54 - 1) * X) in H
          by (unfold X; ring). clearbody X. clear - H. lia. }
      replace (den * (2 * P)) with (2 * X) in Up by (unfold X; ring).
      replace (den * (2 ^ 54 * P)) with (2 ^ 54 * X) in U by (unfold X; ring).
      clearbody X r. clear - Up U PD Lo'.
      assert (Hi : r <= 2 ^ 53).
      { apply Z.nlt_ge. intros C.
        assert ((2 ^ 53 + 1) * X <= r * X)
          by (apply Z.mul_le_mono_nonneg_r; lia).
        nia. }
      lia. }
    rewrite M, Z.eqb_refl, Eq. reflexivity.
  - destruct (scaled num den E =? 2 ^ 53).
    + replace (emax <? E + 1) with true
        by (symmetry; apply Z.ltb_lt; unfold emax; lia). reflexivity.
    + replace (emax <? E) with true
        by (symmetry; apply Z.ltb_lt; unfold emax; lia). reflexivity.
Qed.

Lemma nearest_in_limit (num den : Z) :
  0 < num -> 0 < den -> num < float_limit * den ->
  exists m e, nearest num den = Some (m, e).
Proof.
  intros Hn Hd H.
  destruct (exponent_Q num den Hn Hd) as (E0 & E1 & E2).
  assert (FL : float_limit = (2 ^ 54 - 1) * 2 ^ 970) by (vm_compute; reflexivity).
  assert (P1024 : 2 ^ 1024 = 2 ^ 54 * 2 ^ 970) by (vm_compute; reflexivity).
  assert (P971 : 2 ^ 971 = 2 * 2 ^ 970) by (vm_compute; reflexivity).
  assert (PP : 0 < 2 ^ 970) by (apply Z.pow_pos_nonneg; lia).
  rewrite FL in H.
  assert (G : (quotient num den < pow2 1024)%Q).
  { apply quotient_lt; [exact Hd | lia|]. rewrite P1024.
    set (P := 2 ^ 970) in *. nia. }
  assert (E971 : exponent num den <= 971).
  { destruct (Z.eq_dec (exponent num den) emin) as [Em|Em];
      [rewrite Em; unfold emin; lia|].
    assert (L : (pow2 (exponent num den + 52) < pow2 1024)%Q).
    { eapply Qle_lt_trans; [apply E2; left; lia | exact G]. }
    apply Qpower_lt_compat_l_inv in L; [lia | reflexivity]. }
  unfold nearest. destruct (Z.eqb_spec num 0) as [Z0|_]; [lia|].
  set (E := exponent num den) in *.
  destruct (Z.eq_dec E 971) as [Eq|Ne].
  - assert (M : scaled num den E < 2 ^ 53).
    { rewrite Eq. unfold scaled. change (0 <=? 971) with true. cbv iota. rewrite P971.
      assert (Hp : 0 < den * (2 * 2 ^ 970)) by nia.
      destruct (round_half_even_near num (den * (2 * 2 ^ 970)) ltac:(lia) Hp)
        as (_ & _ & Up).
      set (r := round_half_even num (den * (2 * 2 ^ 970))) in *.
      set (P := 2 ^ 970) in *.
      assert (PD : 0 < P * den) by nia. set (X := P * den) in *.
      replace (den * (2 * P)) with (2 * X) in Up by (unfold X; ring).
      replace ((2 ^ 54 - 1) * P * den) with ((2 ^ 54 - 1) * X) in H
        by (unfold X; ring).
      clearbody X r. clear - Up H PD.
      apply Z.nle_gt. intros C.
      assert (2 ^ 53 * X <= r * X) by (apply Z.mul_le_mono_nonneg_r; lia).
      nia. }
    destruct (Z.eqb_spec (scaled num den E) (2 ^ 53)) as [T|_]; [lia|].
    replace (emax <? E) with false
      by (symmetry; apply Z.ltb_ge; unfold emax; lia). eauto.
  - destruct (scaled num den E =? 2 ^ 53).
    + replace (emax <? E + 1) with false
        by (symmetry; apply Z.ltb_ge; unfold emax; lia). eauto.
    + replace (emax <? E) with false
        by (symmetry; apply Z.ltb_ge; unfold emax; lia). eauto.
Qed.

End FloatAccuracy.

(** ** The Fixed-Elements Visualizer *)

Section FixedElements.
Import PyDict FixedViz.

Definition inside (width height : Z) (i : fixed_instance) : bool :=
  in_bounds width height (x i) (y i).

Section Plot.
Variables (width height : Z) (instance_types : option (dict string))
          (colors : dict string).

(** Every square comes from an instance inside the fabric. *)
Lemma plot_sound (l : list fixed_instance) (r : rectangle) :
  In r (plot width height instance_types colors l) ->
  exists i, In i l /\ inside width height i = true
            /\ rx r = x i /\ ry r = y i.
Proof.
  induction l as [|i l IH]; simpl; [tauto|].
  destruct (in_bounds width height (x i) (y i)) eqn:B.
  - intros [<-|H].
    + exists i. unfold inside. auto.
    + destruct (IH H) as (j & Hj & R). exists j. auto.
  - intros H. destruct (IH H) as (j & Hj & R). exists j. auto.
Qed.

(** One square per instance inside the fabric, none for the others. *)
Lemma plot_length (l : list fixed_instance) :
  List.length (plot width height instance_types colors l)
  = List.length (filter (inside width height) l).
Proof.
  induction l as [|i l IH]; simpl; [reflexivity|]. unfold inside at 1.
  destruct (in_bounds width height (x i) (y i)); simpl; congruence.
Qed.
End Plot.

Lemma coverage_text_defined (n : nat) (width height : Z) :
  (Z.of_nat n <= maxsize)%Z -> exists t, coverage_text n width height = inr t.
Proof.
  intros Hn. unfold coverage_text.
  destruct (Z.ltb_spec 0 (width * height)) as [Hp|_]; [|eauto].
  destruct (truediv_in_range (Z.of_nat n) (width * height) Hp) as (m & e & ->).
  - rewrite Z.abs_eq by lia. unfold maxsize in Hn.
    assert (2 ^ 63 < 2 ^ 1023)%Z by (apply Z.pow_lt_mono_r; lia). nia.
  - change (PyFloat.of_int 100)
      with (@inr exn _ (PyFloat.Finite false 7036874417766400 (-46))).
    eauto.
Qed.

(** The only exception of the two divisions is [OverflowError]. *)
Lemma figsize_cases (width height : Z) :
  figsize_fails width height = None
  \/ figsize_fails width height = Some OverflowError.
Proof.
  unfold figsize_fails, PyFloat.truediv. simpl (20 =? 0)%Z. cbv iota.
  destruct (PyFloat.nearest (Z.abs width) (Z.abs 20)) as [[m1 e1]|]; [|auto].
  destruct (PyFloat.nearest (Z.abs height) (Z.abs 20)) as [[m2 e2]|]; auto.
Qed.

(** A size that is a C integer gives a float when divided by 20. *)
Lemma figsize_in_range (width height : Z) :
  (Z.abs width <= maxsize)%Z -> (Z.abs height <= maxsize)%Z ->
  figsize_fails width height = None.
Proof.
  intros Hw Hh. unfold figsize_fails. unfold maxsize in *.
  assert (P : (2 ^ 63 < 2 ^ 1023)%Z) by (apply Z.pow_lt_mono_r; lia).
  destruct (truediv_in_range width 20) as (m1 & e1 & ->); [lia | lia |].
  destruct (truediv_in_range height 20) as (m2 & e2 & ->); [lia | lia |].
  reflexivity.
Qed.

(** What an allocated grid says of its sizes. *)
Lemma np_full_none (m : machine) (height width : Z) :
  np_full m height width = None ->
  (0 <= height <= maxsize)%Z /\ (0 <= width <= maxsize)%Z
  /\ (8 * height * width <= maxsize)%Z
  /\ allocates m (8 * height * width)%Z = true.
Proof.
  unfold np_full. cbv zeta beta.
  destruct (Z.leb_spec (- maxsize - 1) height), (Z.leb_spec height maxsize),
    (Z.leb_spec (- maxsize - 1) width), (Z.leb_spec width maxsize);
    cbn [andb negb]; try discriminate.
  destruct (Z.ltb_spec height 0); [discriminate|].
  destruct (Z.ltb_spec maxsize (8 * height)); [discriminate|].
  destruct (Z.ltb_spec width 0); [discriminate|].
  destruct (Z.ltb_spec maxsize (8 * height * width)); [discriminate|].
  destruct (allocates m (8 * height * width)%Z); [|discriminate].
  intros _. repeat split; try assumption.
Qed.

(** A size that is negative or no C integer is refused with a
    [ValueError]. *)
Lemma np_full_refuses (m : machine) (height width : Z) :
  height <> 0%Z ->
  (width < 0 \/ height < 0 \/ maxsize < width \/ maxsize < height)%Z ->
  exists t, np_full m height width = Some (ValueError t).
Proof.
  intros Hnz H. unfold np_full. cbv zeta beta.
  destruct (Z.leb_spec (- maxsize - 1) height), (Z.leb_spec height maxsize),
    (Z.leb_spec (- maxsize - 1) width), (Z.leb_spec width maxsize);
    cbn [andb negb]; eauto.
  destruct (Z.ltb_spec height 0); [eauto|].
  destruct (Z.ltb_spec maxsize (8 * height)); [eauto|].
  destruct (Z.ltb_spec width 0); [eauto|].
  exfalso. lia.
Qed.

(** A machine with 8 GiB to hand out, that saves to every path but
    [/] . *)
Definition machine_8GiB : machine :=
  {| allocates := fun n => (n <=? 2 ^ 33)%Z;
     savefig := fun f => if String.eqb f "/"
                         then Some (OSError "Is a directory") else None |}.

(** C6. In every figure of the Fixed-Elements Visualizer a fixed
    instance whose coordinates are outside [0, width) x [0, height) gets
    no square, the squares being as many as the instances inside, and
    yet the statistics text gives as Total Fixed Instances the length of
    the whole list. A figure is drawn whenever width and height are
    positive, the list is not empty, the grid can be allocated and the
    figure can be saved. *)
Theorem outside_instances_counted_not_drawn
        (m : machine)
        (width height : Z) (fixed_instances : list fixed_instance)
        (instance_types : option (dict string))
        (output_file : option string) (show_plot : bool) :
  (forall fig messages,
     create_fixed_elements_visualization
       m width height fixed_instances instance_types output_file show_plot
     = Drawn fig messages ->
     (forall i, In i fixed_instances -> inside width height i = false ->
                forall r, In r (patches fig) ->
                          ~ (rx r = x i /\ ry r = y i))
     /\ List.length (patches fig)
        = List.length (filter (inside width height) fixed_instances)
     /\ exists rest,
          stats_text fig
          = "Fixed Elements Statistics:" +++ NL
            +++ "Total Fixed Instances: "
            +++ PyInt.str (Z.of_nat (List.length fixed_instances)) +++ NL
            +++ rest)
  /\ ((0 < width)%Z -> (0 < height)%Z -> fixed_instances <> [] ->
      (Z.of_nat (List.length fixed_instances) <= maxsize)%Z ->
      np_full m height width = None ->
      save_fails m output_file = None ->
      exists fig messages,
        create_fixed_elements_visualization
          m width height fixed_instances instance_types output_file show_plot
        = Drawn fig messages).
Proof.
  unfold create_fixed_elements_visualization. split.
  - intros fig messages.
    destruct ((width =? 0) || (height =? 0))%Z; [discriminate|].
    destruct fixed_instances as [|i0 l] eqn:EF; [discriminate|].
    rewrite <- EF in *. clear EF.
    destruct (figsize_fails width height); [discriminate|].
    destruct (np_full m height width); [discriminate|].
    unfold statistics.
    destruct (coverage_text (List.length fixed_instances) width height)
      as [e|cov]; [discriminate|].
    destruct (save_fails m output_file); [discriminate|].
    intros E. injection E as <- _. simpl.
    split; [|split; [apply plot_length | eexists; reflexivity]].
    intros i Hi Hout r Hr [Ex Ey].
    destruct (plot_sound _ _ _ _ _ _ Hr) as (j & _ & Hj & Rx & Ry).
    unfold inside in *. rewrite <- Ex, <- Ey, Rx, Ry in Hout. congruence.
  - intros Hw Hh Hne Hmax Hfull Hsave.
    replace ((width =? 0) || (height =? 0))%Z with false
      by (symmetry; apply orb_false_iff; split; apply Z.eqb_neq; lia).
    destruct fixed_instances as [|i0 l] eqn:EF; [congruence|].
    rewrite <- EF in *. clear EF.
    destruct (np_full_none m height width Hfull) as (Bh & Bw & _).
    rewrite figsize_in_range by lia. rewrite Hfull.
    unfold statistics.
    destruct (coverage_text_defined _ width height Hmax) as (cov & ->).
    rewrite Hsave. eauto.
Qed.

Definition four_fixed : list fixed_instance :=
  [{| name := "I1"; x := 1; y := 1; bel := 0 |};
   {| name := "I2"; x := -1; y := 0; bel := 0 |};
   {| name := "I3"; x := 4; y := 0; bel := 0 |};
   {| name := "I4"; x := 3; y := 2; bel := 7 |}].

Lemma outside_instances_counted_not_drawn_witness :
  exists fig messages rest,
    create_fixed_elements_visualization
      machine_8GiB 4 3 four_fixed None None false
    = Drawn fig messages
    /\ List.length (patches fig) = 2
    /\ stats_text fig
       = "Fixed Elements Statistics:" +++ NL
         +++ "Total Fixed Instances: 4" +++ NL +++ rest.
Proof.
  destruct (outside_instances_counted_not_drawn
              machine_8GiB 4 3 four_fixed None None false) as [P D].
  destruct D as (fig & messages & E).
  - reflexivity.
  - reflexivity.
  - discriminate.
  - discriminate.
  - reflexivity.
  - reflexivity.
  - destruct (P fig messages E) as (_ & L & rest & T).
    exists fig, messages, rest. auto.
Defined.

End FixedElements.

(** ** The Site-Map Visualizer *)

Section SiteMapLegend.
Import PyDict SiteViz.

(** C8. In every figure of the Site-Map Visualizer the legend is drawn
    if and only if the set of discovered site types has at most 10
    elements: it is there, one entry per type in sorted order, with 10
    types or fewer, and it is left out with 11 or more. A figure is
    drawn whenever width and height are positive, the grid can be
    allocated and the figure can be saved. *)
Theorem legend_iff_at_most_ten_types
        (m : machine)
        (width height : Z) (sites : list (Z * Z * string))
        (site_types : list string)
        (output_file : option string) (show_plot : bool) :
  NoDup site_types ->
  (forall fig messages,
     create_site_visualization
       m width height sites site_types output_file show_plot
     = Drawn fig messages ->
     (legend fig <> None <-> List.length site_types <= 10)
     /\ (List.length site_types <= 10 ->
         exists entries,
           legend fig = Some entries /\ map fst entries = sorted site_types)
     /\ (10 < List.length site_types -> legend fig = None))
  /\ ((0 < width)%Z -> (0 < height)%Z -> np_full m height width = None ->
      save_fails m output_file = None ->
      exists fig messages,
        create_site_visualization
          m width height sites site_types output_file show_plot
        = Drawn fig messages).
Proof.
  intros _. unfold create_site_visualization. split.
  - intros fig messages.
    destruct ((width =? 0) || (height =? 0))%Z; [discriminate|].
    destruct (figsize_fails width height); [discriminate|].
    destruct (np_full m height width); [discriminate|].
    destruct (save_fails m output_file); [discriminate|].
    intros E. injection E as <- _. simpl.
    destruct (Nat.leb_spec (List.length site_types) 10) as [Hle|Hgt].
    + split; [split; [auto | discriminate]|]. split; [|lia].
      intros _. eexists. split; [reflexivity|].
      rewrite map_map. simpl. apply map_id.
    + split; [split; [congruence | lia]|]. split; [lia | reflexivity].
  - intros Hw Hh Hfull Hsave.
    replace ((width =? 0) || (height =? 0))%Z with false
      by (symmetry; apply orb_false_iff; split; apply Z.eqb_neq; lia).
    destruct (np_full_none m height width Hfull) as (Bh & Bw & _).
    rewrite figsize_in_range by lia. rewrite Hfull, Hsave. eauto.
Qed.

Definition ten_types : list string :=
  ["T0"; "T1"; "T2"; "T3"; "T4"; "T5"; "T6"; "T7"; "T8"; "T9"].

Definition eleven_types : list string := ten_types ++ ["TA"].

Lemma NoDup_by_nodup (l : list string) :
  nodup string_dec l = l -> NoDup l.
Proof. intros <-. apply NoDup_nodup. Qed.

Lemma legend_iff_at_most_ten_types_witness :
  (exists fig messages,
      create_site_visualization machine_8GiB 2 2 [] ten_types None false
      = Drawn fig messages
      /\ legend fig <> None)
  /\ (exists fig messages,
         create_site_visualization machine_8GiB 2 2 [] eleven_types None false
         = Drawn fig messages
         /\ legend fig = None).
Proof.
  split.
  - destruct (legend_iff_at_most_ten_types
                machine_8GiB 2 2 [] ten_types None false) as [P D].
    + apply NoDup_by_nodup. reflexivity.
    + destruct D as (fig & messages & E); try reflexivity.
      exists fig, messages. split; [exact E|].
      apply (proj1 (P fig messages E)). simpl. lia.
  - destruct (legend_iff_at_most_ten_types
                machine_8GiB 2 2 [] eleven_types None false) as [P D].
    + apply NoDup_by_nodup. reflexivity.
    + destruct D as (fig & messages & E); try reflexivity.
      exists fig, messages. split; [exact E|].
      apply (proj2 (proj2 (P fig messages E))). simpl. lia.
Defined.

End SiteMapLegend.

(** ** The report: the NETS section *)

Section NetsReport.
Import PyDict Analyzer PyFloat.

Lemma py_min_spec (rest : list Z) (first : Z) :
  In (py_min first rest) (first :: rest)
  /\ forall p, In p (first :: rest) -> (py_min first rest <= p)%Z.
Proof.
  unfold py_min. revert first. induction rest as [|a rest IH]; intros first; simpl.
  - split; [auto | intros p [<-|[]]; lia].
  - destruct (IH (Z.min first a)) as [I L]. split.
    + destruct I as [I|I]; [|right; right; exact I].
      destruct (Z.min_spec first a) as [[_ E]|[_ E]];
        [left | right; left]; congruence.
    + intros p [<-|[<-|H]].
      * specialize (L (Z.min first a) (or_introl eq_refl)). lia.
      * specialize (L (Z.min first a) (or_introl eq_refl)). lia.
      * apply L. right. exact H.
Qed.

Lemma py_max_spec (rest : list Z) (first : Z) :
  In (py_max first rest) (first :: rest)
  /\ forall p, In p (first :: rest) -> (p <= py_max first rest)%Z.
Proof.
  unfold py_max. revert first. induction rest as [|a rest IH]; intros first; simpl.
  - split; [auto | intros p [<-|[]]; lia].
  - destruct (IH (Z.max first a)) as [I L]. split.
    + destruct I as [I|I]; [|right; right; exact I].
      destruct (Z.max_spec first a) as [[_ E]|[_ E]];
        [right; left | left]; congruence.
    + intros p [<-|[<-|H]].
      * specialize (L (Z.max first a) (or_introl eq_refl)). lia.
      * specialize (L (Z.max first a) (or_introl eq_refl)). lia.
      * apply L. right. exact H.
Qed.

(** The text of [k / 100] with two decimal places, with a minus sign
    when [neg]. *)
Definition hundredths (neg : bool) (k : Z) : string :=
  sign_text neg +++ PyInt.str (k / 100) +++ "." +++ two_digits (k mod 100).

(** [.2f] prints the hundredths nearest to the float. *)
Lemma format_2f_Q (neg : bool) (m e : Z) :
  (0 <= m)%Z ->
  exists k,
    format_2f (Finite neg m e) = hundredths neg k
    /\ (0 <= k)%Z
    /\ (- (1 # 2) <= inject_Z k - 100 * value m e <= 1 # 2)%Q.
Proof.
  intros Hm. exists (scaled (m * 100) 1 (- e)).
  split; [reflexivity|]. split; [apply scaled_nonneg; lia|].
  pose proof (scaled_Q (m * 100) 1 (- e) ltac:(lia) ltac:(lia)) as S.
  assert (E : (quotient (m * 100) 1 / pow2 (- e) == 100 * value m e)%Q).
  { unfold quotient, value, pow2. rewrite Qpower_opp, inject_Z_mult.
    pose proof (pow2_pos e) as P. unfold pow2 in P.
    change (inject_Z 100) with 100%Q. change (inject_Z 1) with 1%Q.
    field. lra. }
  rewrite E in S. exact S.
Qed.


Lemma float_limit_pos : (0 < float_limit)%Z.
Proof. vm_compute. reflexivity. Qed.

(** [a / n] raises when the quotient rounds to [2^1024] or more. *)
Lemma truediv_overflows (a n : Z) :
  (0 < n)%Z -> (float_limit * n <= Z.abs a)%Z ->
  truediv a n = inl OverflowError.
Proof.
  intros Hn H. pose proof float_limit_pos as F. unfold truediv.
  destruct (Z.eqb_spec n 0) as [E|_]; [lia|].
  rewrite nearest_overflows; [reflexivity | nia | lia|].
  rewrite (Z.abs_eq n) by lia. exact H.
Qed.

(** Below that, [a / n] is a float, and its text with two decimals is
    the hundredths [k / 100] with [k] within [1/2 + 100 |a/n| / 2^53] of
    [100 |a/n|]. *)
Lemma truediv_accuracy (a n : Z) :
  (0 < n <= 2 ^ 63)%Z -> (Z.abs a < float_limit * n)%Z ->
  exists v k,
    truediv a n = inr v
    /\ format_2f v = hundredths (a <? 0)%Z k
    /\ (0 <= k)%Z
    /\ (- ((1 # 2) + 100 * quotient (Z.abs a) n * (1 # 9007199254740992))
        <= inject_Z k - 100 * quotient (Z.abs a) n
        <= (1 # 2) + 100 * quotient (Z.abs a) n * (1 # 9007199254740992))%Q.
Proof.
  intros [Hn Hmax] H. unfold truediv.
  destruct (Z.eqb_spec n 0) as [E|_]; [lia|].
  replace (n <? 0)%Z with false by (symmetry; apply Z.ltb_ge; lia).
  rewrite xorb_false_r, (Z.abs_eq n) by lia.
  destruct (Z.eq_dec a 0) as [->|Hnz].
  - exists (Finite false 0 0), 0%Z.
    split; [reflexivity|]. split; [reflexivity|]. split; [lia|].
    assert (Q0 : (quotient (Z.abs 0) n == 0)%Q).
    { unfold quotient. simpl Z.abs. pose proof (inject_pos n Hn).
      change (inject_Z 0) with 0%Q. field. lra. }
    rewrite Q0. change (inject_Z 0) with 0%Q. split; lra.
  - assert (Pa : (0 < Z.abs a)%Z) by lia.
    destruct (nearest_in_limit (Z.abs a) n Pa Hn H) as (m & e & N).
    rewrite N.
    destruct (nearest_Q (Z.abs a) n m e Pa Hn N) as (Pm & V).
    destruct (exponent_Q (Z.abs a) n Pa Hn) as (_ & _ & E2).
    destruct (format_2f_Q (a <? 0)%Z m e Pm) as (k & F & Pk & K).
    exists (Finite (a <? 0)%Z m e), k.
    split; [reflexivity|]. split; [exact F|]. split; [exact Pk|].
    pose proof (quotient_spec (Z.abs a) n Hn) as EN.
    pose proof (inject_pos n Hn) as Pn.
    assert (Lo : (pow2 (-63) <= quotient (Z.abs a) n)%Q).
    { assert (A1 : (1 <= inject_Z (Z.abs a))%Q)
        by (change 1%Q with (inject_Z 1); rewrite <- Zle_Qle; lia).
      assert (A2 : (inject_Z n <= 9223372036854775808)%Q)
        by (change 9223372036854775808%Q with (inject_Z (2 ^ 63));
            rewrite <- Zle_Qle; exact Hmax).
      change (pow2 (-63)) with (1 # 9223372036854775808)%Q.
      set (X := quotient (Z.abs a) n) in *.
      destruct (Qlt_le_dec X (1 # 9223372036854775808)) as [C|C]; [|exact C].
      exfalso.
      assert (X * inject_Z n < (1 # 9223372036854775808) * inject_Z n)%Q
        by (apply Qmult_lt_compat_r; lra).
      lra. }
    assert (Nm : (pow2 (exponent (Z.abs a) n + 52) <= quotient (Z.abs a) n)%Q).
    { apply E2. right. eapply Qle_trans; [|exact Lo].
      apply pow2_le. unfold emin. lia. }
    rewrite pow2_add in Nm. change (pow2 52) with 4503599627370496%Q in Nm.
    destruct V as [V1 V2]. destruct K as [K1 K2].
    set (X := quotient (Z.abs a) n) in *.
    set (pE := pow2 (exponent (Z.abs a) n)) in *.
    split; lra.
Qed.


(** An [int] that [str] prints: one of at most 4300 digits. *)
Definition printable (n : Z) : Prop :=
  (Z.abs n < 10 ^ PyInt.max_str_digits)%Z.

Lemma format_printable (n : Z) :
  printable n -> PyInt.format n = Some (PyInt.str n).
Proof.
  unfold printable, PyInt.format. intros H.
  destruct (Z.leb_spec (10 ^ PyInt.max_str_digits) (Z.abs n)) as [L|_];
    [|reflexivity].
  exfalso. set (B := (10 ^ PyInt.max_str_digits)%Z) in *. lia.
Qed.

Lemma digit_count_nonneg (s : string) : (0 <= PyInt.digit_count s)%Z.
Proof.
  induction s as [|c r IH]; simpl; [lia|].
  destruct (PyInt.is_digit c); lia.
Qed.

Lemma digit_val_bound (c : ascii) :
  PyInt.is_digit c = true -> (0 <= PyInt.digit_val c <= 9)%Z.
Proof.
  unfold PyInt.is_digit, PyInt.digit_val. intros H.
  apply andb_true_iff in H. destruct H as [H1 H2].
  apply Nat.leb_le in H1, H2. lia.
Qed.

(** The number a run of digits stands for has as many digits. *)
Lemma digits_bound (s : string) (acc : Z) (b : bool) (v : Z) :
  (0 <= acc)%Z -> PyInt.digits acc b s = Some v ->
  (acc * 10 ^ PyInt.digit_count s <= v
   < (acc + 1) * 10 ^ PyInt.digit_count s)%Z.
Proof.
  revert acc b. induction s as [|c r IH]; intros acc b Ha;
    cbn [PyInt.digits PyInt.digit_count].
  - destruct b; [|discriminate]. intros H. injection H as <-.
    change (10 ^ 0)%Z with 1%Z. lia.
  - pose proof (digit_count_nonneg r) as Pr.
    destruct (PyInt.is_digit c) eqn:D.
    + intros H. pose proof (digit_val_bound c D) as Bd.
      apply IH in H; [|lia].
      rewrite Z.pow_add_r by lia. change (10 ^ 1)%Z with 10%Z.
      set (P := (10 ^ PyInt.digit_count r)%Z) in *.
      assert (0 < P)%Z by (apply Z.pow_pos_nonneg; lia). nia.
    + destruct (Ascii.eqb c "_"); [|discriminate].
      destruct b; [|discriminate]. intros H. apply IH in H; [|exact Ha].
      exact H.
Qed.

(** [int()] gives printable numbers only. *)
Lemma int_printable (s : string) (v : Z) :
  PyInt.int s = Some v -> printable v.
Proof.
  intros H. pose proof (int_cases s v H) as C.
  unfold PyInt.int in H. cbv zeta in H.
  destruct (Z.ltb_spec PyInt.max_str_digits
                       (PyInt.digit_count (PyStr.strip s))) as [|L];
    [discriminate|]. clear H.
  destruct (PyStr.strip s) as [|c r]; [discriminate|].
  assert (Lr : (PyInt.digit_count r <= PyInt.max_str_digits)%Z).
  { simpl in L. destruct (PyInt.is_digit c); lia. }
  assert (G : forall t w, (PyInt.digit_count t <= PyInt.max_str_digits)%Z ->
                          PyInt.digits 0 false t = Some w -> printable w).
  { intros t w Lt Hw. apply digits_bound in Hw; [|lia]. unfold printable.
    pose proof (digit_count_nonneg t) as Pt.
    assert (10 ^ PyInt.digit_count t <= 10 ^ PyInt.max_str_digits)%Z
      by (apply Z.pow_le_mono_r; lia).
    set (A := (10 ^ PyInt.digit_count t)%Z) in *.
    set (B := (10 ^ PyInt.max_str_digits)%Z) in *. lia. }
  destruct (Ascii.eqb c "+"); [exact (G r v Lr C)|].
  destruct (Ascii.eqb c "-"); [|exact (G (String c r) v L C)].
  destruct (PyInt.digits 0 false r) as [w|] eqn:W; [|discriminate].
  injection C as <-. pose proof (G r w Lr W) as Pw.
  unfold printable in *. rewrite Z.abs_opp. exact Pw.
Qed.

Definition pin_counts_of (nets : dict net) : list Z := map pin_count (values nets).

Lemma nets_step_printable (st : nets_state) (raw : string) :
  Forall printable (pin_counts_of (nets st)) ->
  Forall printable (pin_counts_of (nets (final (nets_step st raw)))).
Proof.
  intros H. unfold nets_step. rewrite strip_not_tab.
  destruct (PyStr.startswith (PyStr.strip raw) "net").
  - destruct (PyStr.split (PyStr.strip raw)) as [|t0 [|t1 [|t2 ts]]];
      try exact H.
    destruct (PyInt.int t2) as [c|] eqn:I; [|exact H]. simpl.
    unfold pin_counts_of in *. rewrite Forall_forall in *.
    intros p Hp. apply in_map_iff in Hp. destruct Hp as (x & <- & Hx).
    destruct (in_values_set _ _ _ _ Hx) as [Hx'| ->].
    + apply H. apply in_map. exact Hx'.
    + simpl. exact (int_printable _ _ I).
  - destruct (PyStr.startswith (PyStr.strip raw) "endnet"); exact H.
Qed.

Lemma nets_run_printable (lines : list string) (st : nets_state) :
  Forall printable (pin_counts_of (nets st)) ->
  Forall printable (pin_counts_of (nets (final (run nets_step st lines)))).
Proof.
  revert st. induction lines as [|raw lines IH]; intros st H; simpl; [exact H|].
  pose proof (nets_step_printable st raw H) as S.
  destruct (nets_step st raw) as [st1|e st1]; simpl in *; [apply IH, S | exact S].
Qed.

Definition zeros (n : nat) : string := string_of_list_ascii (repeat "0"%char n).

(** One net whose declared pin count is 10^309. *)
Definition huge_net : list string := ["net N1 1" +++ zeros 309 +++ NL].

(** C5, as stated, fails: with a non-empty nets mapping whose average
    pin count is beyond the largest float, the division raises
    [OverflowError] and the NETS section prints no average, minimum or
    maximum. *)
Lemma nets_section_overflows :
  fst (fst (parse_nets_file huge_net)) <> []
  /\ nets_section (fst (fst (parse_nets_file huge_net)))
                  (snd (fst (parse_nets_file huge_net)))
     = inl OverflowError.
Proof. split; [discriminate | vm_compute; reflexivity]. Qed.

(** C5, amended. Take a nets mapping that is not empty, with pin counts
    as [int()] gives them (at most 4300 digits, which holds of every
    parsed mapping) and at most [sys.maxsize] nets, and let [a] be the
    exact average of the declared pin counts. When [|a|] is
    [2^1024 - 2^970] or more, the division raises [OverflowError] and
    the section is not printed. Otherwise the NETS section is: the
    title, the rule, the Total Nets line, then the average, the minimum
    and the maximum of the pin counts, and an empty line. The average
    is printed with the sign of the sum and exactly two decimal places,
    as the hundredths [k / 100] with [|k / 100 - |a|| <= 1/200 +
    |a| / 2^53]: the text is [a] rounded to a float and then to two
    places. When [100 |a|] is an integer below [2^52] the text is [a]
    itself: 4.00 for the pin counts 2, 4, 6. *)
Theorem nets_section_average_min_max (nets : dict net) (net_count : nat) :
  let pin_counts := pin_counts_of nets in
  let total := py_sum pin_counts in
  let n := Z.of_nat (List.length pin_counts) in
  nets <> [] ->
  (n <= maxsize)%Z ->
  Forall printable pin_counts ->
  ((float_limit * n <= Z.abs total)%Z ->
   nets_section nets net_count = inl OverflowError)
  /\ ((Z.abs total < float_limit * n)%Z ->
      exists k mn mx,
        nets_section nets net_count
        = inr ["NETS:"; rule30; total_nets_line net_count;
               "Average Pins per Net: " +++ hundredths (total <? 0)%Z k;
               "Min Pins per Net: " +++ PyInt.str mn;
               "Max Pins per Net: " +++ PyInt.str mx;
               ""]
        /\ (0 <= k)%Z
        /\ (Qabs (inject_Z k / 100 - quotient (Z.abs total) n)
            <= 1 / 200 + quotient (Z.abs total) n / 2 ^ 53)%Q
        /\ (forall c, (100 * Z.abs total = c * n)%Z -> (c < 2 ^ 52)%Z -> k = c)
        /\ (In mn pin_counts /\ forall p, In p pin_counts -> (mn <= p)%Z)
        /\ (In mx pin_counts /\ forall p, In p pin_counts -> (p <= mx)%Z))
  /\ (forall lines,
        Forall printable (pin_counts_of (fst (fst (parse_nets_file lines))))).
Proof.
  intros pin_counts total n Hne Hmax Hpr.
  split; [|split].
  - intros H. unfold nets_section. subst total n pin_counts.
    unfold pin_counts_of in *.
    destruct (map pin_count (values nets)) as [|first rest] eqn:E.
    { destruct nets; [congruence | discriminate]. }
    rewrite truediv_overflows; [reflexivity | simpl; lia | exact H].
  - intros H. unfold nets_section. subst total n pin_counts.
    unfold pin_counts_of in *.
    destruct (map pin_count (values nets)) as [|first rest] eqn:E.
    { destruct nets; [congruence | discriminate]. }
    set (pcs := first :: rest) in *.
    assert (Hn : (0 < Z.of_nat (List.length pcs) <= 2 ^ 63)%Z).
    { unfold maxsize in Hmax. split; [simpl; lia | lia]. }
    destruct (truediv_accuracy _ _ Hn H) as (v & k & T & F & Pk & B).
    rewrite T.
    destruct (py_min_spec rest first) as [Imn Lmn].
    destruct (py_max_spec rest first) as [Imx Lmx].
    rewrite Forall_forall in Hpr.
    rewrite (format_printable _ (Hpr _ Imn)), (format_printable _ (Hpr _ Imx)).
    exists k, (py_min first rest), (py_max first rest).
    rewrite F. split; [reflexivity|]. split; [exact Pk|].
    set (X := quotient (Z.abs (py_sum pcs)) (Z.of_nat (List.length pcs))) in *.
    destruct B as [B1 B2].
    split; [|split; [|split; [split; assumption | split; assumption]]].
    + apply Qabs_Qle_condition. unfold Qdiv.
      change (/ 100)%Q with (1 # 100)%Q.
      change (/ 2 ^ 53)%Q with (1 # 9007199254740992)%Q.
      change (1 * / 200)%Q with (1 # 200)%Q.
      split; lra.
    + intros c Hc Hlt.
      pose proof (quotient_spec (Z.abs (py_sum pcs)) (Z.of_nat (List.length pcs))
                    ltac:(lia)) as EN. fold X in EN.
      pose proof (inject_pos (Z.of_nat (List.length pcs)) ltac:(lia)) as Pn.
      assert (Hq : (100 * inject_Z (Z.abs (py_sum pcs))
                    == inject_Z c * inject_Z (Z.of_nat (List.length pcs)))%Q).
      { rewrite <- inject_Z_mult, <- Hc, inject_Z_mult. reflexivity. }
      assert (EX : (100 * X == inject_Z c)%Q).
      { assert (Z0 : ((100 * X - inject_Z c)
                      * inject_Z (Z.of_nat (List.length pcs)) == 0)%Q) by lra.
        apply Qmult_integral in Z0. destruct Z0 as [Z0|Z0]; lra. }
      assert (Cb : (inject_Z c < 4503599627370496)%Q)
        by (change 4503599627370496%Q with (inject_Z (2 ^ 52));
            rewrite <- Zlt_Qlt; exact Hlt).
      assert (U : (inject_Z k < inject_Z (c + 1))%Q)
        by (rewrite inject_Z_plus; change (inject_Z 1) with 1%Q; lra).
      assert (L : (inject_Z (c - 1) < inject_Z k)%Q).
      { unfold Z.sub. rewrite inject_Z_plus, inject_Z_opp.
        change (inject_Z 1) with 1%Q.
        assert (0 <= X)%Q.
        { destruct (Qlt_le_dec X 0) as [C|C]; [|exact C]. exfalso.
          assert (X * inject_Z (Z.of_nat (List.length pcs))
                  < 0 * inject_Z (Z.of_nat (List.length pcs)))%Q
            by (apply Qmult_lt_compat_r; lra).
          assert (0 <= inject_Z (Z.abs (py_sum pcs)))%Q
            by (change 0%Q with (inject_Z 0); rewrite <- Zle_Qle; lia).
          lra. }
        lra. }
      rewrite <- Zlt_Qlt in U, L. lia.
  - intros lines. unfold parse_nets_file. simpl.
    apply nets_run_printable. constructor.
Qed.

Definition three_nets : dict net :=
  [("N1", {| name := "N1"; pin_count := 2; connections := [] |});
   ("N2", {| name := "N2"; pin_count := 4; connections := [] |});
   ("N3", {| name := "N3"; pin_count := 6; connections := [] |})].

Lemma nets_section_average_min_max_witness :
  nets_section three_nets 3
  = inr ["NETS:"; rule30; "Total Nets: 3";
         "Average Pins per Net: 4.00";
         "Min Pins per Net: 2";
         "Max Pins per Net: 6";
         ""].
Proof.
  destruct (nets_section_average_min_max three_nets 3) as (_ & P & _).
  - discriminate.
  - vm_compute. discriminate.
  - repeat constructor; vm_compute; reflexivity.
  - destruct P as (k & mn & mx & E & _ & _ & A & (Imn & Lmn) & (Imx & Lmx)).
    + vm_compute. reflexivity.
    + rewrite E. rewrite (A 400%Z eq_refl eq_refl).
      assert (mn = 2%Z) as ->.
      { pose proof (Lmn 2%Z (or_introl eq_refl)).
        simpl in Imn. destruct Imn as [<-|[<-|[<-|[]]]]; lia. }
      assert (mx = 6%Z) as ->.
      { pose proof (Lmx 6%Z (or_intror (or_intror (or_introl eq_refl)))).
        simpl in Imx. destruct Imx as [<-|[<-|[<-|[]]]]; lia. }
      reflexivity.
Defined.

End NetsReport.

Section ExceptionPolicyWitness.

Lemma readers_catch_and_return_witness :
  Analyzer.parse_wts_file wts_lines
  = ([("n1", PyFloat.Finite false 6755399441055744 (-52))], 1,
     [ErrorParsing "wts" (ValueError "abc")])
  /\ FixedViz.parse_pl_file pl_lines
     = ([], [ErrorReading "PL" (ValueError "x")]).
Proof.
  split.
  - destruct (readers_catch_and_return
                None ["n1 1.5" +++ NL] ["n3 2" +++ NL] ("n2 abc" +++ NL) "abc")
      as [W _].
    destruct W as [W _].
    + constructor; [reflexivity | constructor].
    + reflexivity.
    + exact W.
  - destruct (readers_catch_and_return
                None ["I1 5 5 0 FIXED" +++ NL] ["I3 1 1 0 FIXED" +++ NL]
                ("I2 x 3 0 FIXED" +++ NL) "x")
      as [_ P].
    destruct P as (_ & _ & P).
    + constructor; [reflexivity | constructor].
    + reflexivity.
    + exact P.
Defined.

End ExceptionPolicyWitness.

(** * Further properties *)

(** ** Loops that fill a dictionary or a counter *)

(** The value of the last pair written under a key. *)
Definition last_value {V : Type} (k : string) (ws : list (string * V))
           (before : option V) : option V :=
  fold_left (fun acc w => if String.eqb k (fst w) then Some (snd w) else acc)
            ws before.

Section DictLoop.
Import PyDict.
Context {S V : Type}.
Variable step : S -> string -> outcome S.
Variable proj : S -> dict V.
Variable kv : string -> option (string * V).

Hypothesis step_spec :
  forall st raw,
    match step st raw with
    | Ok st' =>
        proj st' = match kv raw with
                   | Some w => set (proj st) (fst w) (snd w)
                   | None => proj st
                   end
    | Raise _ st' => st' = st
    end.

Lemma dict_loop (lines : list string) (st : S) :
  let st' := final (run step st lines) in
  let ws := collect kv (processed step st lines) in
  (NoDup (keys (proj st)) -> NoDup (keys (proj st')))
  /\ (forall k, In k (keys (proj st'))
                <-> In k (keys (proj st)) \/ In k (map fst ws))
  /\ (forall k, get (proj st') k = last_value k ws (get (proj st) k)).
Proof.
  revert st. induction lines as [|raw lines IH]; intros st; simpl.
  - split; [auto | split; [intros k; simpl; tauto | reflexivity]].
  - pose proof (step_spec st raw) as C.
    destruct (step st raw) as [st1|e st1]; simpl.
    + specialize (IH st1). simpl in IH. destruct IH as (I1 & I2 & I3).
      destruct (kv raw) as [[k0 v0]|]; simpl in C; rewrite C in *.
      * split; [|split].
        -- intros H. apply I1, NoDup_keys_set, H.
        -- intros k. rewrite I2, in_keys_set. simpl. intuition congruence.
        -- intros k. rewrite I3. unfold last_value. simpl.
           destruct (String.eqb_spec k k0) as [->|N].
           ++ rewrite get_set_same. reflexivity.
           ++ rewrite get_set_other by assumption. reflexivity.
      * split; [|split]; auto.
    + subst st1. split; [auto | split; [intros k; simpl; tauto | reflexivity]].
Qed.

(** Started on an empty dictionary: one entry per distinct key written. *)
Lemma dict_loop_empty (lines : list string) (st : S) :
  proj st = [] ->
  let d := proj (final (run step st lines)) in
  let ws := collect kv (processed step st lines) in
  len d <= List.length ws
  /\ (len d = List.length ws <-> NoDup (map fst ws))
  /\ (forall k, mem d k = true <-> In k (map fst ws))
  /\ (forall k, get d k = last_value k ws None).
Proof.
  intros E. destruct (dict_loop lines st) as (I1 & I2 & I3).
  rewrite E in I1, I2, I3. simpl in I1, I2, I3.
  set (d := proj (final (run step st lines))) in *.
  set (ws := collect kv (processed step st lines)) in *.
  assert (K : forall k, In k (keys d) <-> In k (map fst ws))
    by (intros k; rewrite I2; tauto).
  destruct (distinct_keys_count (keys d) (map fst ws) (I1 (NoDup_nil _)) K)
    as (L1 & _ & L3).
  unfold keys in L1, L3. rewrite !length_map in L1, L3.
  split; [exact L1 | split; [exact L3 | split; [|exact I3]]].
  intros k. rewrite mem_keys. apply K.
Qed.
End DictLoop.

Section CounterLoop.
Context {S : Type}.
Variable step : S -> string -> outcome S.
Variable proj : S -> Counter.t.
Variable key : string -> option string.

Hypothesis step_spec :
  forall st raw,
    match step st raw with
    | Ok st' =>
        proj st' = match key raw with
                   | Some t => Counter.incr (proj st) t
                   | None => proj st
                   end
    | Raise _ st' => st' = st
    end.

Lemma counter_loop (lines : list string) (st : S) :
  let st' := final (run step st lines) in
  let ts := collect key (processed step st lines) in
  Counter.total (proj st') = Counter.total (proj st) + List.length ts
  /\ forall t, Counter.count (proj st') t
               = Counter.count (proj st) t
                 + List.length (filter (String.eqb t) ts).
Proof.
  revert st. induction lines as [|raw lines IH]; intros st; simpl.
  - split; [lia | intros t; simpl; lia].
  - pose proof (step_spec st raw) as C.
    destruct (step st raw) as [st1|e st1]; simpl.
    + specialize (IH st1). simpl in IH. destruct IH as (I1 & I2).
      destruct (key raw) as [t0|]; rewrite C in *.
      * split.
        -- rewrite I1, total_incr. simpl. lia.
        -- intros t. rewrite I2. simpl.
           destruct (String.eqb_spec t t0) as [->|N].
           ++ rewrite count_incr_same. simpl. lia.
           ++ rewrite count_incr_other by assumption. lia.
      * split; auto.
    + subst st1. split; [simpl; lia | intros t; simpl; lia].
Qed.
End CounterLoop.

(** A loop whose body never raises reads every line. *)
Lemma processed_all {S : Type} (step : S -> string -> outcome S)
      (lines : list string) (st : S) :
  (forall st raw, raised (step st raw) = None) ->
  processed step st lines = lines /\ raised (run step st lines) = None.
Proof.
  intros H. revert st. induction lines as [|raw lines IH]; intros st; simpl.
  - auto.
  - specialize (H st raw) as R. destruct (step st raw) as [st1|e st1]; [|discriminate].
    destruct (IH st1) as [-> ->]. auto.
Qed.

(** ** The .nodes readers *)

Section NodesReaders.
Import PyStr PyDict.

(** The instance and the cell type a line of a .nodes file declares. *)
Definition node_line (raw : string) : option (string * string) :=
  let line := strip raw in
  if truthy line && negb (startswith line "#") then
    match split line with
    | n :: t :: _ => Some (n, t)
    | _ => None
    end
  else None.

Lemma nodes_step_spec (st : Analyzer.nodes_state) (raw : string) :
  Analyzer.nodes_step st raw
  = Ok match node_line raw with
       | Some w =>
           {| Analyzer.instances := set (Analyzer.instances st) (fst w) (snd w);
              Analyzer.instance_types :=
                Counter.incr (Analyzer.instance_types st) (snd w) |}
       | None => st
       end.
Proof.
  unfold Analyzer.nodes_step, node_line.
  destruct (truthy (strip raw) && negb (startswith (strip raw) "#")); auto.
  destruct (split (strip raw)) as [|t0 [|t1 ts]]; auto.
Qed.

(** X1. The Analyzer's .nodes reader fails only when its file cannot be
    opened or decoded: it then prints one message and returns empty
    results. No line of a file that is read makes it fail: it prints
    nothing, its type counts add up to the number of declaring lines
    and give, per cell type, the number of lines declaring it, and its
    instance mapping keeps one entry per distinct instance name, with
    the cell type of the last line for it. So the mapping has at most
    as many entries as the counts add up to, and exactly as many only
    when no instance is declared twice. *)
Theorem nodes_reader_counts_lines (f : text_file) :
  let '(instances, instance_types, messages) :=
    Analyzer.parse_nodes_file_from f in
  match read_error f with
  | Some e =>
      instances = [] /\ instance_types = []
      /\ messages = [ErrorParsing "nodes" e]
  | None =>
      let ns := collect node_line (decoded f) in
      messages = []
      /\ Counter.total instance_types = List.length ns
      /\ (forall t, Counter.count instance_types t
                    = List.length (filter (String.eqb t) (map snd ns)))
      /\ len instances <= Counter.total instance_types
      /\ (len instances = Counter.total instance_types <-> NoDup (map fst ns))
      /\ (forall n, get instances n = last_value n ns None)
  end.
Proof.
  unfold Analyzer.parse_nodes_file_from, readlines.
  destruct (read_error f) as [e|]; [auto|].
  set (lines := decoded f).
  unfold Analyzer.parse_nodes_file.
  destruct (processed_all Analyzer.nodes_step lines Analyzer.nodes_init) as [P R].
  { intros st raw. rewrite nodes_step_spec. reflexivity. }
  unfold report_exn. rewrite R.
  destruct (dict_loop_empty Analyzer.nodes_step Analyzer.instances node_line)
    with (lines := lines) (st := Analyzer.nodes_init) as (D1 & D2 & _ & D4);
    [|reflexivity|].
  { intros st raw. rewrite nodes_step_spec. destruct (node_line raw); reflexivity. }
  destruct (counter_loop Analyzer.nodes_step Analyzer.instance_types
                         (fun raw => option_map snd (node_line raw)))
    with (lines := lines) (st := Analyzer.nodes_init) as (C1 & C2).
  { intros st raw. rewrite nodes_step_spec. destruct (node_line raw); reflexivity. }
  rewrite P in *. simpl in C1, C2.
  assert (M : collect (fun raw => option_map snd (node_line raw)) lines
              = map snd (collect node_line lines)).
  { clear. induction lines as [|raw lines IH]; simpl; [reflexivity|].
    destruct (node_line raw); simpl; congruence. }
  rewrite M in C1, C2. rewrite length_map in C1.
  split; [reflexivity|]. split; [exact C1|]. split; [exact C2|].
  rewrite C1. split; [exact D1 | split; [exact D2 | exact D4]].
Qed.

Lemma viz_nodes_step_spec (acc : dict string) (raw : string) :
  FixedViz.nodes_step acc raw
  = Ok match node_line raw with
       | Some w => set acc (fst w) (snd w)
       | None => acc
       end.
Proof.
  unfold FixedViz.nodes_step, node_line.
  destruct (truthy (strip raw) && negb (startswith (strip raw) "#")); auto.
  destruct (split (strip raw)) as [|t0 [|t1 ts]]; auto.
Qed.

(** X2. The two .nodes readers agree on every file: they return the
    same instance mapping, and one prints a message exactly when the
    other does, which is when the file cannot be opened or decoded;
    both mappings are empty then. On a file that is read the
    Fixed-Elements Visualizer's reader returns, without a message, the
    mapping the Analyzer's reader builds from the lines. *)
Theorem nodes_readers_agree (f : text_file) :
  fst (FixedViz.parse_nodes_file_from f)
  = fst (fst (Analyzer.parse_nodes_file_from f))
  /\ (snd (FixedViz.parse_nodes_file_from f) = []
      <-> snd (Analyzer.parse_nodes_file_from f) = [])
  /\ (snd (FixedViz.parse_nodes_file_from f) = [] <-> read_error f = None)
  /\ (read_error f = None ->
      FixedViz.parse_nodes_file_from f
      = (fst (fst (Analyzer.parse_nodes_file (decoded f))), [])).
Proof.
  assert (G : forall lines st,
             run FixedViz.nodes_step (Analyzer.instances st) lines
             = Ok (Analyzer.instances (final (run Analyzer.nodes_step st lines)))).
  { induction lines as [|raw lines IH]; intros st; simpl; [reflexivity|].
    rewrite viz_nodes_step_spec, nodes_step_spec.
    destruct (node_line raw) as [w|]; [|apply IH].
    exact (IH {| Analyzer.instances :=
                   set (Analyzer.instances st) (fst w) (snd w);
                 Analyzer.instance_types :=
                   Counter.incr (Analyzer.instance_types st) (snd w) |}). }
  pose proof (G (decoded f) Analyzer.nodes_init) as G0.
  change (Analyzer.instances Analyzer.nodes_init) with (@nil (string * string)) in G0.
  destruct (processed_all Analyzer.nodes_step (decoded f) Analyzer.nodes_init)
    as [_ R].
  { intros st raw. rewrite nodes_step_spec. reflexivity. }
  unfold FixedViz.parse_nodes_file_from, Analyzer.parse_nodes_file_from,
    readlines, Analyzer.parse_nodes_file, report_exn. cbv zeta.
  rewrite G0. destruct (read_error f) as [e|]; simpl.
  - split; [reflexivity|]. split; [split; discriminate|].
    split; [split; discriminate | discriminate].
  - rewrite R. split; [reflexivity|]. split; [split; intros _; reflexivity|].
    split; [split; intros _; reflexivity | reflexivity].
Qed.

End NodesReaders.

(** ** The .wts reader *)

Section WtsReader.
Import PyStr PyDict Analyzer.








End WtsReader.

(** ** The readers of the Fixed-Elements Visualizer *)

Section FixedVizReaders.
Import PyStr PyDict.














End FixedVizReaders.

(** ** The .scl readers on any input *)

Section SclAnyInput.
Import PyStr PyDict Analyzer.

Local Opaque max_site_map_entries.

(** The site-map mode after a line that did not raise. *)
Definition next_mode (mode : bool) (raw : string) : bool :=
  if sitemap_line raw then true
  else if end_sitemap_line raw then false
  else mode.

(** The lines the streaming counter counts: in the site map, not a
    [SITEMAP] or [END SITEMAP] line, with at least three tokens. *)
Definition counted (mode : bool) (raw : string) : bool :=
  mode && negb (sitemap_line raw) && negb (end_sitemap_line raw)
  && (3 <=? List.length (split (strip raw))).

Lemma split_empty_line (s : string) : truthy s = false -> split s = [].
Proof. destruct s; [reflexivity | discriminate]. Qed.

Lemma count_step_spec (ct : count_state) (raw : string) :
  exists ct',
    count_step ct raw = Ok ct'
    /\ c_in_sitemap ct' = next_mode (c_in_sitemap ct) raw
    /\ Counter.total (site_type_counts ct')
       = Counter.total (site_type_counts ct)
         + (if counted (c_in_sitemap ct) raw then 1 else 0).
Proof.
  unfold count_step, next_mode, counted, sitemap_line, end_sitemap_line.
  destruct (startswith (strip raw) "SITEMAP").
  { eexists. split; [reflexivity|]. simpl. rewrite andb_false_r. simpl. auto. }
  destruct (startswith (strip raw) "END SITEMAP").
  { eexists. split; [reflexivity|]. simpl. rewrite andb_false_r. simpl. auto. }
  destruct (c_in_sitemap ct) eqn:M; simpl.
  - destruct (truthy (strip raw)) eqn:T; simpl.
    + destruct (split (strip raw)) as [|t0 [|t1 [|t2 ts]]]; simpl;
        eexists; (split; [reflexivity|]); simpl; rewrite ?total_incr; auto; lia.
    + rewrite (split_empty_line _ T). simpl. eexists. split; [reflexivity|]. auto.
  - eexists. split; [reflexivity|]. auto.
Qed.

Lemma count_total_grows (lines : list string) (ct : count_state) :
  Counter.total (site_type_counts ct)
  <= Counter.total (site_type_counts (final (run count_step ct lines))).
Proof.
  revert ct. induction lines as [|raw lines IH]; intros ct; simpl; [lia|].
  destruct (count_step_spec ct raw) as (ct1 & -> & _ & T).
  specialize (IH ct1). lia.
Qed.

(** One line of the full-detail reader: either the stored site map is
    as before, or the line is one the counter counts, the cap is not
    reached, and one record is appended. *)
Lemma scl_step_store (st : scl_state) (raw : string) :
  let st' := final (scl_step st raw) in
  ((site_map st' = site_map st /\ site_map_count st' = site_map_count st)
   \/ (counted (in_sitemap st) raw = true
       /\ site_map_count st < max_site_map_entries
       /\ exists e, site_map st' = site_map st ++ [e]
                    /\ site_map_count st' = site_map_count st + 1))
  /\ (raised (scl_step st raw) = None ->
      in_sitemap st' = next_mode (in_sitemap st) raw).
Proof.
  unfold scl_step, next_mode, counted, sitemap_line, end_sitemap_line.
  destruct (startswith (strip raw) "SITEMAP").
  { split; [left|intros _]; unfold scl_sitemap_header;
      destruct (split (strip raw)) as [|t0 [|t1 [|t2 ts]]]; simpl; auto;
      destruct (PyInt.int t1); simpl; auto;
      destruct (PyInt.int t2); simpl; auto. }
  destruct (startswith (strip raw) "END SITEMAP"); [simpl; auto|].
  destruct (startswith (strip raw) "SITE" && negb (in_sitemap st)).
  { destruct (index (split (strip raw)) 1); simpl; auto;
      try (split; [auto | discriminate]). }
  destruct (startswith (strip raw) "END SITE"); [simpl; auto|].
  destruct (site_open st && truthy (strip raw) && negb (in_sitemap st)).
  { unfold scl_site_resource.
    destruct (split (strip raw)) as [|t0 [|t1 ts]]; simpl; auto.
    destruct (PyInt.int t1); simpl; [|try (split; [auto | discriminate])].
    destruct (current_site st); simpl; auto.
    destruct (get (sites st) s); simpl; auto;
      try (split; [auto | discriminate]). }
  destruct (startswith (strip raw) "RESOURCES"); [simpl; auto|].
  destruct (startswith (strip raw) "END RESOURCES"); [simpl; auto|].
  destruct (in_resources st && truthy (strip raw)).
  { destruct (split (strip raw)) as [|t0 [|t1 ts]]; simpl; auto. }
  destruct (in_sitemap st) eqn:M; simpl; [|auto].
  destruct (truthy (strip raw)); simpl; [|auto].
  unfold scl_sitemap_entry.
  destruct (split (strip raw)) as [|t0 [|t1 [|t2 ts]]]; simpl; auto.
  destruct (Nat.ltb_spec (site_map_count st) max_site_map_entries); [|auto].
  destruct (PyInt.int t0); [|auto]. destruct (PyInt.int t1); [|auto].
  split; [right | auto]. simpl. eauto.
Qed.

Lemma scl_run_cap (lines : list string) (st : scl_state) :
  site_map_count st = List.length (site_map st) ->
  site_map_count st <= max_site_map_entries ->
  let st' := final (run scl_step st lines) in
  site_map_count st' = List.length (site_map st')
  /\ site_map_count st' <= max_site_map_entries.
Proof.
  revert st. induction lines as [|raw lines IH]; intros st H1 H2; simpl; [auto|].
  destruct (scl_step_store st raw) as [S _].
  destruct (scl_step st raw) as [st1|e st1]; simpl in *.
  - apply IH.
    + destruct S as [[-> ->]|(_ & _ & e & -> & ->)]; [exact H1|].
      rewrite length_app. simpl. lia.
    + destruct S as [[_ ->]|(_ & L & e & _ & ->)]; lia.
  - destruct S as [[-> ->]|(_ & L & e0 & -> & ->)]; [auto|].
    rewrite length_app. simpl. lia.
Qed.

(** X6. On every .scl input the full-detail reader keeps at most 10000
    site-map records. *)
Theorem site_map_never_exceeds_cap (lines : list string) :
  List.length (snd (fst (fst (parse_scl_file lines)))) <= 10000.
Proof.
  change 10000 with max_site_map_entries. unfold parse_scl_file. simpl.
  destruct (scl_run_cap lines scl_init eq_refl (Nat.le_0_l _)) as [E L].
  rewrite <- E. exact L.
Qed.

Lemma scl_run_below_count (lines : list string) (st : scl_state)
      (ct : count_state) :
  in_sitemap st = c_in_sitemap ct ->
  List.length (site_map st) <= Counter.total (site_type_counts ct) ->
  List.length (site_map (final (run scl_step st lines)))
  <= Counter.total (site_type_counts (final (run count_step ct lines))).
Proof.
  revert st ct. induction lines as [|raw lines IH]; intros st ct M L; simpl; [exact L|].
  destruct (scl_step_store st raw) as [S N].
  destruct (count_step_spec ct raw) as (ct1 & -> & M1 & T).
  pose proof (count_total_grows lines ct1) as G.
  assert (L1 : List.length (site_map (final (scl_step st raw)))
               <= Counter.total (site_type_counts ct1)).
  { destruct S as [[-> _]|(C & _ & e0 & -> & _)]; [lia|].
    rewrite length_app. simpl. rewrite M in C. rewrite C in T. lia. }
  destruct (scl_step st raw) as [st1|e st1]; simpl in *.
  - apply IH; [|exact L1]. rewrite (N eq_refl), M1, M. reflexivity.
  - lia.
Qed.

(** X7. On every .scl input, also a malformed one, the number of
    site-map records the full-detail reader keeps is at most the total
    of the streaming counter: the report's "Total Sites in Map" never
    falls below the length of the stored site map. *)
Theorem stored_site_map_below_exact_count (lines : list string) :
  List.length (snd (fst (fst (parse_scl_file lines))))
  <= Counter.total (fst (count_site_types_from_scl lines)).
Proof.
  unfold parse_scl_file, count_site_types_from_scl. simpl.
  apply scl_run_below_count; [reflexivity | simpl; lia].
Qed.

End SclAnyInput.

(** ** The .lib reader *)

Section LibReader.
Import PyStr PyDict Analyzer.

Definition is_direction (t : string) : bool :=
  String.eqb t "INPUT" || String.eqb t "OUTPUT".

Definition is_attribute (t : string) : bool :=
  String.eqb t "CLOCK" || String.eqb t "CTRL".

Lemma last_cons_default {A : Type} (l : list A) (x d : A) :
  last (x :: l) d = last l x.
Proof.
  revert x d. induction l as [|y l IH]; intros x d; [reflexivity|].
  change (last (x :: y :: l) d) with (last (y :: l) d).
  rewrite (IH y d), (IH y x). reflexivity.
Qed.

Lemma pin_attrs_spec (attrs : list string) (t : string) (a : list string) :
  pin_attrs attrs t a
  = (last (filter is_direction attrs) t, a ++ filter is_attribute attrs).
Proof.
  revert t a. induction attrs as [|x attrs IH]; intros t a; simpl.
  - rewrite app_nil_r. reflexivity.
  - unfold is_direction at 1, is_attribute at 1.
    destruct (String.eqb x "INPUT" || String.eqb x "OUTPUT") eqn:D.
    + rewrite IH.
      assert (is_attribute x = false) as A.
      { unfold is_attribute.
        destruct (String.eqb_spec x "INPUT") as [->|]; [reflexivity|].
        destruct (String.eqb_spec x "OUTPUT") as [->|]; [reflexivity|discriminate]. }
      unfold is_attribute in A. rewrite A. f_equal.
      symmetry. apply last_cons_default.
    + destruct (String.eqb x "CLOCK" || String.eqb x "CTRL"); rewrite IH.
      * rewrite <- app_assoc. reflexivity.
      * reflexivity.
Qed.

Lemma get_in_values {V : Type} (d : dict V) (k : string) (v : V) :
  get d k = Some v -> In v (values d).
Proof.
  induction d as [|[k0 v0] d IH]; simpl; [discriminate|].
  destruct (String.eqb k k0); [intros H; injection H as ->; auto | auto].
Qed.

Definition counts_its_pins (c : cell_info) : Prop :=
  cell_pin_count c = List.length (pins c).

Lemma lib_step_counts (st : lib_state) (raw : string) :
  (forall c, In c (values (cells st)) -> counts_its_pins c) ->
  forall c, In c (values (cells (final (lib_step st raw)))) -> counts_its_pins c.
Proof.
  intros H. unfold lib_step.
  destruct (startswith (strip raw) "CELL").
  { destruct (index (split (strip raw)) 1); simpl; [|exact H].
    intros c Hc. destruct (in_values_set _ _ _ _ Hc) as [Hc'| ->]; auto.
    reflexivity. }
  destruct (startswith (strip raw) "PIN"), (cell_open st) as [cur|];
    try (destruct (startswith (strip raw) "END CELL"); simpl; exact H).
  destruct (tl (split (strip raw))) as [|pname attrs]; simpl; [exact H|].
  destruct (pin_attrs attrs "INPUT" []) as [ptype pattr].
  destruct (get (cells st) cur) as [c0|] eqn:G; simpl; [|exact H].
  intros c Hc. destruct (in_values_set _ _ _ _ Hc) as [Hc'| ->]; auto.
  unfold counts_its_pins. simpl. rewrite length_app. simpl.
  rewrite (H c0 (get_in_values _ _ _ G)). reflexivity.
Qed.

Lemma lib_run_counts (lines : list string) (st : lib_state) :
  (forall c, In c (values (cells st)) -> counts_its_pins c) ->
  forall c, In c (values (cells (final (run lib_step st lines)))) ->
            counts_its_pins c.
Proof.
  revert st. induction lines as [|raw lines IH]; intros st H; simpl; [exact H|].
  pose proof (lib_step_counts st raw H) as S.
  destruct (lib_step st raw) as [st1|e st1]; simpl in *; [apply IH, S | exact S].
Qed.

(** X8. In the result of the .lib reader, on every input, each cell's
    pin count equals the length of its pin list. *)
Theorem lib_pin_count_is_pin_list_length (lines : list string) (n : string)
        (c : cell_info) :
  get (fst (parse_lib_file lines)) n = Some c ->
  cell_pin_count c = List.length (pins c).
Proof.
  unfold parse_lib_file. simpl. intros G.
  apply (lib_run_counts lines lib_init); [intros c0 []|].
  exact (get_in_values _ _ _ G).
Qed.

Definition two_pin_cell : cell_info :=
  {| pins := [{| pin_name := "a"; pin_type := "INPUT"; attributes := [] |};
              {| pin_name := "b"; pin_type := "OUTPUT"; attributes := [] |}];
     cell_pin_count := 2 |}.

Lemma lib_pin_count_is_pin_list_length_witness :
  get (fst (parse_lib_file ["CELL C1"; "PIN a"; "PIN b OUTPUT"; "END CELL"])) "C1"
  = Some two_pin_cell
  /\ cell_pin_count two_pin_cell = List.length (pins two_pin_cell).
Proof.
  split; [reflexivity|].
  exact (lib_pin_count_is_pin_list_length
           ["CELL C1"; "PIN a"; "PIN b OUTPUT"; "END CELL"] "C1" two_pin_cell
           eq_refl).
Defined.

(** The pin a [PIN] line declares inside an open cell. *)
Definition declared_pin (pname : string) (attrs : list string) : lib_pin :=
  {| pin_name := pname;
     pin_type := last (filter is_direction attrs) "INPUT";
     attributes := filter is_attribute attrs |}.

(** X9. A [PIN] line read while a cell is open appends one pin to that
    cell: its name is the second token; its direction is the last
    [INPUT] or [OUTPUT] token after the name, [INPUT] when there is
    none; its attributes are the [CLOCK] and [CTRL] tokens after the
    name, in order and with repeats. *)
Theorem lib_pin_line_appends_pin
        (st : lib_state) (raw cur pname : string) (attrs : list string)
        (c : cell_info) (t0 : string) :
  startswith (strip raw) "CELL" = false ->
  startswith (strip raw) "PIN" = true ->
  cell_open st = Some cur ->
  get (cells st) cur = Some c ->
  split (strip raw) = t0 :: pname :: attrs ->
  lib_step st raw
  = Ok {| cells := set (cells st) cur
                       {| pins := pins c ++ [declared_pin pname attrs];
                          cell_pin_count := cell_pin_count c + 1 |};
          current_cell := current_cell st |}.
Proof.
  intros H1 H2 H3 H4 H5. unfold lib_step. rewrite H1, H2, H3, H5.
  cbv beta iota delta [tl]. rewrite pin_attrs_spec, H4. reflexivity.
Qed.

Definition open_cell : lib_state :=
  {| cells := [("C1", {| pins := []; cell_pin_count := 0 |})];
     current_cell := Some "C1" |}.

Lemma lib_pin_line_appends_pin_witness :
  lib_step open_cell "  PIN p3 CTRL OUTPUT INPUT CLOCK CLOCK x"
  = Ok {| cells :=
            [("C1", {| pins := [{| pin_name := "p3"; pin_type := "INPUT";
                                   attributes := ["CTRL"; "CLOCK"; "CLOCK"] |}];
                       cell_pin_count := 1 |})];
          current_cell := Some "C1" |}.
Proof.
  exact (lib_pin_line_appends_pin
           open_cell "  PIN p3 CTRL OUTPUT INPUT CLOCK CLOCK x" "C1" "p3"
           ["CTRL"; "OUTPUT"; "INPUT"; "CLOCK"; "CLOCK"; "x"]
           {| pins := []; cell_pin_count := 0 |} "PIN"
           eq_refl eq_refl eq_refl eq_refl eq_refl).
Defined.

(** The line of the LIBRARY CELLS section for a cell, written from its
    pin list. *)
Definition cell_line (kv : string * cell_info) : string :=
  "  " +++ fst kv +++ ": "
  +++ PyInt.str (Z.of_nat (List.length (pins (snd kv)))) +++ " pins".

Lemma lib_step_keys (st : lib_state) (raw : string) :
  NoDup (keys (cells st)) -> NoDup (keys (cells (final (lib_step st raw)))).
Proof.
  intros H. unfold lib_step.
  destruct (startswith (strip raw) "CELL").
  { destruct (index (split (strip raw)) 1); simpl; [|exact H].
    apply NoDup_keys_set, H. }
  destruct (startswith (strip raw) "PIN"), (cell_open st) as [cur|];
    try (destruct (startswith (strip raw) "END CELL"); simpl; exact H).
  destruct (tl (split (strip raw))) as [|pname attrs]; simpl; [exact H|].
  destruct (pin_attrs attrs "INPUT" []) as [ptype pattr].
  destruct (get (cells st) cur) as [c0|]; simpl; [|exact H].
  apply NoDup_keys_set, H.
Qed.

Lemma lib_run_keys (lines : list string) (st : lib_state) :
  NoDup (keys (cells st)) ->
  NoDup (keys (cells (final (run lib_step st lines)))).
Proof.
  revert st. induction lines as [|raw lines IH]; intros st H; simpl; [exact H|].
  pose proof (lib_step_keys st raw H) as S.
  destruct (lib_step st raw) as [st1|e st1]; simpl in *; [apply IH, S | exact S].
Qed.

(** X22. The LIBRARY CELLS section of a report made from a .lib file, on
    every input: each cell name the reader kept has one line, the line
    shows the length of the pin list of that cell, and the Total Cell
    Types value is the number of these lines. *)
Theorem report_cell_lines_show_pin_lists (lines : list string) :
  let cells := fst (parse_lib_file lines) in
  cells_section cells
  = ["LIBRARY CELLS:"; rule30;
     "Total Cell Types: "
       +++ PyInt.str (Z.of_nat (List.length (map cell_line cells)));
     "Cell Types:"]
    ++ map cell_line cells ++ [""]
  /\ NoDup (keys cells).
Proof.
  cbv zeta. unfold parse_lib_file. cbn [fst].
  set (cs := cells (final (run lib_step lib_init lines))).
  split; [|apply lib_run_keys; constructor].
  unfold cells_section, len. rewrite length_map.
  f_equal. f_equal. apply map_ext_in. intros [n c] Hin.
  unfold cell_line. cbn [fst snd].
  assert (counts_its_pins c) as ->; [|reflexivity].
  apply (lib_run_counts lines lib_init); [intros c0 []|].
  unfold values. exact (in_map snd _ _ Hin).
Qed.

End LibReader.

(** ** The .aux reader *)

Section AuxReader.
Import PyStr PyDict Analyzer.

Definition comment (raw : string) : bool := startswith (strip raw) "#".

(** What a line gives for each key of [aux_data]. *)
Definition version_of (raw : string) : option string :=
  if comment raw && PyRe.contains "version" (strip raw)
  then PyRe.search_version (strip raw) else None.

Definition date_of (raw : string) : option string :=
  if comment raw && PyRe.contains "version" (strip raw)
  then PyRe.search_date (strip raw) else None.

(** A line that is no comment and has exactly one colon. *)
Definition manifest_of (raw : string) : option (string * list string) :=
  if comment raw then None
  else match PyRe.split_colon (strip raw) with
       | [before; after] => Some (strip before, map strip (split after))
       | _ => None
       end.

Lemma split_colon_contains (s : string) :
  PyRe.contains ":" s = false -> exists p, PyRe.split_colon s = [p].
Proof.
  induction s as [|c s IH]; [simpl; eauto|].
  intros H.
  change (PyRe.contains ":" (String c s))
    with (String.prefix ":" (String c s) || PyRe.contains ":" s) in H.
  apply orb_false_iff in H. destruct H as [H1 H2].
  cbn [String.prefix] in H1.
  destruct (ascii_dec ":" c) as [E|N].
  - destruct s; discriminate.
  - simpl. destruct (Ascii.eqb_spec c ":") as [->|_]; [congruence|].
    destruct (IH H2) as [p ->]. eauto.
Qed.

Lemma aux_step_spec (st : aux_data) (raw : string) :
  aux_step st raw
  = Ok {| version := or_keep (version_of raw) (version st);
          date := or_keep (date_of raw) (date st);
          design_name := or_keep (option_map fst (manifest_of raw)) (design_name st);
          included_files :=
            or_keep (option_map snd (manifest_of raw)) (included_files st) |}.
Proof.
  unfold aux_step, version_of, date_of, manifest_of, comment.
  destruct st as [v d n f].
  destruct (startswith (strip raw) "#"); simpl.
  - destruct (PyRe.contains "version" (strip raw)); reflexivity.
  - destruct (PyRe.contains ":" (strip raw)) eqn:C.
    + destruct (PyRe.split_colon (strip raw)) as [|b [|a [|x xs]]]; reflexivity.
    + destruct (split_colon_contains _ C) as [p ->]. reflexivity.
Qed.

Lemma or_keep_last {A : Type} (f : string -> option A) (lines : list string)
      (before : option A) :
  fold_left (fun acc raw => or_keep (f raw) acc) lines before
  = last_or (collect f lines) before.
Proof.
  revert before. induction lines as [|raw lines IH]; intros before; simpl;
    [reflexivity|].
  rewrite IH. destruct (f raw); reflexivity.
Qed.

Lemma aux_run_folds (lines : list string) (st : aux_data) :
  final (run aux_step st lines)
  = {| version := fold_left (fun acc raw => or_keep (version_of raw) acc)
                            lines (version st);
       date := fold_left (fun acc raw => or_keep (date_of raw) acc)
                         lines (date st);
       design_name :=
         fold_left (fun acc raw => or_keep (option_map fst (manifest_of raw)) acc)
                   lines (design_name st);
       included_files :=
         fold_left (fun acc raw => or_keep (option_map snd (manifest_of raw)) acc)
                   lines (included_files st) |}.
Proof.
  revert st. induction lines as [|raw lines IH]; intros st; simpl.
  - destruct st; reflexivity.
  - rewrite aux_step_spec. apply IH.
Qed.

Lemma manifest_keys_together (lines : list string)
      (a : option string) (b : option (list string)) :
  (a = None <-> b = None) ->
  last_or (collect (fun raw => option_map fst (manifest_of raw)) lines) a = None
  <-> last_or (collect (fun raw => option_map snd (manifest_of raw)) lines) b
      = None.
Proof.
  revert a b. induction lines as [|raw lines IH]; intros a b H; simpl; [exact H|].
  destruct (manifest_of raw) as [[n f]|]; simpl.
  - unfold last_or. simpl. apply (IH (Some n) (Some f)). split; discriminate.
  - apply IH, H.
Qed.

(** X10. The .aux reader fails only when its file cannot be opened or
    decoded: it then prints one message and returns no key. No line of
    a file that is read makes it fail, and the last occurrence wins: the
    version and the date are those found on the last comment line that
    contains [version] and matches the pattern, the design name and the
    included files are those of the last line that is no comment and has
    exactly one colon; a key whose pattern no line matches stays absent.
    The design name and the included files are present together. *)
Theorem aux_last_occurrence_wins (f : text_file) :
  let '(aux, messages) := parse_aux_file_from f in
  match read_error f with
  | Some e => aux = aux_init /\ messages = [ErrorParsing "aux" e]
  | None =>
      let lines := decoded f in
      messages = []
      /\ version aux = last_or (collect version_of lines) None
      /\ date aux = last_or (collect date_of lines) None
      /\ design_name aux
         = last_or (collect (fun raw => option_map fst (manifest_of raw)) lines)
                   None
      /\ included_files aux
         = last_or (collect (fun raw => option_map snd (manifest_of raw)) lines)
                   None
      /\ (design_name aux = None <-> included_files aux = None)
  end.
Proof.
  unfold parse_aux_file_from, readlines.
  destruct (read_error f) as [e|]; [auto|].
  set (lines := decoded f).
  unfold parse_aux_file.
  destruct (processed_all aux_step lines aux_init) as [_ R].
  { intros st raw. rewrite aux_step_spec. reflexivity. }
  unfold report_exn. rewrite R.
  rewrite (aux_run_folds lines aux_init). simpl. rewrite !or_keep_last.
  split; [reflexivity|]. split; [reflexivity|]. split; [reflexivity|].
  split; [reflexivity|]. split; [reflexivity|].
  apply manifest_keys_together. tauto.
Qed.

End AuxReader.

(** ** The figure of the Fixed-Elements Visualizer *)

Section FixedFigure.
Import PyDict FixedViz.

Definition is_drawn (d : drawing) : bool :=
  match d with Drawn _ _ => true | _ => false end.

(** X11. What a call of the drawing function comes to: with a zero
    width or height it prints the dimension error and returns; else
    with no fixed instance it prints the warning and returns; else with
    a width or height that is negative or beyond [sys.maxsize] an
    [OverflowError] (from the figure size) or a [ValueError] (from the
    grid) leaves the function, and so do the [MemoryError] of a grid
    that cannot be allocated and, after the first message of the
    saving, the exception of a figure that cannot be saved; a figure is
    drawn exactly when width and height are positive, the list (of at
    most [sys.maxsize] instances) is not empty, the grid is allocated
    and the saving, if any, succeeds. *)
Theorem fixed_figure_cases
        (m : machine)
        (width height : Z) (fixed_instances : list fixed_instance)
        (instance_types : option (dict string))
        (output_file : option string) (show_plot : bool) :
  (Z.of_nat (List.length fixed_instances) <= maxsize)%Z ->
  let result :=
    create_fixed_elements_visualization
      m width height fixed_instances instance_types output_file show_plot in
  (width = 0%Z \/ height = 0%Z ->
   result = NoFigure "Error: Invalid site map dimensions.")
  /\ (width <> 0%Z -> height <> 0%Z -> fixed_instances = [] ->
      result = NoFigure "Warning: No fixed instances found.")
  /\ (width <> 0%Z -> height <> 0%Z -> fixed_instances <> [] ->
      (width < 0 \/ height < 0 \/ maxsize < width \/ maxsize < height)%Z ->
      result = Failed OverflowError []
      \/ exists t, result = Failed (ValueError t) [])
  /\ ((0 < width)%Z -> (0 < height)%Z -> fixed_instances <> [] ->
      np_full m height width = Some MemoryError ->
      result = Failed MemoryError [])
  /\ ((0 < width)%Z -> (0 < height)%Z -> fixed_instances <> [] ->
      np_full m height width = None ->
      forall e, save_fails m output_file = Some e ->
                result = Failed e (saving_message output_file))
  /\ (is_drawn result = true
      <-> (0 < width)%Z /\ (0 < height)%Z /\ fixed_instances <> []
          /\ np_full m height width = None
          /\ save_fails m output_file = None).
Proof.
  intros Hmax result. subst result. unfold create_fixed_elements_visualization.
  destruct (Z.eqb_spec width 0) as [Hw|Hw].
  { simpl. split; [auto|]. split; [congruence|]. split; [congruence|].
    split; [lia|]. split; [lia|]. split; [discriminate | lia]. }
  destruct (Z.eqb_spec height 0) as [Hh|Hh].
  { simpl. split; [auto|]. split; [congruence|]. split; [congruence|].
    split; [lia|]. split; [lia|]. split; [discriminate | lia]. }
  simpl orb. split; [intros [?|?]; congruence|].
  destruct fixed_instances as [|i0 l] eqn:EF.
  { split; [auto|]. split; [congruence|]. split; [congruence|].
    split; [congruence|].
    split; [discriminate|]. intros (_ & _ & N & _). congruence. }
  rewrite <- EF in *. split; [intros _ _ E; rewrite E in EF; discriminate|].
  assert (Hne : fixed_instances <> []) by (rewrite EF; discriminate).
  clear EF.
  destruct (figsize_cases width height) as [F|F]; rewrite F.
  - destruct (np_full m height width) as [e|] eqn:N.
    + split.
      { intros _ _ _ R. destruct (np_full_refuses m height width Hh R) as [t T].
        right. exists t. congruence. }
      split; [intros _ _ _ M; congruence|].
      split; [discriminate|].
      split; [discriminate|]. intros (_ & _ & _ & D & _). discriminate.
    + destruct (np_full_none m height width N) as (Bh & Bw & _).
      unfold statistics.
      destruct (coverage_text_defined _ width height Hmax) as (cov & ->).
      split; [intros _ _ _ R; exfalso; lia|].
      split; [discriminate|].
      destruct (save_fails m output_file) as [e|].
      * split; [intros _ _ _ _ e' E'; congruence|].
        split; [discriminate|]. intros (_ & _ & _ & _ & D). discriminate.
      * split; [discriminate|].
        split; [|reflexivity]. intros _. repeat split; try assumption; lia.
  - split; [auto|]. split.
    { intros Pw Ph _ M. exfalso.
      destruct (np_full_refuses m height width Hh) as [t T]; [|congruence].
      destruct (Z.le_gt_cases width maxsize) as [Lw|Gw]; [|lia].
      destruct (Z.le_gt_cases height maxsize) as [Lh|Gh]; [|lia].
      rewrite figsize_in_range in F by lia. discriminate. }
    split.
    { intros Pw Ph _ N. exfalso.
      destruct (np_full_none m height width N) as (Bh & Bw & _).
      rewrite figsize_in_range in F by lia. discriminate. }
    split; [discriminate|]. intros (Pw & Ph & _ & N & _).
    destruct (np_full_none m height width N) as (Bh & Bw & _).
    rewrite figsize_in_range in F by lia. discriminate.
Qed.

Lemma fixed_figure_cases_witness :
  (exists t, create_fixed_elements_visualization
               machine_8GiB (-4) 3 four_fixed None None false
             = Failed (ValueError t) [])
  /\ create_fixed_elements_visualization
       machine_8GiB (10 ^ 400) 3 four_fixed None None false
     = Failed OverflowError []
  /\ create_fixed_elements_visualization
       machine_8GiB (2 ^ 20) (2 ^ 20) four_fixed None None false
     = Failed MemoryError []
  /\ create_fixed_elements_visualization
       machine_8GiB 4 3 four_fixed None (Some "/") false
     = Failed (OSError "Is a directory") ["Saving visualization to: /"]
  /\ is_drawn (create_fixed_elements_visualization
                 machine_8GiB 4 3 four_fixed None (Some "fixed.png") false)
     = true.
Proof.
  split; [eexists; reflexivity|].
  split; [vm_compute; reflexivity|].
  destruct (fixed_figure_cases
              machine_8GiB 4 3 four_fixed None (Some "fixed.png") false)
    as (_ & _ & _ & _ & _ & D); [discriminate|].
  destruct (fixed_figure_cases
              machine_8GiB 4 3 four_fixed None (Some "/") false)
    as (_ & _ & _ & _ & S & _); [discriminate|].
  destruct (fixed_figure_cases
              machine_8GiB (2 ^ 20) (2 ^ 20) four_fixed None None false)
    as (_ & _ & _ & M & _); [discriminate|].
  split; [apply M; try reflexivity; discriminate|].
  split.
  - apply S; try reflexivity. discriminate.
  - apply D. repeat split; discriminate.
Defined.

Lemma count_types_total (types : dict string) (l : list fixed_instance)
      (c : Counter.t) :
  Counter.total
    (fold_left
       (fun c i =>
          match get types (name i) with
          | Some t => Counter.incr c t
          | None => Counter.incr c "UNKNOWN"
          end) l c)
  = Counter.total c + List.length l.
Proof.
  revert c. induction l as [|i l IH]; intros c; simpl; [lia|].
  rewrite IH. destruct (get types (name i)); rewrite total_incr; lia.
Qed.

(** X12. In the visualizer every fixed instance is counted under exactly
    one type, so the counts of the "By Instance Type" lines always add
    up to the Total Fixed Instances value, the length of the list. *)
Theorem fixed_figure_type_counts_add_up
        (types : dict string) (fixed_instances : list fixed_instance) :
  Counter.total (count_types types fixed_instances)
  = List.length fixed_instances
  /\ list_sum (map snd (Analyzer.most_common
                          (count_types types fixed_instances)))
     = List.length fixed_instances.
Proof.
  unfold count_types. rewrite most_common_sum, count_types_total.
  split; reflexivity.
Qed.

(** X13. A fixed instance inside the fabric whose name the type mapping
    does not have is drawn in the default colour [#FF6B6B], whatever
    colour the legend gives to [UNKNOWN]. *)
Theorem untyped_instance_drawn_in_default_colour
        (width height : Z) (instance_types : option (dict string))
        (colors : dict string) (fixed_instances : list fixed_instance)
        (i : fixed_instance) :
  In i fixed_instances ->
  inside width height i = true ->
  get (types_of instance_types) (name i) = None ->
  In {| rx := x i; ry := y i; linewidth := "0.5"; edgecolor := "black";
        facecolor := "#FF6B6B"; alpha := "0.8" |}
     (plot width height instance_types colors fixed_instances).
Proof.
  intros Hi Hin Habs. induction fixed_instances as [|j l IH]; simpl; [destruct Hi|].
  destruct Hi as [->|Hi].
  - unfold inside in Hin. rewrite Hin. left. unfold instance_color.
    rewrite Habs. destruct (typed instance_types); reflexivity.
  - destruct (in_bounds width height (x j) (y j)); [right|]; apply IH, Hi.
Qed.

Definition typed_fixed : list fixed_instance :=
  [{| name := "I1"; x := 0; y := 0; bel := 0 |};
   {| name := "I2"; x := 1; y := 0; bel := 0 |};
   {| name := "I9"; x := 1; y := 1; bel := 0 |}].

Definition some_types : option (dict string) :=
  Some [("I1", "BUF"); ("I2", "LUT")].

Lemma untyped_instance_drawn_in_default_colour_witness :
  In {| rx := 1; ry := 1; linewidth := "0.5"; edgecolor := "black";
        facecolor := "#FF6B6B"; alpha := "0.8" |}
     (plot 2 2 some_types (instance_colors some_types typed_fixed) typed_fixed)
  /\ get (instance_colors some_types typed_fixed) "UNKNOWN" = Some "#45B7D1".
Proof.
  split; [|reflexivity].
  apply (untyped_instance_drawn_in_default_colour
           2 2 some_types (instance_colors some_types typed_fixed) typed_fixed
           {| name := "I9"; x := 1; y := 1; bel := 0 |}).
  - right. right. left. reflexivity.
  - reflexivity.
  - reflexivity.
Defined.

End FixedFigure.

(** ** The reader and the figure of the Site-Map Visualizer *)

Section SiteFigure.
Import PyStr PyDict SiteViz.

Lemma set_add_spec (k : string) (l : list string) :
  (NoDup l -> NoDup (set_add k l))
  /\ forall x, In x (set_add k l) <-> In x l \/ x = k.
Proof.
  unfold set_add. destruct (existsb (String.eqb k) l) eqn:E.
  - apply existsb_exists in E. destruct E as (y & Hy & Ey).
    apply String.eqb_eq in Ey. subst y.
    split; [auto|]. intros x. split; [auto | intros [H| ->]; assumption].
  - split.
    + intros H. apply NoDup_app; [assumption | repeat constructor; simpl; tauto|].
      intros a Ha [Ek|[]]. subst a.
      assert (existsb (String.eqb k) l = true) as C
          by (apply existsb_exists; exists k; split;
              [assumption | apply String.eqb_refl]).
      congruence.
    + intros x. rewrite in_app_iff. simpl. intuition congruence.
Qed.

Definition type_of_site (s : Z * Z * string) : string := snd s.

Lemma sites_fold_types (lines : list string)
      (acc : list (Z * Z * string) * list string) :
  NoDup (snd acc) ->
  (forall t, In t (snd acc) <-> In t (map type_of_site (fst acc))) ->
  let r := fold_left sites_step lines acc in
  NoDup (snd r) /\ forall t, In t (snd r) <-> In t (map type_of_site (fst r)).
Proof.
  revert acc. induction lines as [|raw lines IH]; intros acc N E; simpl; [auto|].
  apply IH.
  - unfold sites_step.
    destruct (truthy (strip raw) && negb (startswith (strip raw) "SITE")
              && negb (startswith (strip raw) "RESOURCES")
              && negb (startswith (strip raw) "SITEMAP")); [|exact N].
    destruct (split (strip raw)) as [|tx [|ty [|t ts]]]; try exact N.
    destruct (PyInt.int tx), (PyInt.int ty); try exact N.
    simpl. apply set_add_spec, N.
  - unfold sites_step.
    destruct (truthy (strip raw) && negb (startswith (strip raw) "SITE")
              && negb (startswith (strip raw) "RESOURCES")
              && negb (startswith (strip raw) "SITEMAP")); [|exact E].
    destruct (split (strip raw)) as [|tx [|ty [|t ts]]]; try exact E.
    destruct (PyInt.int tx), (PyInt.int ty); try exact E.
    simpl. intros t0. rewrite (proj2 (set_add_spec t (snd acc))).
    rewrite map_app, in_app_iff, E. simpl. unfold type_of_site at 2. simpl.
    intuition congruence.
Qed.

(** X14. The set of site types the Site-Map Visualizer's reader returns
    has no repetition and holds exactly the types of the sites it
    returns: its size is the number of distinct site types among the
    collected sites. *)
Theorem discovered_types_are_the_site_types (lines : list string) :
  let '(_, _, sites, site_types, _) := parse_scl_file lines in
  NoDup site_types
  /\ forall t, In t site_types <-> exists x y, In (x, y, t) sites.
Proof.
  unfold parse_scl_file.
  destruct (dimensions_loop lines) as [e|[w h]].
  - split; [constructor|]. intros t. split; [intros [] | intros (x & y & [])].
  - destruct (sites_fold_types lines ([], [])) as [N E];
      [constructor | simpl; tauto |].
    split; [exact N|]. intros t. rewrite E. rewrite in_map_iff. split.
    + intros ([[x y] t0] & Ht & Hin). simpl in Ht. subst t0. eauto.
    + intros (x & y & Hin). exists (x, y, t). auto.
Qed.

(** The type the grid holds at a cell: that of the last site listed at
    that cell among the sites inside the fabric. *)
Definition site_at (width height : Z) (sites : list (Z * Z * string))
           (x y : Z) (before : string) : string :=
  fold_left
    (fun acc '(sx, sy, t) =>
       if in_bounds width height sx sy && ((y =? sy)%Z && (x =? sx)%Z)
       then t else acc)
    sites before.

Lemma fill_grid_from (width height : Z) (sites : list (Z * Z * string))
      (g : grid) (x y : Z) :
  fold_left
    (fun g '(sx, sy, t) =>
       if in_bounds width height sx sy then grid_set g sy sx t else g)
    sites g y x
  = site_at width height sites x y (g y x).
Proof.
  unfold site_at. revert g. induction sites as [|[[sx sy] t] sites IH];
    intros g; simpl; [reflexivity|].
  rewrite IH. f_equal. unfold grid_set.
  destruct (in_bounds width height sx sy); simpl; reflexivity.
Qed.

Lemma in_range (n k : Z) : In k (range n) <-> (0 <= k < n)%Z.
Proof.
  unfold range. rewrite in_map_iff. split.
  - intros (i & <- & Hi). apply in_seq in Hi. lia.
  - intros H. exists (Z.to_nat k). split; [lia|]. apply in_seq. lia.
Qed.

Lemma length_flat_map_const {A B : Type} (f : A -> list B) (l : list A) (n : nat) :
  (forall a, In a l -> List.length (f a) = n) ->
  List.length (flat_map f l) = List.length l * n.
Proof.
  induction l as [|a l IH]; intros H; simpl; [reflexivity|].
  rewrite length_app, (H a (or_introl eq_refl)), IH; [reflexivity|].
  intros b Hb. apply H. right. exact Hb.
Qed.

Lemma length_range (n : Z) : List.length (range n) = Z.to_nat n.
Proof. unfold range. rewrite length_map, length_seq. reflexivity. Qed.

(** X15. In a figure of the Site-Map Visualizer every square lies inside
    the fabric, so a site outside [0, width) x [0, height) is never
    drawn; and a square with a black edge, the mark of an occupied cell,
    has the colour of the type of the last site listed at its cell. *)
Theorem site_squares_inside_fabric
        (m : machine)
        (width height : Z) (sites : list (Z * Z * string))
        (site_types : list string)
        (output_file : option string) (show_plot : bool)
        (fig : figure) (messages : list string) (r : rectangle) :
  create_site_visualization m width height sites site_types
                            output_file show_plot
  = Drawn fig messages ->
  In r (patches fig) ->
  in_bounds width height (rx r) (ry r) = true
  /\ (edgecolor r = "black" ->
      truthy (site_at width height sites (rx r) (ry r) "") = true
      /\ facecolor r
         = color_of (site_colors site_types)
                    (site_at width height sites (rx r) (ry r) "")).
Proof.
  unfold create_site_visualization.
  destruct ((width =? 0) || (height =? 0))%Z; [discriminate|].
  destruct (figsize_fails width height); [discriminate|].
  destruct (np_full m height width); [discriminate|].
  destruct (save_fails m output_file); [discriminate|].
  intros E. injection E as <- _. simpl.
  rewrite in_flat_map. intros (y & Hy & Hr).
  rewrite in_flat_map in Hr. destruct Hr as (x & Hx & Hr).
  apply in_range in Hy. apply in_range in Hx.
  unfold cell, fill_grid in Hr. rewrite fill_grid_from in Hr.
  set (t := site_at width height sites x y "") in *.
  assert (B : in_bounds width height x y = true).
  { unfold in_bounds. repeat (apply andb_true_iff; split);
      try apply Z.leb_le; try apply Z.ltb_lt; lia. }
  destruct (truthy t) eqn:T.
  - destruct Hr as [<-|[]]. simpl. fold t. auto.
  - destruct (negb (10000 <? width * height)%Z); [|destruct Hr].
    destruct Hr as [<-|[]]. simpl. split; [exact B | discriminate].
Qed.

Definition corner_sites : list (Z * Z * string) :=
  [(0, 0, "IO"); (5, 5, "DSP"); (0, 0, "SLICE")]%Z.

Lemma site_squares_inside_fabric_witness :
  exists fig messages,
    create_site_visualization
      machine_8GiB 1 1 corner_sites ["IO"; "DSP"; "SLICE"] None false
    = Drawn fig messages
    /\ patches fig
       = [{| rx := 0; ry := 0; linewidth := "0.5"; edgecolor := "black";
             facecolor := "#FF9800"; alpha := "0.8" |}]
    /\ in_bounds 1 1 0 0 = true.
Proof.
  eexists. eexists. split; [reflexivity|]. split; [reflexivity|].
  refine (proj1 (site_squares_inside_fabric
                   machine_8GiB 1 1 corner_sites ["IO"; "DSP"; "SLICE"] None false _ _
                   {| rx := 0; ry := 0; linewidth := "0.5"; edgecolor := "black";
                      facecolor := "#FF9800"; alpha := "0.8" |} eq_refl _)).
  left. reflexivity.
Defined.

(** X16. In a figure of the Site-Map Visualizer on a fabric of at most
    10000 cells there is exactly one square per cell, width x height of
    them, occupied or not, and the grid lines are on; on a larger
    fabric the grid lines are off and every square is an occupied
    cell. *)
Theorem site_squares_per_cell
        (m : machine)
        (width height : Z) (sites : list (Z * Z * string))
        (site_types : list string)
        (output_file : option string) (show_plot : bool)
        (fig : figure) (messages : list string) :
  create_site_visualization m width height sites site_types
                            output_file show_plot
  = Drawn fig messages ->
  ((width * height <= 10000)%Z ->
   List.length (patches fig) = Z.to_nat (width * height)
   /\ grid_lines fig = true)
  /\ ((10000 < width * height)%Z ->
      grid_lines fig = false
      /\ forall r, In r (patches fig) -> edgecolor r = "black").
Proof.
  unfold create_site_visualization.
  destruct (Z.eqb_spec width 0) as [Hw|Hw]; [discriminate|].
  destruct (Z.eqb_spec height 0) as [Hh|Hh]; [discriminate|]. simpl orb.
  destruct (figsize_fails width height); [discriminate|].
  destruct (np_full m height width) eqn:N; [discriminate|].
  destruct (np_full_none m height width N) as (Bh & Bw & _).
  destruct (save_fails m output_file); [discriminate|].
  intros E. injection E as <- _. simpl.
  destruct (Z.ltb_spec 10000 (width * height)) as [L|S]; split; try lia.
  - intros _. split; [reflexivity|]. intros r.
    rewrite in_flat_map. intros (y & _ & Hr).
    rewrite in_flat_map in Hr. destruct Hr as (x & _ & Hr).
    unfold cell in Hr. simpl in Hr.
    destruct (truthy (fill_grid width height sites y x)); [|destruct Hr].
    destruct Hr as [<-|[]]. reflexivity.
  - intros _. split; [|reflexivity].
    rewrite (length_flat_map_const _ _ (Z.to_nat width)).
    + rewrite length_range, Z2Nat.inj_mul by lia. apply Nat.mul_comm.
    + intros y _. rewrite (length_flat_map_const _ _ 1).
      * rewrite length_range. lia.
      * intros x _. unfold cell. simpl.
        destruct (truthy (fill_grid width height sites y x)); reflexivity.
Qed.

Lemma site_squares_per_cell_witness :
  exists fig messages,
    create_site_visualization machine_8GiB 3 2 corner_sites [] None false
    = Drawn fig messages
    /\ List.length (patches fig) = 6.
Proof.
  eexists. eexists. split; [reflexivity|].
  refine (proj1 (proj1 (site_squares_per_cell
                          machine_8GiB 3 2 corner_sites [] None false _ _
                          eq_refl) _)).
  discriminate.
Defined.

Lemma site_counts_from (sites : list (Z * Z * string)) (c : Counter.t) :
  let r := fold_left (fun c '(_, _, t) => Counter.incr c t) sites c in
  Counter.total r = Counter.total c + List.length sites
  /\ forall t, Counter.count r t
               = Counter.count c t
                 + List.length (filter (String.eqb t) (map type_of_site sites)).
Proof.
  revert c. induction sites as [|[[sx sy] t0] sites IH]; intros c; simpl.
  - split; [lia | intros t; lia].
  - destruct (IH (Counter.incr c t0)) as [T C]. simpl in T, C. split.
    + rewrite T, total_incr. lia.
    + intros t. rewrite C. cbn [map filter].
      change (type_of_site (sx, sy, t0)) with t0.
      destruct (String.eqb_spec t t0) as [->|N].
      * rewrite count_incr_same. simpl. lia.
      * rewrite count_incr_other by assumption. lia.
Qed.

(** X17. The statistics of the Site-Map Visualizer count every listed
    site, also one outside the fabric or one overwritten by a later
    site at the same cell: the count of a type is the number of listed
    sites of that type, and the counts add up to the number of sites. *)
Theorem site_statistics_count_every_site (sites : list (Z * Z * string)) :
  Counter.total (site_counts sites) = List.length sites
  /\ forall t, Counter.count (site_counts sites) t
               = List.length (filter (String.eqb t) (map type_of_site sites)).
Proof.
  unfold site_counts. destruct (site_counts_from sites []) as [T C].
  split; [exact T | exact C].
Qed.

End SiteFigure.

(** ** Colours by sorted type *)

Section Colours.
Import PyDict.

Lemma insert_sorted_in (k : string) (l : list string) (x : string) :
  In x (insert_sorted k l) <-> x = k \/ In x l.
Proof.
  induction l as [|h r IH]; simpl; [intuition congruence|].
  destruct (String.leb k h); simpl; [intuition congruence|].
  rewrite IH. intuition congruence.
Qed.

Lemma sorted_in (l : list string) (x : string) : In x (sorted l) <-> In x l.
Proof.
  unfold sorted. induction l as [|a l IH]; simpl; [tauto|].
  rewrite insert_sorted_in, IH. intuition congruence.
Qed.

Lemma NoDup_insert_sorted (k : string) (l : list string) :
  ~ In k l -> NoDup l -> NoDup (insert_sorted k l).
Proof.
  induction l as [|h r IH]; simpl; intros Hk N.
  - repeat constructor. tauto.
  - destruct (String.leb k h).
    + constructor; [simpl; tauto | exact N].
    + inversion N as [|? ? Hh Nr]; subst. constructor.
      * rewrite insert_sorted_in. intuition congruence.
      * apply IH; [tauto | exact Nr].
Qed.

Lemma NoDup_sorted (l : list string) : NoDup l -> NoDup (sorted l).
Proof.
  unfold sorted. induction 1 as [|a l Ha N IH]; simpl; [constructor|].
  apply NoDup_insert_sorted; [|exact IH].
  fold (sorted l). rewrite sorted_in. exact Ha.
Qed.

Lemma length_insert_sorted (k : string) (l : list string) :
  List.length (insert_sorted k l) = S (List.length l).
Proof.
  induction l as [|h r IH]; simpl; [reflexivity|].
  destruct (String.leb k h); simpl; [reflexivity | rewrite IH; reflexivity].
Qed.

Lemma length_sorted (l : list string) : List.length (sorted l) = List.length l.
Proof.
  unfold sorted. induction l as [|a l IH]; simpl; [reflexivity|].
  rewrite length_insert_sorted, IH. reflexivity.
Qed.

(** Each element is at most the next one. *)
Fixpoint ascending (l : list string) : Prop :=
  match l with
  | a :: (b :: _) as r => String.leb a b = true /\ ascending r
  | _ => True
  end.

Lemma ascending_insert (k : string) (l : list string) :
  ascending l -> ascending (insert_sorted k l).
Proof.
  induction l as [|h r IH]; [simpl; auto|].
  intros A. cbn [insert_sorted]. destruct (String.leb k h) eqn:E.
  - split; [exact E | exact A].
  - assert (Hhk : String.leb h k = true)
      by (destruct (String.leb_total h k); congruence).
    destruct r as [|h2 r2]; [simpl; auto|].
    destruct A as [A1 A2]. specialize (IH A2).
    cbn [insert_sorted] in *. destruct (String.leb k h2).
    + split; [exact Hhk | exact IH].
    + split; [exact A1 | exact IH].
Qed.

Lemma ascending_sorted (l : list string) : ascending (sorted l).
Proof.
  unfold sorted. induction l as [|a l IH]; simpl; [exact I|].
  apply ascending_insert, IH.
Qed.

Variable palette : list string.

Lemma assign_colors_other (keys : list string) (i : nat) (d : dict string)
      (k : string) :
  ~ In k keys -> get (assign_colors palette i keys d) k = get d k.
Proof.
  revert i d. induction keys as [|h r IH]; intros i d Hk; simpl; [reflexivity|].
  rewrite IH by (simpl in Hk; tauto).
  apply get_set_other. simpl in Hk. intuition congruence.
Qed.

Lemma assign_colors_nth (keys : list string) (i : nat) (d : dict string)
      (j : nat) :
  NoDup keys -> j < List.length keys ->
  get (assign_colors palette i keys d) (nth j keys "")
  = Some (palette_color palette (i + j)).
Proof.
  revert i d j. induction keys as [|h r IH]; intros i d j N Hj; simpl in Hj; [lia|].
  inversion N as [|? ? Hh Nr]; subst. simpl.
  destruct j as [|j].
  - rewrite assign_colors_other by exact Hh.
    rewrite get_set_same, Nat.add_0_r. reflexivity.
  - rewrite IH by (try assumption; lia). f_equal. f_equal. lia.
Qed.

End Colours.

Section SiteColours.
Import PyDict SiteViz.

(** X18. In the Site-Map Visualizer the site types, taken in sorted
    order, get the colours of the palette in turn: the type at position
    j has colour j mod 15 of the palette, so two types fifteen
    positions apart share a colour; the sorted order is ascending and
    lists every type once. *)
Theorem site_colours_in_turn (site_types : list string) (j : nat) :
  NoDup site_types -> j < List.length site_types ->
  color_of (site_colors site_types) (nth j (sorted site_types) "")
  = nth (j mod 15) SITE_COLORS_PALETTE ""
  /\ (j + 15 < List.length site_types ->
      color_of (site_colors site_types) (nth (j + 15) (sorted site_types) "")
      = color_of (site_colors site_types) (nth j (sorted site_types) ""))
  /\ ascending (sorted site_types)
  /\ NoDup (sorted site_types)
  /\ (forall t, In t (sorted site_types) <-> In t site_types).
Proof.
  intros N Hj.
  assert (C : forall k, k < List.length site_types ->
                        color_of (site_colors site_types)
                                 (nth k (sorted site_types) "")
                        = nth (k mod 15) SITE_COLORS_PALETTE "").
  { intros k Hk. unfold color_of, site_colors.
    rewrite assign_colors_nth;
      [reflexivity | apply NoDup_sorted, N | rewrite length_sorted; exact Hk]. }
  split; [apply C, Hj|]. split.
  - intros H. rewrite (C _ H), (C _ Hj). f_equal.
    change (j + 15) with (j + 1 * 15). apply Nat.Div0.mod_add.
  - split; [apply ascending_sorted|]. split; [apply NoDup_sorted, N|].
    intros t. apply sorted_in.
Qed.

Definition sixteen_types : list string :=
  ["T15"; "T01"; "T02"; "T03"; "T04"; "T05"; "T06"; "T07"; "T08"; "T09";
   "T10"; "T11"; "T12"; "T13"; "T14"; "T00"].

Lemma site_colours_in_turn_witness :
  color_of (site_colors sixteen_types) "T00" = "#4CAF50"
  /\ color_of (site_colors sixteen_types) "T15" = "#4CAF50".
Proof.
  destruct (site_colours_in_turn sixteen_types 0) as (C0 & C15 & _).
  - apply NoDup_by_nodup. reflexivity.
  - simpl. lia.
  - split; [exact C0|].
    assert (H : 0 + 15 < List.length sixteen_types) by (simpl; lia).
    exact (eq_trans (C15 H) C0).
Defined.

End SiteColours.

(** ** The order of the type lines in the report *)

Section ReportOrder.
Import PyDict Analyzer.

(** Each count is at least the next one. *)
Fixpoint descending (l : list (string * nat)) : Prop :=
  match l with
  | p :: (q :: _) as r => snd q <= snd p /\ descending r
  | _ => True
  end.

Definition with_count (n : nat) (p : string * nat) : bool := snd p =? n.

Lemma descending_insert (p : string * nat) (l : list (string * nat)) :
  descending l -> descending (insert_by_count p l).
Proof.
  induction l as [|q r IH]; [simpl; auto|].
  intros A. cbn [insert_by_count].
  destruct (Nat.leb_spec (snd q) (snd p)) as [E|E].
  - split; [exact E | exact A].
  - destruct r as [|q2 r2]; [simpl; split; [lia | exact I]|].
    destruct A as [A1 A2]. specialize (IH A2).
    cbn [insert_by_count] in *. destruct (snd q2 <=? snd p).
    + split; [lia | exact IH].
    + split; [exact A1 | exact IH].
Qed.

Lemma filter_insert (n : nat) (p : string * nat) (l : list (string * nat)) :
  filter (with_count n) (insert_by_count p l)
  = filter (with_count n) (p :: l).
Proof.
  induction l as [|q r IH]; simpl; [reflexivity|].
  destruct (Nat.leb_spec (snd q) (snd p)) as [E|E]; [reflexivity|].
  simpl. rewrite IH. simpl. unfold with_count.
  destruct (Nat.eqb_spec (snd p) n) as [Ep|Ep];
    destruct (Nat.eqb_spec (snd q) n) as [Eq|Eq]; try reflexivity.
  lia.
Qed.

Lemma most_common_order (c : Counter.t) :
  descending (most_common c)
  /\ forall n, filter (with_count n) (most_common c) = filter (with_count n) c.
Proof.
  unfold most_common. induction c as [|p c [D F]]; simpl; [auto|]. split.
  - apply descending_insert, D.
  - intros n. rewrite filter_insert. simpl. rewrite F. reflexivity.
Qed.

(** X19. In the Nodes and the FIXED INSTANCES sections of the report the
    type lines come by count, largest first, and types with the same
    count stay in the order in which the counter first saw them; every
    type of the counter has its line. *)
Theorem report_type_lines_by_count
        (instances : dict string) (fixed_instances : dict placement)
        (counts : Counter.t) :
  exists listed,
    nodes_section instances counts
    = ["Nodes:"; rule30;
       "Total Nodes: " +++ PyInt.str (Z.of_nat (len instances)); "Node Types:"]
      ++ map count_line listed ++ [""]
    /\ fixed_section fixed_instances counts
       = ["FIXED INSTANCES:"; rule30;
          "Total Fixed Instances: "
            +++ PyInt.str (Z.of_nat (len fixed_instances));
          "Fixed Instance Types:"]
         ++ map count_line listed ++ [""]
    /\ descending listed
    /\ (forall n, filter (with_count n) listed = filter (with_count n) counts)
    /\ List.length listed = List.length counts.
Proof.
  exists (most_common counts). destruct (most_common_order counts) as [D F].
  split; [reflexivity|]. split; [reflexivity|]. split; [exact D|].
  split; [exact F|].
  unfold most_common. clear. induction counts as [|p c IH]; simpl; [reflexivity|].
  rewrite <- IH. generalize (fold_right insert_by_count [] c) as l.
  induction l as [|q r IHr]; simpl; [reflexivity|].
  destruct (snd q <=? snd p); simpl; [reflexivity | rewrite IHr; reflexivity].
Qed.

End ReportOrder.

(** ** The whole analysis *)

Section WholeAnalysis.
Import PyDict Analyzer.

Lemma filter_nonempty {A : Type} (f : A -> bool) (l : list A) :
  0 < List.length (filter f l) -> exists a, In a l /\ f a = true.
Proof.
  induction l as [|a l IH]; simpl; [lia|].
  destruct (f a) eqn:E; [eauto|].
  intros H. destruct (IH H) as (b & Hb & Fb). eauto.
Qed.

(** The fixed types of a .pl file read against an instance mapping. *)
Lemma fixed_types_resolved (instances : dict string) (lines : list string)
      (t : string) :
  let '(fixed_instances, fixed_types, _) :=
    parse_pl_file (Some instances) lines in
  0 < Counter.count fixed_types t ->
  exists n, mem fixed_instances n = true
            /\ (get instances n = Some t
                \/ (get instances n = None /\ t = "UNKNOWN")).
Proof.
  unfold parse_pl_file.
  destruct (pl_run_invariant (Some instances) lines pl_init)
    as (_ & I2 & _ & _ & I5).
  simpl in I2, I5. rewrite I5. simpl. intros H.
  destruct (filter_nonempty _ _ H) as ([n p] & Hin & Ht).
  exists n. split.
  - apply mem_keys, I2. right. apply in_map_iff. exists (n, p). auto.
  - unfold typed_as, instance_type in Ht. simpl in Ht.
    apply String.eqb_eq in Ht.
    destruct (get instances n) as [t'|];
      [left; congruence | right; split; [reflexivity | congruence]].
Qed.

(** X20. In the result of [analyze_directory] every type with a positive
    count in the fixed-type distribution belongs to a fixed instance of
    the result: it is the cell type the .nodes mapping of the same
    result gives that instance, or [UNKNOWN] for an instance the mapping
    does not have. Without a .nodes file only [UNKNOWN] is counted, and
    without any [.aux] file there is no result. *)
Theorem analysis_resolves_fixed_types (d : directory) :
  (aux_files d = [] <-> analyze_directory d = None)
  /\ forall a,
       analyze_directory d = Some a ->
       (forall t, 0 < Counter.count (a_fixed_types a) t ->
                  exists n, mem (a_fixed_instances a) n = true
                            /\ (get (a_instances a) n = Some t
                                \/ (get (a_instances a) n = None
                                    /\ t = "UNKNOWN")))
       /\ (file d (a_design_name a +++ ".nodes") = None ->
           forall t, 0 < Counter.count (a_fixed_types a) t -> t = "UNKNOWN").
Proof.
  unfold analyze_directory.
  destruct (aux_files d) as [|[design aux_lines] rest].
  { split; [tauto | discriminate]. }
  set (nodes := if_exists d (design +++ ".nodes")
                  (fun l => fst (parse_nodes_file l)) ([], [])).
  destruct nodes as [instances instance_types] eqn:EN.
  destruct (if_exists d (design +++ ".nets")
              (fun l => fst (parse_nets_file l)) ([], 0)) as [nets net_count].
  set (pl := if_exists d (design +++ ".pl")
               (fun l => fst (parse_pl_file (Some instances) l)) ([], [])).
  destruct pl as [fixed_instances fixed_types] eqn:EP.
  destruct (if_exists d (design +++ ".scl")
              (fun l => fst (parse_scl_file l)) ([], [], [], None))
    as [[[sites resources] site_map] dims].
  destruct (if_exists d (design +++ ".wts")
              (fun l => fst (parse_wts_file l)) ([], 0)) as [weights weight_count].
  split; [split; [discriminate | discriminate]|].
  intros a E. injection E as <-. simpl.
  assert (R : forall t, 0 < Counter.count fixed_types t ->
                        exists n, mem fixed_instances n = true
                                  /\ (get instances n = Some t
                                      \/ (get instances n = None
                                          /\ t = "UNKNOWN"))).
  { intros t. subst pl. unfold if_exists in EP.
    destruct (file d (design +++ ".pl")) as [lines|].
    - pose proof (fixed_types_resolved instances lines t) as F.
      destruct (parse_pl_file (Some instances) lines) as [[fi ft] m].
      simpl in EP. injection EP as -> ->. exact F.
    - injection EP as <- <-. intros H. exfalso.
      unfold Counter.count in H. simpl in H. lia. }
  split; [exact R|].
  intros Hn t Ht. destruct (R t Ht) as (n & _ & [G|[_ G]]); [|exact G].
  subst nodes. unfold if_exists in EN. rewrite Hn in EN.
  injection EN as <- _. discriminate.
Qed.

Definition small_design : directory :=
  {| aux_files := [("d", ["d : d.nodes d.pl"])];
     file := fun n =>
               if String.eqb n "d.nodes" then Some ["I1 LUT"; "I2 FF"]
               else if String.eqb n "d.pl"
                    then Some ["I1 1 1 0 FIXED"; "I9 1 1 0 FIXED"]
                    else None |}.

Lemma analysis_resolves_fixed_types_witness :
  exists a,
    analyze_directory small_design = Some a
    /\ a_fixed_types a = [("LUT", 1); ("UNKNOWN", 1)]
    /\ exists n, mem (a_fixed_instances a) n = true
                 /\ (get (a_instances a) n = Some "LUT"
                     \/ (get (a_instances a) n = None /\ "LUT" = "UNKNOWN")).
Proof.
  eexists. split; [reflexivity|]. split; [reflexivity|].
  refine (proj1 (proj2 (analysis_resolves_fixed_types small_design) _ eq_refl)
                "LUT" _).
  vm_compute. constructor.
Defined.

End WholeAnalysis.

(** ** Colours of the typed fixed instances *)

Section FixedColours.
Import PyDict FixedViz.

Definition resolved (types : dict string) (i : fixed_instance) : string :=
  match get types (name i) with
  | Some t => t
  | None => "UNKNOWN"
  end.

Lemma count_types_keys (types : dict string) (l : list fixed_instance)
      (c : Counter.t) :
  let r := fold_left
             (fun c i =>
                match get types (name i) with
                | Some t => Counter.incr c t
                | None => Counter.incr c "UNKNOWN"
                end) l c in
  (NoDup (keys c) -> NoDup (keys r))
  /\ forall t, In t (keys r)
               <-> In t (keys c) \/ exists i, In i l /\ resolved types i = t.
Proof.
  revert c. induction l as [|i l IH]; intros c; simpl.
  - split; [auto|]. intros t. split; [auto | intros [H|(i & [] & _)]; exact H].
  - set (c1 := match get types (name i) with
               | Some t => Counter.incr c t
               | None => Counter.incr c "UNKNOWN"
               end).
    assert (E : c1 = Counter.incr c (resolved types i))
      by (unfold c1, resolved; destruct (get types (name i)); reflexivity).
    destruct (IH c1) as [N K]. simpl in N, K. split.
    + intros H. apply N. rewrite E. apply NoDup_keys_set, H.
    + intros t. rewrite K, E. unfold Counter.incr. rewrite in_keys_set. split.
      * intros [[H| ->]|(j & Hj & Rj)]; eauto.
      * intros [H|(j & [<-|Hj] & Rj)]; eauto.
Qed.

Lemma plot_typed (width height : Z) (instance_types : option (dict string))
      (colors : dict string) (l : list fixed_instance)
      (i : fixed_instance) (t c : string) :
  typed instance_types = true ->
  In i l -> inside width height i = true ->
  get (types_of instance_types) (name i) = Some t ->
  get colors t = Some c ->
  In {| rx := x i; ry := y i; linewidth := "0.5"; edgecolor := "black";
        facecolor := c; alpha := "0.8" |}
     (plot width height instance_types colors l).
Proof.
  intros Ht Hi Hin Hn Hc. induction l as [|j l IH]; simpl; [destruct Hi|].
  destruct Hi as [->|Hi].
  - unfold inside in Hin. rewrite Hin. left. unfold instance_color.
    rewrite Ht, Hn, Hc. reflexivity.
  - destruct (in_bounds width height (x j) (y j)); [right|]; apply IH, Hi.
Qed.

(** X21. With type information, a fixed instance inside the fabric whose
    name the type mapping has is drawn in the colour of its cell type:
    the palette colour j mod 15, where j is the position of the type
    among the sorted distinct types of the fixed instances, which is
    also the colour the colour mapping (and so the legend) gives that
    type. *)
Theorem typed_instance_drawn_in_type_colour
        (width height : Z) (instance_types : option (dict string))
        (fixed_instances : list fixed_instance)
        (i : fixed_instance) (t : string) :
  typed instance_types = true ->
  In i fixed_instances ->
  inside width height i = true ->
  get (types_of instance_types) (name i) = Some t ->
  let colors := instance_colors instance_types fixed_instances in
  let sorted_types :=
    sorted (keys (count_types (types_of instance_types) fixed_instances)) in
  exists j,
    j < List.length sorted_types
    /\ nth j sorted_types "" = t
    /\ get colors t = Some (nth (j mod 15) INSTANCE_COLORS_PALETTE "")
    /\ In {| rx := x i; ry := y i; linewidth := "0.5"; edgecolor := "black";
             facecolor := nth (j mod 15) INSTANCE_COLORS_PALETTE "";
             alpha := "0.8" |}
          (plot width height instance_types colors fixed_instances).
Proof.
  intros Ht Hi Hin Hn colors sorted_types.
  destruct (count_types_keys (types_of instance_types) fixed_instances [])
    as [N K]. simpl in N, K.
  fold (count_types (types_of instance_types) fixed_instances) in N, K.
  assert (I : In t sorted_types).
  { unfold sorted_types. rewrite sorted_in, K. right. exists i.
    split; [exact Hi|]. unfold resolved. rewrite Hn. reflexivity. }
  destruct (In_nth _ _ "" I) as (j & Hj & Ej). exists j.
  assert (C : get colors t = Some (nth (j mod 15) INSTANCE_COLORS_PALETTE "")).
  { unfold colors, instance_colors. rewrite Ht. rewrite <- Ej.
    fold sorted_types. rewrite assign_colors_nth;
      [reflexivity | apply NoDup_sorted, N, NoDup_nil | exact Hj]. }
  split; [exact Hj|]. split; [exact Ej|]. split; [exact C|].
  apply (plot_typed _ _ _ _ _ _ t); assumption.
Qed.

Lemma typed_instance_drawn_in_type_colour_witness :
  In {| rx := 1; ry := 0; linewidth := "0.5"; edgecolor := "black";
        facecolor := "#4ECDC4"; alpha := "0.8" |}
     (plot 2 2 some_types (instance_colors some_types typed_fixed) typed_fixed).
Proof.
  destruct (typed_instance_drawn_in_type_colour
              2 2 some_types typed_fixed
              {| name := "I2"; x := 1; y := 0; bel := 0 |} "LUT")
    as (j & Hj & Ej & _ & P).
  - reflexivity.
  - right. left. reflexivity.
  - reflexivity.
  - reflexivity.
  - assert (j = 1) as ->.
    { simpl in Hj, Ej.
      destruct j as [|[|[|j]]]; [discriminate | reflexivity | discriminate | lia]. }
    exact P.
Defined.

End FixedColours.
